(** * exif_rename: a shallow embedding of [exif_rename.py]

    The development follows the layout of the Python module: the small
    part of the Python runtime the program relies on (strings, [pathlib],
    [datetime], the filesystem, the two metadata readers) comes first, then
    the classes [Extractable], [Video] and [Image], then [execute_by_path]
    and the loop of [main].  The vocabulary of the properties and the
    example data follow, and the properties themselves come last. *)

From stdpp Require Import gmap strings list fin_maps.
From Stdlib Require Import ZArith Ascii String DecimalString DecimalNat.

Local Open Scope string_scope.
Local Open Scope list_scope.

(** ** Python runtime: exceptions and outcomes *)

(** The exception classes that the program can meet. [ValueError] is what
    [strptime] raises and what the parsing loops catch. *)
Inductive exn :=
  | LookupError | KeyError | IndexError | TypeError | ValueError
  | UnboundLocalError | NotImplementedError | OverflowError
  | FileNotFoundError | InvalidImageDataError | FfmpegError.

(** The outcome of running a piece of code: a value, a raised exception,
    or [Diverge] when the fuel given to a [while] loop ran out. *)
Inductive outcome (A : Type) :=
  | Ok (a : A)
  | Raise (e : exn)
  | Diverge.
Arguments Ok {A} a.
Arguments Raise {A} e.
Arguments Diverge {A}.

#[global] Instance exn_eq_dec : EqDecision exn.
Proof. solve_decision. Defined.

(** ** Python runtime: strings *)

Module PyStr.

Definition is_upper (c : ascii) : bool :=
  let n := nat_of_ascii c in (65 <=? n)%nat && (n <=? 90)%nat.

Definition lower_ascii (c : ascii) : ascii :=
  if is_upper c then ascii_of_nat (nat_of_ascii c + 32) else c.

(** [str.lower] on ASCII text. *)
Fixpoint lower (s : string) : string :=
  match s with
  | EmptyString => EmptyString
  | String c s' => String (lower_ascii c) (lower s')
  end.

(** [str(n)] for a non-negative integer. *)
Definition str_nat (n : nat) : string :=
  NilZero.string_of_uint (Nat.to_uint n).

(** [''.join(l)]. *)
Fixpoint join (l : list string) : string :=
  match l with
  | [] => ""
  | s :: l' => s +:+ join l'
  end.

(** [s[i:]] for [i = s.rfind(c)], when [c] occurs in [s]. *)
Fixpoint rfind_tail (c : ascii) (s : string) : option string :=
  match s with
  | EmptyString => None
  | String a s' =>
      match rfind_tail c s' with
      | Some t => Some t
      | None => if Ascii.eqb a c then Some s else None
      end
  end.

(** [s.split(c)]: never empty, [n] separators give [n + 1] fields. *)
Fixpoint split (c : ascii) (s : string) : list string :=
  match s with
  | EmptyString => [""]
  | String a s' =>
      if Ascii.eqb a c then "" :: split c s'
      else match split c s' with
           | [] => [String a ""]
           | f :: fs => String a f :: fs
           end
  end.

(** [s.lstrip(c)]. *)
Fixpoint lstrip (c : ascii) (s : string) : string :=
  match s with
  | EmptyString => EmptyString
  | String a s' => if Ascii.eqb a c then lstrip c s' else s
  end.

(** [s.endswith(c)] for a one-character [c]. *)
Fixpoint endswith (c : ascii) (s : string) : bool :=
  match s with
  | EmptyString => false
  | String a EmptyString => Ascii.eqb a c
  | String _ s' => endswith c s'
  end.

(** [c in s] for a one-character [c]. *)
Fixpoint contains (c : ascii) (s : string) : bool :=
  match s with
  | EmptyString => false
  | String a s' => Ascii.eqb a c || contains c s'
  end.

(** [s[:n]]. *)
Fixpoint take (n : nat) (s : string) : string :=
  match n, s with
  | S n', String a s' => String a (take n' s')
  | _, _ => EmptyString
  end.

(** Truthiness of a string: non-empty. *)
Definition truthy (s : string) : bool :=
  match s with EmptyString => false | _ => true end.

End PyStr.

(** ** Python runtime: [pathlib]

    A path is a directory together with a final component; [dir / s] is
    taken for a relative, one-component [s], which is what a formatted
    file name is.  Two paths are equal when both parts are. *)

Record Path := mkPath { parent : string; name : string }.

#[global] Instance Path_eq_dec : EqDecision Path.
Proof. solve_decision. Defined.

#[global] Instance Path_countable : Countable Path.
Proof.
  apply (inj_countable' (fun p => (parent p, name p))
                        (fun q => mkPath (fst q) (snd q))).
  by intros [].
Defined.

Module PathLib.

(** [dir / s]. *)
Definition joinpath (dir : string) (s : string) : Path := mkPath dir s.

(** [PurePath.suffix]: the text from the last dot of the name on, unless
    that dot is the first or the last character. *)
Definition suffix (p : Path) : string :=
  match PyStr.rfind_tail "." (name p) with
  | Some t =>
      if (String.length t <? String.length (name p))%nat
         && (1 <? String.length t)%nat
      then t else ""
  | None => ""
  end.

(** [PurePath.suffixes]. *)
Definition suffixes (p : Path) : list string :=
  if PyStr.endswith "." (name p) then []
  else List.map (fun s => "." +:+ s)
                (List.tl (PyStr.split "." (PyStr.lstrip "." (name p)))).

(** [PurePath.with_suffix]: [ValueError] for a suffix that holds a
    separator, does not start with a dot or is a lone dot, and for a path
    with an empty name. *)
Definition with_suffix (p : Path) (suf : string) : outcome Path :=
  if PyStr.contains "/" suf then Raise ValueError
  else if PyStr.truthy suf
          && (negb (String.prefix "." suf) || String.eqb suf ".")
  then Raise ValueError
  else if negb (PyStr.truthy (name p)) then Raise ValueError
  else
    let old := suffix p in
    let stem :=
      PyStr.take (String.length (name p) - String.length old) (name p) in
    Ok (mkPath (parent p) (stem +:+ suf)).

End PathLib.

(** ** Python runtime: [datetime]

    [timedelta] and the offset of a [timezone] are whole seconds, which is
    all that [parse_timedelta] and the offset formats of the program can
    produce.  The calendar functions are those of CPython's [datetime]. *)

Module DateTime.

Local Open Scope Z_scope.

Record timedelta := Timedelta { total_seconds : Z }.

Record timezone := Timezone { utcoffset : Z }.

(** [timezone.utc]. *)
Definition utc : timezone := Timezone 0.

Record datetime := mkDatetime {
  year : Z; month : Z; day : Z;
  hour : Z; minute : Z; second : Z; microsecond : Z;
  tzinfo : option timezone
}.

#[global] Instance timedelta_eq_dec : EqDecision timedelta.
Proof. solve_decision. Defined.
#[global] Instance timezone_eq_dec : EqDecision timezone.
Proof. solve_decision. Defined.
#[global] Instance datetime_eq_dec : EqDecision datetime.
Proof. solve_decision. Defined.

(** [timedelta(hours=h, minutes=m)]. *)
Definition timedelta_hm (h m : Z) : timedelta := Timedelta (h * 3600 + m * 60).

(** Truthiness of a [timedelta]: non-zero. *)
Definition timedelta_truthy (d : timedelta) : bool :=
  negb (total_seconds d =? 0).

(** [dt.replace(tzinfo=tz)]. *)
Definition replace_tzinfo (dt : datetime) (tz : option timezone) : datetime :=
  mkDatetime (year dt) (month dt) (day dt) (hour dt) (minute dt) (second dt)
             (microsecond dt) tz.

(** *** The proleptic Gregorian calendar *)

Definition MAXORDINAL : Z := 3652059.

Definition is_leap (y : Z) : bool :=
  (y mod 4 =? 0) && (negb (y mod 100 =? 0) || (y mod 400 =? 0)).

Definition DAYS_IN_MONTH (m : Z) : Z :=
  match m with
  | 1 => 31 | 2 => 28 | 3 => 31 | 4 => 30 | 5 => 31 | 6 => 30
  | 7 => 31 | 8 => 31 | 9 => 30 | 10 => 31 | 11 => 30 | 12 => 31
  | _ => -1
  end.

Definition DAYS_BEFORE_MONTH (m : Z) : Z :=
  match m with
  | 1 => 0 | 2 => 31 | 3 => 59 | 4 => 90 | 5 => 120 | 6 => 151
  | 7 => 181 | 8 => 212 | 9 => 243 | 10 => 273 | 11 => 304 | 12 => 334
  | _ => -1
  end.

Definition days_before_year (y : Z) : Z :=
  let y := y - 1 in y * 365 + y / 4 - y / 100 + y / 400.

Definition days_in_month (y m : Z) : Z :=
  if (m =? 2) && is_leap y then 29 else DAYS_IN_MONTH m.

Definition days_before_month (y m : Z) : Z :=
  DAYS_BEFORE_MONTH m + (if (2 <? m) && is_leap y then 1 else 0).

Definition ymd2ord (y m d : Z) : Z :=
  days_before_year y + days_before_month y m + d.

Definition DI400Y : Z := 146097.
Definition DI100Y : Z := 36524.
Definition DI4Y : Z := 1461.

Definition ord2ymd (n : Z) : Z * Z * Z :=
  let n := n - 1 in
  let n400 := n / DI400Y in
  let n := n mod DI400Y in
  let y := n400 * 400 + 1 in
  let n100 := n / DI100Y in
  let n := n mod DI100Y in
  let n4 := n / DI4Y in
  let n := n mod DI4Y in
  let n1 := n / 365 in
  let n := n mod 365 in
  let y := y + n100 * 100 + n4 * 4 + n1 in
  if (n1 =? 4) || (n100 =? 4) then (y - 1, 12, 31)
  else
    let leapyear := (n1 =? 3) && (negb (n4 =? 24) || (n100 =? 3)) in
    let m := Z.shiftr (n + 50) 5 in
    let preceding :=
      DAYS_BEFORE_MONTH m + (if (2 <? m) && leapyear then 1 else 0) in
    if n <? preceding then
      let m := m - 1 in
      let preceding :=
        preceding
        - (DAYS_IN_MONTH m + (if (m =? 2) && leapyear then 1 else 0)) in
      (y, m, n - preceding + 1)
    else (y, m, n - preceding + 1).

(** Seconds since midnight. *)
Definition day_seconds (dt : datetime) : Z :=
  hour dt * 3600 + minute dt * 60 + second dt.

(** [dt + timedelta(seconds=s)]; [OverflowError] outside years 1..9999. *)
Definition add_seconds (dt : datetime) (s : Z) : outcome datetime :=
  let total :=
    ymd2ord (year dt) (month dt) (day dt) * 86400 + day_seconds dt + s in
  let days := total / 86400 in
  let rem := total mod 86400 in
  if (0 <? days) && (days <=? MAXORDINAL) then
    let '(y, m, d) := ord2ymd days in
    Ok (mkDatetime y m d (rem / 3600) (rem mod 3600 / 60) (rem mod 60)
                   (microsecond dt) (tzinfo dt))
  else Raise OverflowError.

(** [dt + delta]. *)
Definition add (dt : datetime) (delta : timedelta) : outcome datetime :=
  add_seconds dt (total_seconds delta).

(** [dt.astimezone(tz)].  A naive [dt] is presumed to be in the system
    time zone, whose offset is [local]; an aware one is converted from its
    own offset.  The clock value moves by the difference of the offsets.
    (When [tz] is the very object [dt] carries, Python returns [dt] itself
    without computing.) *)
Definition astimezone (local : Z) (dt : datetime) (tz : timezone)
  : outcome datetime :=
  let myoffset :=
    match tzinfo dt with
    | Some mytz => utcoffset mytz
    | None => local
    end in
  match add_seconds dt (- myoffset) with
  | Ok u =>
      add_seconds (replace_tzinfo u (Some tz)) (utcoffset tz)
  | Raise e => Raise e
  | Diverge => Diverge
  end.

(** *** [strptime]

    [datetime.strptime] turns the format into a regular expression, one
    group per directive, matches it against the head of the text and then
    rejects unconverted data.  The alternatives of each group are listed
    below in the order of the expression, so the first match found by
    backtracking is the one Python finds.  The directives are those of the
    formats that the program uses: [%Y %m %d %H %M %S %f %z] and [%%]; a
    fraction of a second in a [%z] offset is not covered. *)

Record fields := mkFields {
  f_year : Z; f_month : Z; f_day : Z;
  f_hour : Z; f_minute : Z; f_second : Z; f_fraction : Z;
  f_gmtoff : option Z;
  f_bad : bool
}.

Definition fields0 : fields := mkFields 1900 1 1 0 0 0 0 None false.

Definition set_year v f := mkFields v (f_month f) (f_day f) (f_hour f)
  (f_minute f) (f_second f) (f_fraction f) (f_gmtoff f) (f_bad f).
Definition set_month v f := mkFields (f_year f) v (f_day f) (f_hour f)
  (f_minute f) (f_second f) (f_fraction f) (f_gmtoff f) (f_bad f).
Definition set_day v f := mkFields (f_year f) (f_month f) v (f_hour f)
  (f_minute f) (f_second f) (f_fraction f) (f_gmtoff f) (f_bad f).
Definition set_hour v f := mkFields (f_year f) (f_month f) (f_day f) v
  (f_minute f) (f_second f) (f_fraction f) (f_gmtoff f) (f_bad f).
Definition set_minute v f := mkFields (f_year f) (f_month f) (f_day f)
  (f_hour f) v (f_second f) (f_fraction f) (f_gmtoff f) (f_bad f).
Definition set_second v f := mkFields (f_year f) (f_month f) (f_day f)
  (f_hour f) (f_minute f) v (f_fraction f) (f_gmtoff f) (f_bad f).
Definition set_fraction v f := mkFields (f_year f) (f_month f) (f_day f)
  (f_hour f) (f_minute f) (f_second f) v (f_gmtoff f) (f_bad f).
Definition set_gmtoff v (bad : bool) f := mkFields (f_year f) (f_month f)
  (f_day f) (f_hour f) (f_minute f) (f_second f) (f_fraction f) (Some v)
  (f_bad f || bad).

Definition digit (c : ascii) : option Z :=
  let n := Z.of_nat (nat_of_ascii c) in
  if (48 <=? n) && (n <=? 57) then Some (n - 48) else None.

Definition is_space (c : ascii) : bool :=
  let n := Z.of_nat (nat_of_ascii c) in
  ((9 <=? n) && (n <=? 13)) || (n =? 32).

(** One digit that satisfies [P]. *)
Definition d1 (P : Z -> bool) (s : string) : list (Z * string) :=
  match s with
  | String a s' =>
      match digit a with
      | Some x => if P x then [(x, s')] else []
      | None => []
      end
  | _ => []
  end.

(** Two digits that satisfy [P]. *)
Definition d2 (P : Z -> Z -> bool) (s : string) : list (Z * string) :=
  match s with
  | String a (String b s') =>
      match digit a, digit b with
      | Some x, Some y => if P x y then [(10 * x + y, s')] else []
      | _, _ => []
      end
  | _ => []
  end.

(** Exactly four digits. *)
Definition d4 (s : string) : list (Z * string) :=
  match s with
  | String a (String b (String c (String d s'))) =>
      match digit a, digit b, digit c, digit d with
      | Some x, Some y, Some z, Some w =>
          [(1000 * x + 100 * y + 10 * z + w, s')]
      | _, _, _, _ => []
      end
  | _ => []
  end.

(** Between one and [n] digits, longest first; the value is the digits
    padded with zeros on the right to [n] places, as for [%f]. *)
Fixpoint dfrac (n : nat) (acc : Z) (s : string) : list (Z * string) :=
  match n with
  | O => []
  | S n' =>
      match s with
      | String a s' =>
          match digit a with
          | Some x =>
              let acc' := 10 * acc + x in
              dfrac n' acc' s' ++ [(acc' * 10 ^ Z.of_nat n', s')]
          | None => []
          end
      | _ => []
      end
  end.

(** One or more white-space characters, longest first. *)
Fixpoint spaces (s : string) : list string :=
  match s with
  | String a s' => if is_space a then spaces s' ++ [s'] else []
  | _ => []
  end.

(** An optional colon: with it first, then without. *)
Definition opt_colon (s : string) : list (bool * string) :=
  match s with
  | String ":" s' => [(true, s'); (false, s)]
  | _ => [(false, s)]
  end.

(** The group of [%z]: [[+-]\d\d:?[0-5]\d(:?[0-5]\d)?] or [Z].  An offset
    that uses the colon in one place and not in the other is read and
    then refused, which the flag records. *)
Definition re_z (s : string) : list ((fields -> fields) * string) :=
  match s with
  | String sg s1 =>
      (if Ascii.eqb sg "+" || Ascii.eqb sg "-" then
         let sign := if Ascii.eqb sg "-" then -1 else 1 in
         '(hh, s2) ← d2 (fun _ _ => true) s1;
         '(c1, s3) ← opt_colon s2;
         '(mm, s4) ← d2 (fun a _ => a <=? 5) s3;
         (('(c2, s5) ← opt_colon s4;
           '(ss, s6) ← d2 (fun a _ => a <=? 5) s5;
           [(set_gmtoff (sign * (hh * 3600 + mm * 60 + ss))
                        (negb (Bool.eqb c1 c2)), s6)])
          ++ [(set_gmtoff (sign * (hh * 3600 + mm * 60)) false, s4)])
       else [])
      ++ (if Ascii.eqb sg "Z" then [(set_gmtoff 0 false, s1)] else [])
  | _ => []
  end.

(** The directives of the table, and the items of a compiled format. *)
Inductive dir := DY | Dm | Dd | DH | DM | DS | Df | Dz.

Inductive item := Dir (d : dir) | Lit (c : ascii) | Space.

Definition dir_of_ascii (c : ascii) : option dir :=
  if Ascii.eqb c "Y" then Some DY
  else if Ascii.eqb c "m" then Some Dm
  else if Ascii.eqb c "d" then Some Dd
  else if Ascii.eqb c "H" then Some DH
  else if Ascii.eqb c "M" then Some DM
  else if Ascii.eqb c "S" then Some DS
  else if Ascii.eqb c "f" then Some Df
  else if Ascii.eqb c "z" then Some Dz
  else None.

Definition with_ (set : Z -> fields -> fields) (l : list (Z * string))
  : list ((fields -> fields) * string) :=
  List.map (fun vr => (set (fst vr), snd vr)) l.

(** The alternatives of one item of the format on the text [s].  A letter
    of the format matches in either case. *)
Definition candidates (it : item) (s : string)
  : list ((fields -> fields) * string) :=
  match it with
  | Lit c =>
      match s with
      | String a s' =>
          if Ascii.eqb (PyStr.lower_ascii a) (PyStr.lower_ascii c)
          then [(fun f => f, s')] else []
      | _ => []
      end
  | Space => List.map (fun r => (fun f : fields => f, r)) (spaces s)
  | Dir DY => with_ set_year (d4 s)
  | Dir Dm =>
      with_ set_month
        (d2 (fun a b => (a =? 1) && (b <=? 2)) s
         ++ d2 (fun a b => (a =? 0) && (1 <=? b)) s
         ++ d1 (fun a => 1 <=? a) s)
  | Dir Dd =>
      with_ set_day
        (d2 (fun a b => (a =? 3) && (b <=? 1)) s
         ++ d2 (fun a _ => (1 <=? a) && (a <=? 2)) s
         ++ d2 (fun a b => (a =? 0) && (1 <=? b)) s
         ++ d1 (fun a => 1 <=? a) s
         ++ match s with
            | String " " s' => d1 (fun a => 1 <=? a) s'
            | _ => []
            end)
  | Dir DH =>
      with_ set_hour
        (d2 (fun a b => (a =? 2) && (b <=? 3)) s
         ++ d2 (fun a _ => a <=? 1) s
         ++ d1 (fun _ => true) s)
  | Dir DM =>
      with_ set_minute (d2 (fun a _ => a <=? 5) s ++ d1 (fun _ => true) s)
  | Dir DS =>
      with_ set_second
        (d2 (fun a b => (a =? 6) && (b <=? 1)) s
         ++ d2 (fun a _ => a <=? 5) s
         ++ d1 (fun _ => true) s)
  | Dir Df => with_ set_fraction (dfrac 6 0 s)
  | Dir Dz => re_z s
  end.

(** The items of a format; [None] for a directive outside the table or a
    stray [%].  A run of white space in the format is one [Space]. *)
Fixpoint compile (fmt : string) : option (list item) :=
  match fmt with
  | EmptyString => Some []
  | String c rest =>
      if Ascii.eqb c "%" then
        match rest with
        | EmptyString => None
        | String d rest' =>
            if Ascii.eqb d "%" then cons (Lit "%") <$> compile rest'
            else match dir_of_ascii d with
                 | Some d => cons (Dir d) <$> compile rest'
                 | None => None
                 end
        end
      else if is_space c then
        match compile rest with
        | Some (Space :: items) => Some (Space :: items)
        | Some items => Some (Space :: items)
        | None => None
        end
      else cons (Lit c) <$> compile rest
  end.

(** The first match of the items against the head of [s]. *)
Fixpoint re_match (items : list item) (acc : fields) (s : string)
  : option (fields * string) :=
  match items with
  | [] => Some (acc, s)
  | it :: items' =>
      (fix try (cands : list ((fields -> fields) * string)) :=
         match cands with
         | [] => None
         | (upd, s') :: cands' =>
             match re_match items' (upd acc) s' with
             | Some r => Some r
             | None => try cands'
             end
         end) (candidates it s)
  end.

(** The checks of the [datetime] constructor on the fields read. *)
Definition build (f : fields) : outcome datetime :=
  if f_bad f then Raise ValueError
  else if (f_year f <? 1) || (9999 <? f_year f) then Raise ValueError
  else if days_in_month (f_year f) (f_month f) <? f_day f
  then Raise ValueError
  else if 59 <? f_second f then Raise ValueError
  else Ok (mkDatetime (f_year f) (f_month f) (f_day f) (f_hour f)
                      (f_minute f) (f_second f) (f_fraction f)
                      (Timezone <$> f_gmtoff f)).

(** [datetime.strptime(data, fmt)]: a [datetime] or [ValueError]. *)
Definition strptime (data fmt : string) : outcome datetime :=
  match compile fmt with
  | None => Raise ValueError
  | Some items =>
      match re_match items fields0 data with
      | Some (f, EmptyString) => build f
      | _ => Raise ValueError
      end
  end.

(** *** [strftime]

    The numeric directives, [%z] and [%%] are expanded; every other
    character, a directive outside this list and a final lone [%] are
    copied as they stand. *)

(** [z] in decimal, padded with zeros on the left to [w] places. *)
Definition pad (w : nat) (z : Z) : string :=
  let s := PyStr.str_nat (Z.to_nat z) in
  string_of_list_ascii (List.repeat "0"%char (w - String.length s)) +:+ s.

Definition format_offset (off : Z) : string :=
  let a := Z.abs off in
  (if off <? 0 then "-" else "+")
  +:+ pad 2 (a / 3600) +:+ pad 2 (a mod 3600 / 60)
  +:+ (if a mod 60 =? 0 then "" else pad 2 (a mod 60)).

Definition directive (dt : datetime) (c : ascii) : string :=
  match c with
  | "Y"%char => pad 4 (year dt)
  | "m"%char => pad 2 (month dt)
  | "d"%char => pad 2 (day dt)
  | "H"%char => pad 2 (hour dt)
  | "M"%char => pad 2 (minute dt)
  | "S"%char => pad 2 (second dt)
  | "f"%char => pad 6 (microsecond dt)
  | "y"%char => pad 2 (year dt mod 100)
  | "z"%char => match tzinfo dt with
                | Some tz => format_offset (utcoffset tz)
                | None => ""
                end
  | "%"%char => "%"
  | _ => String "%" (String c "")
  end.

(** [dt.strftime(fmt)]. *)
Fixpoint strftime (dt : datetime) (fmt : string) : string :=
  match fmt with
  | EmptyString => ""
  | String c rest =>
      if Ascii.eqb c "%" then
        match rest with
        | EmptyString => "%"
        | String d rest' => directive dt d +:+ strftime dt rest'
        end
      else String c (strftime dt rest)
  end.

End DateTime.

(** ** Metadata values

    [Extractable.list] returns a [Dict[str, Any]].  The values that the two
    readers produce are covered: text, byte strings, integers, lists and
    dictionaries keyed by text ([ffprobe]'s JSON) or by integers (the tag
    numbers of an EXIF group). *)

#[local] Set Warnings "-register-all".

Inductive PyKey := KStr (s : string) | KInt (z : Z).

Inductive PyVal :=
  | VNone
  | VInt (z : Z)
  | VStr (s : string)
  | VBytes (s : string)
  | VList (l : list PyVal)
  | VDict (items : list (PyKey * PyVal)).

#[global] Instance PyKey_eq_dec : EqDecision PyKey.
Proof. solve_decision. Defined.

Module PyVal.

Definition repr_Z (z : Z) : string :=
  if (z <? 0)%Z then "-" +:+ PyStr.str_nat (Z.to_nat (- z))
  else PyStr.str_nat (Z.to_nat z).

Definition repr_key (k : PyKey) : string :=
  match k with
  | KStr s => "'" +:+ s +:+ "'"
  | KInt z => repr_Z z
  end.

(** [', '.join(l)]. *)
Fixpoint comma_join (l : list string) : string :=
  match l with
  | [] => ""
  | [s] => s
  | s :: l' => s +:+ ", " +:+ comma_join l'
  end.

(** [repr(v)], for text and bytes that need no escape. *)
Fixpoint repr (v : PyVal) : string :=
  match v with
  | VNone => "None"
  | VInt z => repr_Z z
  | VStr s => "'" +:+ s +:+ "'"
  | VBytes s => "b'" +:+ s +:+ "'"
  | VList l => "[" +:+ comma_join (List.map repr l) +:+ "]"
  | VDict items =>
      "{" +:+ comma_join
                (List.map (fun kv => repr_key (fst kv) +:+ ": "
                                     +:+ repr (snd kv)) items)
      +:+ "}"
  end.

(** [str(v)]. *)
Definition str (v : PyVal) : string :=
  match v with
  | VStr s => s
  | _ => repr v
  end.

(** [d.get(k)] on the items of a dictionary. *)
Fixpoint lookup {K V} `{EqDecision K} (k : K) (items : list (K * V))
  : option V :=
  match items with
  | [] => None
  | (k', v) :: items' => if decide (k = k') then Some v else lookup k items'
  end.

(** [v[k]]: [KeyError] on a dictionary without the key, [IndexError] on a
    list that is too short, [TypeError] otherwise. *)
Definition getitem (v : PyVal) (k : PyKey) : outcome PyVal :=
  match v, k with
  | VDict items, _ =>
      match lookup k items with
      | Some x => Ok x
      | None => Raise KeyError
      end
  | VList l, KInt i =>
      let j := if (i <? 0)%Z then (i + Z.of_nat (List.length l))%Z else i in
      if (j <? 0)%Z then Raise IndexError
      else match List.nth_error l (Z.to_nat j) with
           | Some x => Ok x
           | None => Raise IndexError
           end
  | _, _ => Raise TypeError
  end.

End PyVal.

(** The dictionary of [piexif.load] once its ["thumbnail"] entry is
    deleted: group name to tag number to raw value.  The program calls
    [.decode("utf-8")] on the values it reads; they are byte strings here,
    of ASCII text, on which decoding is the identity. *)
Definition ExifDict := list (string * list (Z * string)).

(** The same dictionary as the items of a [Dict[str, Any]]. *)
Definition exif_as_dict (d : ExifDict) : list (PyKey * PyVal) :=
  List.map
    (fun g => (KStr (fst g),
               VDict (List.map (fun kv => (KInt (fst kv), VBytes (snd kv)))
                               (snd g))))
    d.

(** ** The filesystem and the external tools *)

(** What the readers find in a file. *)
Inductive Meta :=
  | ExifMeta (d : ExifDict)
  | ProbeMeta (p : list (PyKey * PyVal))
  | NoMeta.

Record File := mkFile { st_size : N; meta : Meta }.

(** The filesystem calls that change something.  A rename records whether
    its destination existed when it was called. *)
Inductive FsOp :=
  | OpRename (src dst : Path) (dst_existed : bool)
  | OpUnlink (p : Path)
  | OpWrite (p : Path).

(** The state the program runs in: the files, and the changing calls made
    so far, oldest first. *)
Record World := mkWorld { fs : gmap Path File; ops : list FsOp }.

(** What lies outside the program and the files: whether the two optional
    modules could be imported, the UTC offset of the system time zone in
    seconds, and the two [ffmpeg] runs of the thumbnail step ([None] when
    the run fails). *)
Record Env := mkEnv {
  piexif_installed : bool;
  ffmpeg_installed : bool;
  local_utcoffset : Z;
  ffmpeg_thumbnail : File -> option File;
  ffmpeg_attach : File -> File -> option File
}.

(** Computations over the world that may raise. *)
Definition M (A : Type) : Type := World -> outcome A * World.

Definition ret {A} (a : A) : M A := fun w => (Ok a, w).

Definition bind {A B} (m : M A) (k : A -> M B) : M B :=
  fun w =>
    match m w with
    | (Ok a, w') => k a w'
    | (Raise e, w') => (Raise e, w')
    | (Diverge, w') => (Diverge, w')
    end.

Definition throw {A} (e : exn) : M A := fun w => (Raise e, w).

Definition lift {A} (o : outcome A) : M A := fun w => (o, w).

(** [try: m except e: handler]. *)
Definition try_except {A} (m : M A) (e : exn) (handler : M A) : M A :=
  fun w =>
    match m w with
    | (Raise e', w') =>
        if decide (e' = e) then handler w' else (Raise e', w')
    | r => r
    end.

Notation "'let*' x ':=' m 'in' k" := (bind m (fun x => k))
  (at level 10, x pattern, m at level 100, k at level 200).
Notation "m ';;' k" := (bind m (fun _ => k))
  (at level 100, k at level 200, right associativity).

Module Fs.

(** [Path.exists]. *)
Definition exists_ (p : Path) : M bool :=
  fun w => (Ok (bool_decide (is_Some (fs w !! p))), w).

(** The file at [p], or [e] when there is none. *)
Definition read (e : exn) (p : Path) : M File :=
  fun w =>
    match fs w !! p with
    | Some f => (Ok f, w)
    | None => (Raise e, w)
    end.

(** [Path.stat().st_size]. *)
Definition stat_size (p : Path) : M N :=
  let* f := read FileNotFoundError p in ret (st_size f).

(** [Path.rename]: moves the file, replacing what is at the destination,
    and returns the destination. *)
Definition rename (src dst : Path) : M Path :=
  fun w =>
    match fs w !! src with
    | Some f =>
        (Ok dst,
         mkWorld (<[dst := f]> (delete src (fs w)))
                 (ops w ++ [OpRename src dst
                              (bool_decide (is_Some (fs w !! dst)))]))
    | None => (Raise FileNotFoundError, w)
    end.

(** [Path.unlink]. *)
Definition unlink (p : Path) : M unit :=
  fun w =>
    match fs w !! p with
    | Some _ => (Ok tt, mkWorld (delete p (fs w)) (ops w ++ [OpUnlink p]))
    | None => (Raise FileNotFoundError, w)
    end.

(** An output file written by an external tool, replacing what is there. *)
Definition write (p : Path) (f : File) : M unit :=
  fun w => (Ok tt, mkWorld (<[p := f]> (fs w)) (ops w ++ [OpWrite p])).

End Fs.

(** ** The program: [Status], the arguments, [Extractable] *)

Inductive Status := ERROR | RENAMED | UNCHANGED.

#[global] Instance Status_eq_dec : EqDecision Status.
Proof. solve_decision. Defined.

#[global] Instance Status_countable : Countable Status.
Proof.
  apply (inj_countable'
           (fun s => match s with
                     | ERROR => 0 | RENAMED => 1 | UNCHANGED => 2
                     end)
           (fun n => match n with
                     | 0 => ERROR | 1 => RENAMED | _ => UNCHANGED
                     end)).
  by intros [].
Defined.

(** The [Namespace] of [get_arguments], as far as the engine reads it. *)
Record Namespace := mkNamespace {
  args_dry : bool;
  args_ignore_timezone : bool;
  args_list_meta : bool;
  args_prefix : option string;
  args_suffix : option string;
  args_time_format : option string;
  args_video_thumbnail_skip_creation : bool
}.

(** Truthiness of a [str | None]. *)
Definition opt_truthy (o : option string) : bool :=
  match o with
  | Some s => PyStr.truthy s
  | None => false
  end.

(** The classes: [Extractable] and its two subclasses. *)
Inductive Class := ClsExtractable | ClsVideo | ClsImage.

Module Extractable.

(** An instance: its class and its attributes. *)
Record t := mk {
  cls : Class;
  path : Path;
  args : Namespace;
  prefix : option string;
  suffix : option string;
  time_format : string;
  extensions : list string
}.

(** [Extractable.__init__], with the defaults of the class attributes. *)
Definition init (path : Path) (args : Namespace) : t :=
  mk ClsExtractable path args None None "%Y%m%d_%H%M%S" [].

Definition use (self : t) : bool :=
  bool_decide (PyStr.lower (PathLib.suffix (path self)) ∈ extensions self).

(** The loop of [matches] over [filters.items()], on the dictionary that
    [self.list()] returned. *)
Fixpoint matches_dict (exif_dict : list (PyKey * PyVal))
    (filters : list (string * string)) : bool :=
  match filters with
  | [] => true
  | (key, value) :: filters' =>
      match PyVal.lookup (KStr key) exif_dict with
      | Some x =>
          if negb (String.eqb (PyVal.str x) value) then false
          else matches_dict exif_dict filters'
      | None => false
      end
  end.

(** The format template that [get_name] hands to [strftime]. *)
Definition get_name_fmt (self : t) (counter : option nat) : string :=
  let fmt := time_format self in
  let fmt :=
    if opt_truthy (prefix self) then default "" (prefix self) +:+ fmt
    else fmt in
  let fmt :=
    match counter with
    | Some (S _ as c) => fmt +:+ "_" +:+ PyStr.str_nat c
    | _ => fmt
    end in
  let fmt :=
    if opt_truthy (suffix self) then fmt +:+ default "" (suffix self)
    else fmt in
  let exts :=
    match extensions self with
    | _ :: _ => extensions self
    | [] =>
        List.filter (fun p => PyStr.truthy p && negb (String.eqb p "."))
                    (PathLib.suffixes (path self))
    end in
  fmt +:+ PyStr.join exts.

Definition get_name (self : t) (dt : DateTime.datetime)
    (counter : option nat) (dir : option string) : Path :=
  let fmt := get_name_fmt self counter in
  let dir :=
    match dir with
    | Some d => d
    | None => parent (path self)
    end in
  PathLib.joinpath dir (DateTime.strftime dt fmt).

Definition before_rename (self : t) (dt : DateTime.datetime) (dry : bool)
  : Status * option Path * DateTime.datetime :=
  (UNCHANGED, Some (path self), dt).

Definition after_rename (self : t) (status : Status) (path : Path)
    (dt : DateTime.datetime) (dry : bool) : M (Status * option Path) :=
  ret (UNCHANGED, Some path).

End Extractable.

(** ** [Video] *)

Module Video.

Definition init (path : Path) (args : Namespace) : Extractable.t :=
  Extractable.mk ClsVideo path args (Some "VID_") None "%Y%m%d_%H%M%S"
                 [".mp4"].

(** [Video.list]: the result of [ffmpeg.probe]. *)
Definition list_ (env : Env) (self : Extractable.t)
  : M (list (PyKey * PyVal)) :=
  if negb (ffmpeg_installed env) then throw NotImplementedError
  else
    let* f := Fs.read FfmpegError (Extractable.path self) in
    match meta f with
    | ProbeMeta p => ret p
    | _ => throw FfmpegError
    end.

(** [tags["streams"][0]["tags"]["creation_time"]]. *)
Definition stream_creation_time (tags : list (PyKey * PyVal))
  : outcome PyVal :=
  match PyVal.getitem (VDict tags) (KStr "streams") with
  | Ok streams =>
      match PyVal.getitem streams (KInt 0) with
      | Ok stream =>
          match PyVal.getitem stream (KStr "tags") with
          | Ok stream_tags => PyVal.getitem stream_tags (KStr "creation_time")
          | r => r
          end
      | r => r
      end
  | r => r
  end.

Definition get_creation_time (env : Env) (self : Extractable.t)
  : M DateTime.datetime :=
  let* tags := list_ env self in
  let* iso_time :=
    try_except (lift (stream_creation_time tags))
               KeyError (throw LookupError) in
  match iso_time with
  | VStr s => lift (DateTime.strptime s "%Y-%m-%dT%H:%M:%S.%f%z")
  | _ => throw TypeError
  end.

(** The [try] block of [after_rename]: the thumbnail is cut out of the
    video, then video and thumbnail are written together to [tmp_path].
    The result is [None] when [FfmpegError] is caught, and otherwise the
    local [thumbnail_path], which is bound by then. *)
Definition make_thumbnail (env : Env) (new_path tmp_path : Path)
  : M (option (option Path)) :=
  try_except
    (let* thumbnail_path := lift (PathLib.with_suffix new_path ".jpg") in
     let* video := Fs.read FfmpegError new_path in
     match ffmpeg_thumbnail env video with
     | None => throw FfmpegError
     | Some thumbnail =>
         Fs.write thumbnail_path thumbnail ;;
         let* video := Fs.read FfmpegError new_path in
         let* thumbnail := Fs.read FfmpegError thumbnail_path in
         match ffmpeg_attach env video thumbnail with
         | None => throw FfmpegError
         | Some output =>
             Fs.write tmp_path output ;;
             ret (Some (Some thumbnail_path))
         end
     end)
    FfmpegError (ret None).

(** [Video.after_rename].  The local [thumbnail_path] is assigned in the
    [try] block only, which a dry run skips: it is an [option] here, [None]
    while the name is unbound. *)
Definition after_rename (env : Env) (self : Extractable.t) (status : Status)
    (path : Path) (dt : DateTime.datetime) (dry : bool)
  : M (Status * option Path) :=
  let* (status, new_path) := Extractable.after_rename self status path dt dry in
  match new_path with
  | None => ret (status, new_path)
  | Some new_path =>
      if decide (status = ERROR) then ret (status, Some new_path)
      else if negb (args_video_thumbnail_skip_creation (Extractable.args self))
      then
        let* tmp_path :=
          lift (PathLib.with_suffix new_path
                  (".output" +:+ PathLib.suffix new_path)) in
        let* made :=
          (if negb dry then make_thumbnail env new_path tmp_path
           else ret (Some None)) in
        match made with
        | None => ret (ERROR, Some new_path)
        | Some thumbnail_path =>
            let* present := Fs.exists_ tmp_path in
            let* replace :=
              (if present then
                 let* tmp_size := Fs.stat_size tmp_path in
                 let* new_size := Fs.stat_size new_path in
                 ret (new_size <=? tmp_size)%N
               else ret false) in
            (if replace then
               match thumbnail_path with
               | None => throw UnboundLocalError
               | Some thumbnail_path =>
                   Fs.unlink thumbnail_path ;;
                   Fs.unlink new_path ;;
                   let* _ := Fs.rename tmp_path new_path in
                   ret tt
               end
             else ret tt) ;;
            ret (status, Some new_path)
        end
      else ret (status, Some new_path)
  end.

End Video.

(** ** [Image] *)

Module Image.

Definition init (path : Path) (args : Namespace) : Extractable.t :=
  Extractable.mk ClsImage path args (Some "IMG_") None "%Y%m%d_%H%M%S"
                 [".jpg"; ".jpeg"; ".png"].

Definition date_keys : list (string * list (string * Z)) :=
  [ ("Exif", [("DateTimeOriginal", 36867%Z); ("DateTimeDigitized", 36868%Z)]);
    ("GPS", [("GPSDateStamp", 29%Z)]);
    ("0th", [("DateTime", 306%Z)]);
    ("1st", [("DateTime", 306%Z)]) ].

Definition date_formats : list string :=
  [ "%Y:%m:%d %H:%M:%S";
    "%Y-%m-%d %H:%M:%S";
    "%Y%m%d%H%M%S";
    "%Y-%m-%dT%H:%M:%S.%f%z" ].

Definition timezone_keys : list (string * list (string * Z)) :=
  [ ("0th", [("TimeZoneOffset", 34858%Z)]);
    ("1st", [("TimeZoneOffset", 34858%Z)]);
    ("Exif", [("OffsetTime", 36880%Z);
              ("OffsetTimeOriginal", 36881%Z);
              ("OffsetTimeDigitized", 36882%Z)]) ].

Definition timezone_formats : list string := ["+%H:%M"; "%H:%M"; "+%H"; "%H"].

(** [timezone(timedelta(hours=h, minutes=m))]: [ValueError] unless the
    offset is strictly between minus and plus one day. *)
Definition make_timezone (h m : Z) : outcome DateTime.timezone :=
  let s := DateTime.total_seconds (DateTime.timedelta_hm h m) in
  if ((-86400 <? s) && (s <? 86400))%Z then Ok (DateTime.Timezone s)
  else Raise ValueError.

(** The loop of [_get_time_zone] over [timezone_formats]; [Ok None] when
    it ends without a [return]. *)
Fixpoint timezone_formats_loop (timezone_str : string)
    (formats : list string) : outcome (option DateTime.timezone) :=
  match formats with
  | [] => Ok None
  | format :: formats' =>
      let attempt :=
        match DateTime.strptime timezone_str format with
        | Ok tz_dt =>
            match make_timezone (DateTime.hour tz_dt)
                                (DateTime.minute tz_dt) with
            | Ok tz => Ok (Some tz)
            | Raise e => Raise e
            | Diverge => Diverge
            end
        | Raise e => Raise e
        | Diverge => Diverge
        end in
      match attempt with
      | Raise ValueError => timezone_formats_loop timezone_str formats'
      | r => r
      end
  end.

(** The loop of [_get_time_zone] over the keys of the group. *)
Fixpoint timezone_keys_loop (group : string) (exif_dict : ExifDict)
    (keys : list (string * Z)) : outcome (option DateTime.timezone) :=
  match keys with
  | [] => Ok None
  | (_, key) :: keys' =>
      match PyVal.lookup group exif_dict with
      | None => Raise KeyError
      | Some tags =>
          match PyVal.lookup key tags with
          | Some timezone_str =>
              match timezone_formats_loop timezone_str timezone_formats with
              | Ok None => timezone_keys_loop group exif_dict keys'
              | r => r
              end
          | None => timezone_keys_loop group exif_dict keys'
          end
      end
  end.

Definition _get_time_zone (group : string) (exif_dict : ExifDict)
  : outcome (option DateTime.timezone) :=
  match PyVal.lookup group timezone_keys with
  | Some keys => timezone_keys_loop group exif_dict keys
  | None => Ok None
  end.

(** The loop of [get_creation_time] over [date_formats].  Its body ends in
    [return dt] whether or not [strptime] raised, so it never reaches a
    second format: when the first format fails, the local [dt] is still
    unbound and reading it raises [UnboundLocalError].  [Ok None] when the
    list is empty and the loop ends without a [return]. *)
Definition date_formats_loop (group : string) (exif_dict : ExifDict)
    (time_str : string) (formats : list string)
  : outcome (option DateTime.datetime) :=
  match formats with
  | [] => Ok None
  | format :: _ =>
      let dt :=
        match DateTime.strptime time_str format with
        | Ok dt => Ok (Some dt)
        | Raise ValueError => Ok None
        | Raise e => Raise e
        | Diverge => Diverge
        end in
      match dt with
      | Ok dt =>
          match _get_time_zone group exif_dict with
          | Ok tzinfo =>
              match dt with
              | Some dt =>
                  match tzinfo with
                  | Some tz =>
                      Ok (Some (DateTime.replace_tzinfo dt (Some tz)))
                  | None => Ok (Some dt)
                  end
              | None => Raise UnboundLocalError
              end
          | Raise e => Raise e
          | Diverge => Diverge
          end
      | Raise e => Raise e
      | Diverge => Diverge
      end
  end.

(** The loop over the keys of one group of [date_keys]. *)
Fixpoint date_keys_loop (group : string) (exif_dict : ExifDict)
    (keys : list (string * Z)) : outcome (option DateTime.datetime) :=
  match keys with
  | [] => Ok None
  | (_, key) :: keys' =>
      match PyVal.lookup group exif_dict with
      | Some tags =>
          match PyVal.lookup key tags with
          | Some time_str =>
              match date_formats_loop group exif_dict time_str
                                      date_formats with
              | Ok None => date_keys_loop group exif_dict keys'
              | r => r
              end
          | None => date_keys_loop group exif_dict keys'
          end
      | None => date_keys_loop group exif_dict keys'
      end
  end.

(** The loop over [date_keys.items()]. *)
Fixpoint date_groups_loop (exif_dict : ExifDict)
    (groups : list (string * list (string * Z)))
  : outcome (option DateTime.datetime) :=
  match groups with
  | [] => Ok None
  | (group, keys) :: groups' =>
      match date_keys_loop group exif_dict keys with
      | Ok None => date_groups_loop exif_dict groups'
      | r => r
      end
  end.

(** [Image.list]: the result of [piexif.load] without its thumbnail. *)
Definition list_ (env : Env) (self : Extractable.t) : M ExifDict :=
  if negb (piexif_installed env) then throw NotImplementedError
  else
    let* f := Fs.read FileNotFoundError (Extractable.path self) in
    match meta f with
    | ExifMeta d => ret d
    | _ => throw InvalidImageDataError
    end.

Definition get_creation_time (env : Env) (self : Extractable.t)
  : M DateTime.datetime :=
  let* exif_dict := list_ env self in
  let* found := lift (date_groups_loop exif_dict date_keys) in
  match found with
  | Some dt => ret dt
  | None => throw LookupError
  end.

End Image.

(** ** The rename engine *)

Section Engine.

Context (env : Env).

(** *** Method calls on [self], resolved by the class of the instance *)

(** [self.list()]. *)
Definition list_ (self : Extractable.t) : M (list (PyKey * PyVal)) :=
  match Extractable.cls self with
  | ClsExtractable => throw NotImplementedError
  | ClsVideo => Video.list_ env self
  | ClsImage => let* d := Image.list_ env self in ret (exif_as_dict d)
  end.

(** [self.get_creation_time()]. *)
Definition get_creation_time (self : Extractable.t) : M DateTime.datetime :=
  match Extractable.cls self with
  | ClsExtractable => throw NotImplementedError
  | ClsVideo => Video.get_creation_time env self
  | ClsImage => Image.get_creation_time env self
  end.

(** [self.after_rename(status, path, dt, dry)]. *)
Definition after_rename (self : Extractable.t) (status : Status)
    (path : Path) (dt : DateTime.datetime) (dry : bool)
  : M (Status * option Path) :=
  match Extractable.cls self with
  | ClsVideo => Video.after_rename env self status path dt dry
  | _ => Extractable.after_rename self status path dt dry
  end.

(** [Extractable.matches]. *)
Definition matches (self : Extractable.t) (filters : list (string * string))
  : M bool :=
  let* exif_dict := list_ self in
  ret (Extractable.matches_dict exif_dict filters).

(** *** [Extractable.rename] *)

(** The [while target_name.exists()] loop.  [Some target_name] when the
    loop is left with a free name, [None] when it is left by the [return]
    for a name that is already correct. *)
Fixpoint collision_loop (fuel : nat) (self : Extractable.t)
    (dt : DateTime.datetime) (path target_name : Path) (i : nat)
  : M (option Path) :=
  match fuel with
  | O => lift Diverge
  | S fuel' =>
      let* taken := Fs.exists_ target_name in
      if taken then
        let target_name := Extractable.get_name self dt (Some i) None in
        if decide (target_name = path) then ret None
        else collision_loop fuel' self dt path target_name (S i)
      else ret (Some target_name)
  end.

(** Iterations that the loop can need at most: each one but the last finds
    another existing file, and the names it tests are pairwise distinct
    (see [collision_loop_total] and [collision_loop_more_fuel]). *)
Definition collision_fuel (w : World) : nat := S (S (size (fs w))).

Definition rename (self : Extractable.t) (dt : DateTime.datetime)
    (dry : bool) : M (Status * option Path) :=
  let '(status, path, dt) := Extractable.before_rename self dt dry in
  match path with
  | None => ret (status, path)
  | Some path =>
      if decide (status = ERROR) then ret (status, Some path)
      else
        let target_name := Extractable.get_name self dt None None in
        if decide (target_name = path) then
          after_rename self UNCHANGED path dt dry
        else
          let* free :=
            (fun w =>
               collision_loop (collision_fuel w) self dt path target_name 2 w)
          in
          match free with
          | None => after_rename self UNCHANGED path dt dry
          | Some target_name =>
              if negb dry then
                let* new_path := Fs.rename path target_name in
                after_rename self RENAMED new_path dt dry
              else after_rename self UNCHANGED path dt dry
          end
  end.

(** *** [execute_by_path] *)

Definition PARSERS : list Class := [ClsImage; ClsVideo].

(** [parser(path, args)]. *)
Definition construct (parser : Class) (path : Path) (args : Namespace)
  : Extractable.t :=
  match parser with
  | ClsExtractable => Extractable.init path args
  | ClsVideo => Video.init path args
  | ClsImage => Image.init path args
  end.

(** The instance once [execute_by_path] has applied the overrides of the
    command line. *)
Definition configure (parser : Class) (path : Path) (args : Namespace)
  : Extractable.t :=
  let inst := construct parser path args in
  Extractable.mk (Extractable.cls inst) (Extractable.path inst)
    (Extractable.args inst)
    (if opt_truthy (args_prefix args) then args_prefix args
     else Extractable.prefix inst)
    (if opt_truthy (args_suffix args) then args_suffix args
     else Extractable.suffix inst)
    (if opt_truthy (args_time_format args)
     then default "" (args_time_format args)
     else Extractable.time_format inst)
    (Extractable.extensions inst).

(** Truthiness of the [filters] argument: a non-empty dictionary. *)
Definition filters_truthy (filters : option (list (string * string)))
  : bool :=
  match filters with
  | Some (_ :: _) => true
  | _ => false
  end.

(** The time adjustments of [execute_by_path]: the offset of
    [--modify-time], then the conversion to the target time zone or, with
    [--ignore-timezone], to UTC. *)
Definition adjust_time (args : Namespace)
    (modify_time : option DateTime.timedelta)
    (target_timezone : option DateTime.timezone)
    (creation_time : DateTime.datetime) : outcome DateTime.datetime :=
  let shifted :=
    match modify_time with
    | Some delta =>
        if DateTime.timedelta_truthy delta
        then DateTime.add creation_time delta
        else Ok creation_time
    | None => Ok creation_time
    end in
  match shifted with
  | Ok creation_time =>
      match target_timezone with
      | Some tz =>
          DateTime.astimezone (local_utcoffset env) creation_time tz
      | None =>
          if args_ignore_timezone args
          then DateTime.astimezone (local_utcoffset env) creation_time
                                   DateTime.utc
          else Ok creation_time
      end
  | r => r
  end.

(** The loop of [execute_by_path] over the parsers that are left. *)
Fixpoint execute_loop (parsers : list Class) (path : Path)
    (args : Namespace) (modify_time : option DateTime.timedelta)
    (target_timezone : option DateTime.timezone)
    (filters : option (list (string * string))) : M Status :=
  match parsers with
  | [] => ret ERROR
  | parser :: parsers' =>
      let parser_inst := configure parser path args in
      let* selected :=
        (if Extractable.use parser_inst then
           if negb (filters_truthy filters) then ret true
           else matches parser_inst (default [] filters)
         else ret false) in
      if selected : bool then
        let* creation_time := get_creation_time parser_inst in
        let* creation_time :=
          lift (adjust_time args modify_time target_timezone creation_time)
        in
        if args_list_meta args then
          let* _ := list_ parser_inst in
          ret UNCHANGED
        else
          let* (status, new_path) :=
            rename parser_inst creation_time (args_dry args) in
          ret status
      else
        execute_loop parsers' path args modify_time target_timezone filters
  end.

Definition execute_by_path (path : Path) (args : Namespace)
    (modify_time : option DateTime.timedelta)
    (target_timezone : option DateTime.timezone)
    (filters : option (list (string * string))) : M Status :=
  execute_loop PARSERS path args modify_time target_timezone filters.

(** *** The loop of [main]

    [files] is what [collect_files] yields.  The three parsed arguments
    depend on [args] alone and are passed in.  [stats] is the
    [defaultdict(int)] of the counts per status. *)
Fixpoint main_loop (files : list Path) (args : Namespace)
    (modify_time : option DateTime.timedelta)
    (target_timezone : option DateTime.timezone)
    (filters : option (list (string * string)))
    (stats : gmap Status nat) : M (gmap Status nat) :=
  match files with
  | [] => ret stats
  | file :: files' =>
      let* status :=
        execute_by_path file args modify_time target_timezone filters in
      main_loop files' args modify_time target_timezone filters
                (<[status := S (default 0 (stats !! status))]> stats)
  end.

Definition main (files : list Path) (args : Namespace)
    (modify_time : option DateTime.timedelta)
    (target_timezone : option DateTime.timezone)
    (filters : option (list (string * string))) : M (gmap Status nat) :=
  main_loop files args modify_time target_timezone filters ∅.

End Engine.

(** ** Python runtime: [str.strip] and [int] *)

Module Builtins.

(** White space as [str.strip] and [int] see it, on ASCII text. *)
Definition isspace (c : ascii) : bool :=
  let n := nat_of_ascii c in
  ((9 <=? n)%nat && (n <=? 13)%nat) || ((28 <=? n)%nat && (n <=? 32)%nat).

Fixpoint lstrip (s : string) : string :=
  match s with
  | EmptyString => EmptyString
  | String a s' => if isspace a then lstrip s' else s
  end.

Fixpoint rstrip (s : string) : string :=
  match s with
  | EmptyString => EmptyString
  | String a s' =>
      match rstrip s' with
      | EmptyString => if isspace a then EmptyString else String a EmptyString
      | t => String a t
      end
  end.

(** [s.strip()]. *)
Definition strip (s : string) : string := rstrip (lstrip s).

(** The digits of an integer literal, single underscores allowed between
    them: the value and the number of digits, or [None] when the text is
    not of that form. *)
Fixpoint int_digits (acc : Z) (count : nat) (after_digit : bool)
    (s : string) : option (Z * nat) :=
  match s with
  | EmptyString => if after_digit then Some (acc, count) else None
  | String c r =>
      match DateTime.digit c with
      | Some d => int_digits (10 * acc + d) (S count) true r
      | None =>
          if Ascii.eqb c "_" && after_digit then int_digits acc count false r
          else None
      end
  end.

(** The longest literal that [int] converts, in digits. *)
Definition max_str_digits : nat := 4300.

(** [int(text)]: white space around the literal is dropped, a sign may
    precede the digits; [ValueError] for any other text and for a literal
    of more than [max_str_digits] digits. *)
Definition int_ (text : string) : outcome Z :=
  let s := strip text in
  let '(negative, body) :=
    match s with
    | String c r =>
        if Ascii.eqb c "-" then (true, r)
        else if Ascii.eqb c "+" then (false, r)
        else (false, s)
    | EmptyString => (false, s)
    end in
  match int_digits 0 0 false body with
  | Some (n, count) =>
      if (max_str_digits <? count)%nat then Raise ValueError
      else Ok (if negative : bool then (- n)%Z else n)
  | None => Raise ValueError
  end.

End Builtins.

(** ** The options of the command line *)

Definition SUPPORTED_TIME_MODIFICATION_KEYS : list string :=
  ["weeks"; "days"; "hours"; "minutes"; "seconds"].

(** The seconds in one unit of a keyword of [timedelta]. *)
Definition unit_seconds (key : string) : option Z :=
  if String.eqb key "weeks" then Some 604800%Z
  else if String.eqb key "days" then Some 86400%Z
  else if String.eqb key "hours" then Some 3600%Z
  else if String.eqb key "minutes" then Some 60%Z
  else if String.eqb key "seconds" then Some 1%Z
  else None.

(** [timedelta] called with the one keyword [key], set to [n]:
    [OverflowError] when the days of the result
    are more than 999999999 in magnitude, [TypeError] for a keyword that
    [timedelta] does not have.  [parse_timedelta] passes the keys above
    only, which count whole seconds. *)
Definition timedelta_kw (key : string) (n : Z) : outcome DateTime.timedelta :=
  match unit_seconds key with
  | Some unit =>
      let days := (n * unit / 86400)%Z in
      if ((-999999999 <=? days) && (days <=? 999999999))%Z
      then Ok (DateTime.Timedelta (n * unit))
      else Raise OverflowError
  | None => Raise TypeError
  end.

(** [parse_timedelta].  [args] is the value of [--modify-time]: [None]
    when the option is not given. *)
Definition parse_timedelta (args : option (list string))
  : outcome (option DateTime.timedelta) :=
  match args with
  | None | Some [] => Ok None
  | Some [key; value] =>
      if bool_decide (key ∈ SUPPORTED_TIME_MODIFICATION_KEYS) then
        match Builtins.int_ value with
        | Ok n =>
            match timedelta_kw key n with
            | Ok delta => Ok (Some delta)
            | Raise e => Raise e
            | Diverge => Diverge
            end
        | Raise e => Raise e
        | Diverge => Diverge
        end
      else Ok None
  | Some _ => Raise ValueError
  end.

(** The group of [%z] with all its parts,
    [[+-]\d\d:?[0-5]\d(:?[0-5]\d(\.\d{1,6})?)?|Z]: the seconds of the
    offset, whether the colons are used in one place and not in the other,
    and the rest of the text, for each way to match, in the order of the
    expression. *)
Definition re_offset (s : string) : list (Z * bool * string) :=
  match s with
  | String sg s1 =>
      (if Ascii.eqb sg "+" || Ascii.eqb sg "-" then
         let sign := (if Ascii.eqb sg "-" then -1 else 1)%Z in
         '(hh, s2) ← DateTime.d2 (fun _ _ => true) s1;
         '(c1, s3) ← DateTime.opt_colon s2;
         '(mm, s4) ← DateTime.d2 (fun a _ => (a <=? 5)%Z) s3;
         (('(c2, s5) ← DateTime.opt_colon s4;
           '(ss, s6) ← DateTime.d2 (fun a _ => (a <=? 5)%Z) s5;
           let off := (sign * (hh * 3600 + mm * 60 + ss))%Z in
           let bad := negb (Bool.eqb c1 c2) in
           match s6 with
           | String "." s7 =>
               (fun fr => (off, bad, snd fr)) <$> DateTime.dfrac 6 0 s7
           | _ => []
           end ++ [(off, bad, s6)])
          ++ [((sign * (hh * 3600 + mm * 60))%Z, false, s4)])
       else [])
      ++ (if Ascii.eqb sg "Z" then [(0%Z, false, s1)] else [])
  | _ => []
  end.

(** [datetime.strptime(text, "%z")]: midnight of 1900-01-01 with the
    offset read, or [ValueError].  The first match of the expression has
    to cover the text, and the [timezone] constructor refuses an offset of
    a day or more.  A fraction of a second in the offset is read and, the
    offsets here being whole seconds, dropped. *)
Definition strptime_offset (text : string) : outcome DateTime.datetime :=
  match re_offset text with
  | (off, bad, EmptyString) :: _ =>
      if bad : bool then Raise ValueError
      else if ((-86400 <? off) && (off <? 86400))%Z then
        Ok (DateTime.mkDatetime 1900 1 1 0 0 0 0
                                (Some (DateTime.Timezone off)))
      else Raise ValueError
  | _ => Raise ValueError
  end.

(** [datetime.strptime(text, "%Z")]: the names that [%Z] knows are [utc],
    [gmt] and the names of the system time zone, [tznames]; the expression
    lists them longest first and is matched, in either case, against the
    head of the text, which it has to cover: the text parses when it is
    one of the names.  The result is midnight of 1900-01-01, naive. *)
Definition strptime_zone (tznames : list string) (text : string)
  : outcome DateTime.datetime :=
  if bool_decide (PyStr.lower text
                    ∈ "utc" :: "gmt" :: (PyStr.lower <$> tznames))
  then Ok (DateTime.mkDatetime 1900 1 1 0 0 0 0 None)
  else Raise ValueError.

(** [timezone(timedelta(hours=tz_dt.hour, minutes=tz_dt.minute))]. *)
Definition timezone_of_clock (tz_dt : outcome DateTime.datetime)
  : outcome (option DateTime.timezone) :=
  match tz_dt with
  | Ok tz_dt =>
      match Image.make_timezone (DateTime.hour tz_dt)
                                (DateTime.minute tz_dt) with
      | Ok tz => Ok (Some tz)
      | Raise e => Raise e
      | Diverge => Diverge
      end
  | Raise e => Raise e
  | Diverge => Diverge
  end.

(** [parse_timezone].  [timezone_expr] is the value of
    [--target-timezone]. *)
Definition parse_timezone (tznames : list string)
    (timezone_expr : option string) : outcome (option DateTime.timezone) :=
  match timezone_expr with
  | None => Ok None
  | Some timezone_expr =>
      if negb (PyStr.truthy timezone_expr) then Ok None
      else
        match Builtins.strip timezone_expr with
        | EmptyString => Raise IndexError
        | String first rest =>
            if Ascii.eqb first "+" then
              let timezone_expr := rest in
              if (String.length timezone_expr =? 1)%nat
                 || (String.length timezone_expr =? 2)%nat
              then
                match Builtins.int_ timezone_expr with
                | Ok hours =>
                    match Image.make_timezone hours 0 with
                    | Ok tz => Ok (Some tz)
                    | Raise e => Raise e
                    | Diverge => Diverge
                    end
                | Raise e => Raise e
                | Diverge => Diverge
                end
              else if (4 <=? String.length timezone_expr)%nat then
                timezone_of_clock (strptime_offset timezone_expr)
              else Raise ValueError
            else
              timezone_of_clock
                (strptime_zone tznames (String first rest))
        end
  end.

(** [d[key] = value] on the items of a dictionary, which keep the order
    in which their keys were first set. *)
Fixpoint dict_set {K V} `{EqDecision K} (key : K) (value : V)
    (items : list (K * V)) : list (K * V) :=
  match items with
  | [] => [(key, value)]
  | (k, v) :: items' =>
      if decide (key = k) then (k, value) :: items'
      else (k, v) :: dict_set key value items'
  end.

(** [dict(pairs)]. *)
Definition dict_of_pairs {K V} `{EqDecision K} (pairs : list (K * V))
  : list (K * V) :=
  fold_left (fun items kv => dict_set (fst kv) (snd kv) items) pairs [].

(** [parse_filters].  [args] is the value of [--filter-meta]: the pairs
    given, in their order, or [None]. *)
Definition parse_filters (args : option (list (string * string)))
  : option (list (string * string)) :=
  match args with
  | None | Some [] => None
  | Some pairs => Some (dict_of_pairs pairs)
  end.

(** ** [print_meta] *)

(** [str(key)]. *)
Definition str_key (k : PyKey) : string :=
  match k with
  | KStr s => s
  | KInt z => PyVal.repr_Z z
  end.

(** ['/'.join(l)]. *)
Fixpoint slash_join (l : list string) : string :=
  match l with
  | [] => ""
  | [s] => s
  | s :: l' => s +:+ "/" +:+ slash_join l'
  end.

(** What the body of the loop of [print_meta] prints for an item whose
    keys, from the outermost on, are [path]: the lines of a nested
    dictionary, or one line for any other value. *)
Fixpoint print_item (path : list string) (value : PyVal) : list string :=
  match value with
  | VDict items =>
      (fix loop (items : list (PyKey * PyVal)) : list string :=
         match items with
         | [] => []
         | (k, v) :: items' => print_item (path ++ [str_key k]) v ++ loop items'
         end) items
  | _ => ["  " +:+ slash_join path +:+ ": " +:+ PyVal.str value]
  end.

(** [print_meta(meta, prefix)]: the lines printed. *)
Definition print_meta (meta : list (PyKey * PyVal)) (prefix : list string)
  : list string :=
  print_item prefix (VDict meta).

(** ** [main] with the options as given *)

Section Main.

Context (env : Env) (tznames : list string).

(** The loop of [main]: the three options are parsed anew for each file,
    before [execute_by_path] is called. *)
Fixpoint main_options_loop (files : list Path) (args : Namespace)
    (modify_time : option (list string)) (target_timezone : option string)
    (filter_meta : option (list (string * string)))
    (stats : gmap Status nat) : M (gmap Status nat) :=
  match files with
  | [] => ret stats
  | file :: files' =>
      let* delta := lift (parse_timedelta modify_time) in
      let* tz := lift (parse_timezone tznames target_timezone) in
      let* status :=
        execute_by_path env file args delta tz (parse_filters filter_meta) in
      main_options_loop files' args modify_time target_timezone filter_meta
                        (<[status := S (default 0 (stats !! status))]> stats)
  end.

End Main.

(** * The vocabulary of the properties *)

(** A text without [%], which [strftime] copies as it stands. *)
Definition no_percent (s : string) : Prop := PyStr.contains "%" s = false.

(** The candidate of [rename] for counter [k]; [0] stands for the name
    without a counter. *)
Definition candidate (self : Extractable.t) (dt : DateTime.datetime)
    (k : nat) : Path :=
  Extractable.get_name self dt (match k with 0 => None | _ => Some k end) None.

(** The counters that [rename] uses: none, then 2, 3, ... *)
Definition counter_ok (k : nat) : Prop := k = 0 \/ 2 <= k.

(** The targets that the loop tests, in order, when it starts with
    [target_name] and counter [i]. *)
Definition nth_target (self : Extractable.t) (dt : DateTime.datetime)
    (target_name : Path) (i n : nat) : Path :=
  match n with
  | 0 => target_name
  | S m => Extractable.get_name self dt (Some (i + m)) None
  end.

(** A changing call that is not a rename onto an existing path. *)
Definition no_overwrite (op : FsOp) : Prop :=
  match op with
  | OpRename _ _ dst_existed => dst_existed = false
  | _ => True
  end.

(** [m] ends, and leaves the world as it found it. *)
Definition readonly {A} (m : M A) : Prop :=
  forall w, snd (m w) = w /\ fst (m w) <> Diverge.

(** [m] ends, and the calls it adds never rename onto an existing path. *)
Definition safe {A} (m : M A) : Prop :=
  forall w,
    fst (m w) <> Diverge
    /\ exists new, ops (snd (m w)) = ops w ++ new /\ Forall no_overwrite new.

(** Every value that [m] returns satisfies [Q]. *)
Definition returns {A} (m : M A) (Q : A -> Prop) : Prop :=
  forall w a, fst (m w) = Ok a -> Q a.

(** The hour and the minute read so far are those of a time of day. *)
Definition hour_minute_ok (f : DateTime.fields) : Prop :=
  (0 <= DateTime.f_hour f <= 23)%Z /\ (0 <= DateTime.f_minute f <= 59)%Z.

(** An update of the fields that keeps the hour and the minute in range. *)
Definition keeps_hour_minute (upd : DateTime.fields -> DateTime.fields)
  : Prop :=
  forall f, hour_minute_ok f -> hour_minute_ok (upd f).

(** The offset that [text] gives under the format [fmt], when it parses. *)
Definition parse_offset (text fmt : string) : option DateTime.timezone :=
  match DateTime.strptime text fmt with
  | Ok t =>
      Some (DateTime.Timezone
              (DateTime.hour t * 3600 + DateTime.minute t * 60))
  | _ => None
  end.

(** All the offsets that the candidate keys give under the formats, keys
    first, formats second, each in its order. *)
Definition offsets_in_order (keys : list (string * Z))
    (tags : list (Z * string)) : list DateTime.timezone :=
  key ← keys.*2;
  text ← option_list (PyVal.lookup key tags);
  fmt ← Image.timezone_formats;
  option_list (parse_offset text fmt).

(** The search of [_get_time_zone] as one list: the first offset that a
    candidate key of the group gives under a format of [Image], if there
    is one. *)
Definition first_parsed_offset (group : string) (exif_dict : ExifDict)
  : option DateTime.timezone :=
  match PyVal.lookup group Image.timezone_keys,
        PyVal.lookup group exif_dict with
  | Some keys, Some tags => head (offsets_in_order keys tags)
  | _, _ => None
  end.

(** The offset formats of section 4.2 of the specification, in its
    order. *)
Inductive offset_format :=
  | SignedHourMinute | UnsignedHourMinute | SignedHour | UnsignedHour.

Definition offset_formats : list offset_format :=
  [SignedHourMinute; UnsignedHourMinute; SignedHour; UnsignedHour].

(** An offset without a sign, as hour:minute or as the hour alone, in
    seconds.  The two numbers are read as the runtime reads an hour and a
    minute. *)
Definition read_unsigned (with_minute : bool) (text : string) : option Z :=
  match DateTime.strptime text (if with_minute then "%H:%M" else "%H") with
  | Ok t => Some (DateTime.hour t * 3600 + DateTime.minute t * 60)%Z
  | _ => None
  end.

(** An offset with its sign: a plus sign for an offset east of Greenwich,
    a minus sign for one west of it. *)
Definition read_signed (with_minute : bool) (text : string) : option Z :=
  match text with
  | String c rest =>
      if Ascii.eqb c "+" then read_unsigned with_minute rest
      else if Ascii.eqb c "-" then Z.opp <$> read_unsigned with_minute rest
      else None
  | EmptyString => None
  end.

(** The offset that [text] is under a format of the specification. *)
Definition read_offset (fmt : offset_format) (text : string)
  : option DateTime.timezone :=
  DateTime.Timezone <$>
    match fmt with
    | SignedHourMinute => read_signed true text
    | UnsignedHourMinute => read_unsigned true text
    | SignedHour => read_signed false text
    | UnsignedHour => read_unsigned false text
    end.

(** Section 4.2 of the specification, [resolveTimezone(group, metadata)]:
    each candidate key of the group is tried against the ordered formats,
    the first combination of key and format that parses wins, and when
    none does no time zone is known.  The candidate keys of a group are
    those of the table of [Image]. *)
Definition resolveTimezone (group : string) (exif_dict : ExifDict)
  : option DateTime.timezone :=
  match PyVal.lookup group Image.timezone_keys,
        PyVal.lookup group exif_dict with
  | Some keys, Some tags =>
      head (key ← keys.*2;
            text ← option_list (PyVal.lookup key tags);
            fmt ← offset_formats;
            option_list (read_offset fmt text))
  | _, _ => None
  end.

(** No candidate key of the group holds a text that begins with a minus
    sign. *)
Definition no_minus_sign (group : string) (tags : list (Z * string)) : Prop :=
  forall keys label key rest,
    PyVal.lookup group Image.timezone_keys = Some keys ->
    (label, key) ∈ keys ->
    PyVal.lookup key tags <> Some (String "-" rest).

(** The format ends inside a directive: its last [%] has no letter. *)
Fixpoint open_percent (s : string) : bool :=
  match s with
  | EmptyString => false
  | String c r =>
      if Ascii.eqb c "%" then
        match r with
        | EmptyString => true
        | String _ r' => open_percent r'
        end
      else open_percent r
  end.

(** The template of section 4.4 before its extensions:
    [[prefix]<time-format>[_counter][suffix]]. *)
Definition name_stem (self : Extractable.t) (counter : option nat) : string :=
  (if opt_truthy (Extractable.prefix self)
   then default "" (Extractable.prefix self) else "")
  +:+ Extractable.time_format self
  +:+ match counter with
      | Some (S _ as c) => "_" +:+ PyStr.str_nat c
      | _ => ""
      end
  +:+ (if opt_truthy (Extractable.suffix self)
       then default "" (Extractable.suffix self) else "").

(** The extensions of the file itself that [get_name] keeps. *)
Definition own_extensions (self : Extractable.t) : list string :=
  List.filter (fun p => PyStr.truthy p && negb (String.eqb p "."))
              (PathLib.suffixes (Extractable.path self)).

(** No temporary file of an earlier thumbnail step lies where the
    post-step of a video would look for it. *)
Definition no_stale_temporary (self : Extractable.t) (w : World) : Prop :=
  Extractable.cls self = ClsVideo ->
  args_video_thumbnail_skip_creation (Extractable.args self) = false ->
  exists tmp_path,
    PathLib.with_suffix (Extractable.path self)
      (".output" +:+ PathLib.suffix (Extractable.path self))
    = Ok tmp_path
    /\ fs w !! tmp_path = None.

(** The files once the thumbnail step has run on the video at
    [new_path]: both outputs written and, when [replace] is set, the
    thumbnail and the video unlinked and the temporary file moved onto
    [new_path]. *)
Definition after_thumbnail (new_path thumbnail_path tmp_path : Path)
    (thumbnail output : File) (replace : bool) (w : World) : World :=
  let written :=
    <[tmp_path := output]> (<[thumbnail_path := thumbnail]> (fs w)) in
  if replace then
    mkWorld
      (<[new_path := output]>
         (delete tmp_path (delete new_path (delete thumbnail_path written))))
      (ops w ++ [OpWrite thumbnail_path; OpWrite tmp_path;
                 OpUnlink thumbnail_path; OpUnlink new_path;
                 OpRename tmp_path new_path false])
  else
    mkWorld written (ops w ++ [OpWrite thumbnail_path; OpWrite tmp_path]).

(** Every character of [s] satisfies [P]. *)
Fixpoint all_chars (P : ascii -> bool) (s : string) : bool :=
  match s with
  | EmptyString => true
  | String c r => P c && all_chars P r
  end.

(** A decimal digit. *)
Definition is_digit (c : ascii) : bool :=
  match DateTime.digit c with Some _ => true | None => false end.

(** A character that an integer literal can hold: a digit, a sign, an
    underscore or white space. *)
Definition literal_char (c : ascii) : bool :=
  is_digit c || Ascii.eqb c "+" || Ascii.eqb c "-" || Ascii.eqb c "_"
  || Builtins.isspace c.

#[global] Instance outcome_eq_dec {A} `{EqDecision A} : EqDecision (outcome A).
Proof. solve_decision. Defined.

(** A number of seconds that a [timedelta] can hold: no more than
    999999999 days in magnitude. *)
Definition in_timedelta_range (seconds : Z) : Prop :=
  (-999999999 <= seconds / 86400 <= 999999999)%Z.

(** [sum(stats.values())]. *)
Definition total (stats : gmap Status nat) : nat :=
  map_fold (fun _ n acc => n + acc) 0 stats.

(** The line that [print_meta] prints for the tag [key] of the group
    [group] of an image, whose value is the byte string [value]. *)
Definition tag_line (group : string) (key : Z) (value : string) : string :=
  "  " +:+ group +:+ "/" +:+ PyVal.repr_Z key +:+ ": b'" +:+ value +:+ "'".

(** The first tag with the date of an image that the metadata has, in
    the order in which [get_creation_time] looks for them: its group and
    its value. *)
Definition first_date_tag (exif_dict : ExifDict) : option (string * string) :=
  head (group ← Image.date_keys;
        tags ← option_list (PyVal.lookup group.1 exif_dict);
        key ← group.2;
        value ← option_list (PyVal.lookup key.2 tags);
        [(group.1, value)]).

(** The instance [self] for the file at [p]. *)
Definition at_path (self : Extractable.t) (p : Path) : Extractable.t :=
  Extractable.mk (Extractable.cls self) p (Extractable.args self)
    (Extractable.prefix self) (Extractable.suffix self)
    (Extractable.time_format self) (Extractable.extensions self).

(** A date of the calendar: a year from 1 to 9999, a month, and a day
    that the month has in that year. *)
Definition valid_date (y m d : Z) : Prop :=
  (1 <= y <= 9999)%Z /\ (1 <= m <= 12)%Z
  /\ (1 <= d <= DateTime.days_in_month y m)%Z.

(** A [datetime] as Python builds them: a date of the calendar and a
    time of the day. *)
Definition valid_datetime (dt : DateTime.datetime) : Prop :=
  valid_date (DateTime.year dt) (DateTime.month dt) (DateTime.day dt)
  /\ (0 <= DateTime.hour dt <= 23)%Z /\ (0 <= DateTime.minute dt <= 59)%Z
  /\ (0 <= DateTime.second dt <= 59)%Z.

(** The seconds that the clock value of [dt] counts, from the midnight
    before the first day of year 1 on. *)
Definition clock_seconds (dt : DateTime.datetime) : Z :=
  (DateTime.ymd2ord (DateTime.year dt) (DateTime.month dt) (DateTime.day dt)
   * 86400 + DateTime.day_seconds dt)%Z.

(** The clock values between the first day of year 1 and the last day of
    year 9999. *)
Definition representable (seconds : Z) : Prop :=
  (86400 <= seconds < (DateTime.MAXORDINAL + 1) * 86400)%Z.

(** The offset that [astimezone] takes [dt] to have: its own one, or that
    of the system time zone when it is naive. *)
Definition own_offset (local : Z) (dt : DateTime.datetime) : Z :=
  match DateTime.tzinfo dt with
  | Some tz => DateTime.utcoffset tz
  | None => local
  end.

(** ** Example data *)

Module Example.

(** Both optional modules installed, a system time zone two hours east of
    Greenwich, and an [ffmpeg] whose thumbnail weighs 10 bytes and whose
    output weighs as much as its two inputs. *)
Definition env : Env :=
  mkEnv true true 7200
        (fun _ => Some (mkFile 10 NoMeta))
        (fun video thumbnail =>
           Some (mkFile (st_size video + st_size thumbnail) (meta video))).

(** No option given on the command line. *)
Definition args : Namespace :=
  mkNamespace false false false None None None false.

(** [--dry]. *)
Definition args_dry_run : Namespace :=
  mkNamespace true false false None None None false.

Definition exif : ExifDict :=
  [ ("0th", []);
    ("Exif", [(36867%Z, "2023:05:01 10:00:00"); (36881%Z, "+02:00")]);
    ("GPS", []) ].

Definition photo : File := mkFile 100 (ExifMeta exif).

Definition img1 : Path := mkPath "photos" "IMG_0001.JPG".
Definition img2 : Path := mkPath "photos" "IMG_0002.JPG".

(** 2023-05-01 10:00:00+02:00. *)
Definition taken : DateTime.datetime :=
  DateTime.mkDatetime 2023 5 1 10 0 0 0 (Some (DateTime.Timezone 7200)).

Definition renamed1 : Path :=
  mkPath "photos" "IMG_20230501_100000.jpg.jpeg.png".
Definition renamed2 : Path :=
  mkPath "photos" "IMG_20230501_100000_2.jpg.jpeg.png".

(** Two photos taken in the same second. *)
Definition two_photos : World :=
  mkWorld (<[img1 := photo]> (<[img2 := photo]> ∅)) [].

(** The same once the first one has been renamed. *)
Definition first_renamed : World :=
  mkWorld (<[renamed1 := photo]> (<[img2 := photo]> ∅))
          [OpRename img1 renamed1 false].

Definition one_photo : World :=
  mkWorld (<[img1 := photo]> ∅) [].

Definition one_photo_renamed : World :=
  mkWorld (<[renamed1 := photo]> ∅)
          [OpRename img1 renamed1 false].

(** A probe result whose first stream carries tags, but no
    [creation_time]. *)
Definition probe_without_tag : list (PyKey * PyVal) :=
  [ (KStr "streams",
     VList [VDict [ (KStr "codec_name", VStr "h264");
                    (KStr "tags", VDict [(KStr "language", VStr "und")]) ]]);
    (KStr "format", VDict [(KStr "format_name", VStr "mov,mp4")]) ].

Definition untagged_clip : Path := mkPath "photos" "clip.mp4".

Definition untagged_video : File :=
  mkFile 1000 (ProbeMeta probe_without_tag).

(** The video without the tag, and a photo that comes after it in the
    batch. *)
Definition batch : World :=
  mkWorld (<[untagged_clip := untagged_video]> (<[img1 := photo]> ∅)) [].

(** An EXIF dictionary whose only offset tag is a negative one, which no
    offset format of [Image] reads. *)
Definition exif_west : ExifDict :=
  [ ("0th", []);
    ("Exif", [(36867%Z, "2023:05:01 10:00:00"); (36880%Z, "-02:00")]) ].

(** 2023-05-01 10:00:00, naive. *)
Definition taken_naive : DateTime.datetime :=
  DateTime.mkDatetime 2023 5 1 10 0 0 0 None.

(** The date written with dashes, which the second format reads. *)
Definition exif_dashes : ExifDict :=
  [("Exif", [(36867%Z, "2023-05-01 10:00:00")])].

(** An unreadable [DateTimeOriginal] before a readable
    [DateTimeDigitized]. *)
Definition exif_fallback : ExifDict :=
  [("Exif", [(36867%Z, "unknown"); (36868%Z, "2023:05:01 10:00:00")])].

Definition with_dashes : World :=
  mkWorld (<[img1 := mkFile 100 (ExifMeta exif_dashes)]> ∅) [].

Definition with_fallback : World :=
  mkWorld (<[img1 := mkFile 100 (ExifMeta exif_fallback)]> ∅) [].

(** [--ignore-timezone]. *)
Definition args_as_utc : Namespace :=
  mkNamespace false true false None None None false.

(** 2023-05-01 08:00:00+00:00. *)
Definition two_hours_earlier : DateTime.datetime :=
  DateTime.mkDatetime 2023 5 1 8 0 0 0 (Some DateTime.utc).

(** A system whose time zone is UTC. *)
Definition env_utc : Env :=
  mkEnv true true 0 (ffmpeg_thumbnail env) (ffmpeg_attach env).

(** The prefix and the time format of the scenario, given on the command
    line. *)
Definition args_scenario : Namespace :=
  mkNamespace false false false (Some "IMG_") None (Some "%Y%m%d_%H%M%S")
              false.

(** A probe result with the creation time of the first stream. *)
Definition holiday_probe : list (PyKey * PyVal) :=
  [ (KStr "streams",
     VList [VDict [ (KStr "codec_name", VStr "h264");
                    (KStr "tags",
                     VDict [(KStr "creation_time",
                             VStr "2023-05-01T08:00:00.000000Z")]) ]]);
    (KStr "format", VDict [(KStr "format_name", VStr "mov,mp4")]) ].

Definition holiday_clip : Path := mkPath "videos" "holiday.MP4".

Definition holiday_video : File := mkFile 1000 (ProbeMeta holiday_probe).

(** 2023-05-01 08:00:00+00:00. *)
Definition shot : DateTime.datetime :=
  DateTime.mkDatetime 2023 5 1 8 0 0 0 (Some DateTime.utc).

Definition holiday_target : Path :=
  mkPath "videos" "VID_20230501_080000.mp4".
Definition holiday_thumbnail : Path :=
  mkPath "videos" "VID_20230501_080000.jpg".
Definition holiday_tmp : Path :=
  mkPath "videos" "VID_20230501_080000.output.mp4".

Definition holiday_before : World :=
  mkWorld (<[holiday_clip := holiday_video]> ∅) [].

(** A photo whose metadata holds no date. *)
Definition undated : World :=
  mkWorld (<[mkPath "photos" "IMG_0001.JPG" :=
               mkFile 100 (ExifMeta [("Exif", [])])]> ∅) [].

(** A system on which every run of [ffmpeg] fails. *)
Definition env_ffmpeg_fails : Env :=
  mkEnv true true 7200 (fun _ => None) (fun _ _ => None).

(** A photo with both [OffsetTime] and [OffsetTimeOriginal], which
    disagree, and no [TimeZoneOffset]. *)
Definition exif_two_offsets : ExifDict :=
  [ ("0th", []);
    ("Exif", [(36867%Z, "2023:05:01 10:00:00"); (36880%Z, "+05:00");
              (36881%Z, "+02:00")]) ].

(** A photo whose only offset tag holds no offset. *)
Definition exif_no_offset : ExifDict :=
  [ ("0th", []);
    ("Exif", [(36867%Z, "2023:05:01 10:00:00"); (36881%Z, "Z")]) ].

End Example.

(** * Properties *)

(** ** Strings *)

Lemma append_cons (a : ascii) (s t : string) :
  String a s +:+ t = String a (s +:+ t).
Proof. reflexivity. Qed.

Lemma append_nil_l (t : string) : "" +:+ t = t.
Proof. reflexivity. Qed.

Lemma append_nil_r (s : string) : s +:+ "" = s.
Proof. induction s as [|a s IH]; [done|]. by rewrite append_cons, IH. Qed.

Lemma append_assoc (s t u : string) : (s +:+ t) +:+ u = s +:+ (t +:+ u).
Proof.
  induction s as [|a s IH]; [done|]. by rewrite !append_cons, IH.
Qed.

Lemma length_append (s t : string) :
  String.length (s +:+ t) = String.length s + String.length t.
Proof.
  induction s as [|a s IH]; [done|]. rewrite append_cons. simpl. by rewrite IH.
Qed.

Lemma append_inv_tail (s1 s2 t : string) : s1 +:+ t = s2 +:+ t -> s1 = s2.
Proof.
  revert s2. induction s1 as [|a s1 IH]; intros [|b s2] H.
  - done.
  - apply (f_equal String.length) in H.
    rewrite append_nil_l, append_cons in H. simpl in H.
    rewrite length_append in H. lia.
  - apply (f_equal String.length) in H.
    rewrite append_nil_l, append_cons in H. simpl in H.
    rewrite length_append in H. lia.
  - rewrite !append_cons in H. injection H as -> H. f_equal. by apply IH.
Qed.

(** [str(n)] is made of digits and determines [n]. *)

Lemma no_percent_uint (d : Decimal.uint) :
  no_percent (NilEmpty.string_of_uint d).
Proof. unfold no_percent. induction d; simpl; auto. Qed.

Lemma no_percent_str_nat (n : nat) : no_percent (PyStr.str_nat n).
Proof.
  unfold PyStr.str_nat, NilZero.string_of_uint.
  destruct (Nat.to_uint n); try apply no_percent_uint. reflexivity.
Qed.

Lemma str_nat_inj (n m : nat) : PyStr.str_nat n = PyStr.str_nat m -> n = m.
Proof.
  unfold PyStr.str_nat. intros H.
  apply Unsigned.to_uint_inj.
  assert (Hu : forall k, NilZero.uint_of_string
                    (NilZero.string_of_uint (Nat.to_uint k))
                  = Some (Nat.to_uint k)).
  { intros k. apply NilZero.usu. intros Hk.
    assert (k = 0) as ->.
    { apply (f_equal Nat.of_uint) in Hk. by rewrite Unsigned.of_to in Hk. }
    discriminate Hk. }
  pose proof (Hu n) as Hn. rewrite H, Hu in Hn. by injection Hn.
Qed.

(** ** [strftime] on a format with a literal part *)

Section Strftime.

Context (dt : DateTime.datetime).

Lemma strftime_literal (s r : string) :
  no_percent s ->
  DateTime.strftime dt (s +:+ r) = s +:+ DateTime.strftime dt r.
Proof.
  unfold no_percent. induction s as [|a s IH]; intros H; [done|].
  simpl in H. apply orb_false_iff in H as [Ha Hs].
  rewrite !append_cons. simpl. rewrite Ha. f_equal. by apply IH.
Qed.

Lemma strftime_char (c : ascii) (r : string) :
  Ascii.eqb c "%" = false ->
  DateTime.strftime dt (String c r) = String c (DateTime.strftime dt r).
Proof. intros Hc. simpl. by rewrite Hc. Qed.

Lemma strftime_directive (c d : ascii) (r : string) :
  Ascii.eqb c "%" = true ->
  DateTime.strftime dt (String c (String d r))
  = DateTime.directive dt d +:+ DateTime.strftime dt r.
Proof. intros Hc. simpl. by rewrite Hc. Qed.

(** What precedes an underscore in the format contributes a fixed text,
    whatever follows it. *)
Lemma strftime_underscore (a : string) :
  exists X, forall r,
    DateTime.strftime dt (a +:+ String "_" r) = X +:+ DateTime.strftime dt r.
Proof.
  assert (H : (exists X, forall r,
                 DateTime.strftime dt (a +:+ String "_" r)
                 = X +:+ DateTime.strftime dt r)
              /\ (forall c, exists X, forall r,
                    DateTime.strftime dt (String c a +:+ String "_" r)
                    = X +:+ DateTime.strftime dt r)).
  { induction a as [|b a [IH1 IH2]].
    - split.
      + exists "_". intros r. reflexivity.
      + intros c. destruct (Ascii.eqb c "%") eqn:Hc.
        * exists "%_". intros r. rewrite append_cons, append_nil_l.
          by rewrite strftime_directive.
        * exists (String c "_"). intros r. rewrite append_cons, append_nil_l.
          by rewrite strftime_char.
    - split; [apply IH2|].
      intros c. destruct (Ascii.eqb c "%") eqn:Hc.
      + destruct IH1 as [X HX].
        exists (DateTime.directive dt b +:+ X). intros r.
        rewrite !append_cons, strftime_directive by done.
        rewrite HX. by rewrite append_assoc.
      + destruct (IH2 b) as [X HX].
        exists (String c X). intros r.
        rewrite append_cons, strftime_char by done. by rewrite HX. }
  apply H.
Qed.

End Strftime.

(** ** Candidate names *)

Lemma get_name_fmt_counter (self : Extractable.t) (k : nat) :
  0 < k ->
  exists a b, forall i, 0 < i ->
    Extractable.get_name_fmt self (Some i)
    = a +:+ String "_" (PyStr.str_nat i +:+ b).
Proof.
  intros _. unfold Extractable.get_name_fmt.
  set (base := if opt_truthy (Extractable.prefix self) then _ else _).
  set (exts := PyStr.join _).
  destruct (opt_truthy (Extractable.suffix self)).
  - exists base, (default "" (Extractable.suffix self) +:+ exts).
    intros [|i] Hi; [lia|].
    rewrite !append_assoc. reflexivity.
  - exists base, exts. intros [|i] Hi; [lia|].
    rewrite !append_assoc. reflexivity.
Qed.

Lemma get_name_counter_inj (self : Extractable.t) (dt : DateTime.datetime)
    (i j : nat) :
  0 < i -> 0 < j ->
  Extractable.get_name self dt (Some i) None
  = Extractable.get_name self dt (Some j) None ->
  i = j.
Proof.
  intros Hi Hj. unfold Extractable.get_name, PathLib.joinpath.
  destruct (get_name_fmt_counter self i Hi) as (a & b & Hfmt).
  rewrite !Hfmt by done.
  destruct (strftime_underscore dt a) as [X HX]. rewrite !HX.
  rewrite !strftime_literal by apply no_percent_str_nat.
  intros H. injection H as H.
  apply String.app_inj in H. apply append_inv_tail in H.
  by apply str_nat_inj.
Qed.

Lemma candidate_inj (self : Extractable.t) (dt : DateTime.datetime)
    (i j : nat) :
  0 < i -> 0 < j -> candidate self dt i = candidate self dt j -> i = j.
Proof.
  intros Hi Hj. unfold candidate.
  destruct i as [|i]; [lia|]. destruct j as [|j]; [lia|].
  by apply get_name_counter_inj.
Qed.

(** Among the candidates for the counters [2 .. size m + 2] one is not a
    key of [m]: they are pairwise distinct and one more than the keys. *)
Lemma free_counter_exists (self : Extractable.t) (dt : DateTime.datetime)
    (m : gmap Path File) :
  exists k, k <= size m /\ m !! candidate self dt (2 + k) = None.
Proof.
  set (f := fun k => candidate self dt (2 + k)).
  destruct (Forall_Exists_dec (fun k => is_Some (m !! f k))
                              (fun k => m !! f k = None)
                              (fun k => match m !! f k as o
                                          return {is_Some o} + {o = None} with
                                        | Some x => left (ex_intro _ x eq_refl)
                                        | None => right eq_refl
                                        end)
                              (seq 0 (S (size m)))) as [Hall|Hex].
  - exfalso.
    assert (Hnd : NoDup (f <$> seq 0 (S (size m)))).
    { apply NoDup_fmap_2; [|apply NoDup_seq].
      intros x y Hxy. unfold f in Hxy. apply candidate_inj in Hxy; lia. }
    assert (Hsub : (list_to_set (f <$> seq 0 (S (size m))) : gset Path)
                   ⊆ dom m).
    { intros p Hp. apply elem_of_list_to_set, list_elem_of_fmap in Hp
        as (k & -> & Hk).
      apply elem_of_dom. rewrite Forall_forall in Hall. by apply Hall. }
    apply subseteq_size in Hsub.
    rewrite size_list_to_set, length_fmap, length_seq, size_dom in Hsub
      by done.
    lia.
  - apply Exists_exists in Hex as (k & Hk & Hfree).
    exists k. split; [|done].
    apply elem_of_seq in Hk. lia.
Qed.

(** ** The collision loop *)

Lemma collision_loop_unfold fuel self dt path target_name i w :
  collision_loop (S fuel) self dt path target_name i w
  = if bool_decide (is_Some (fs w !! target_name)) then
      if decide (Extractable.get_name self dt (Some i) None = path)
      then (Ok None, w)
      else collision_loop fuel self dt path
             (Extractable.get_name self dt (Some i) None) (S i) w
    else (Ok (Some target_name), w).
Proof.
  simpl. unfold bind, Fs.exists_, ret.
  destruct (bool_decide (is_Some (fs w !! target_name))); [|done].
  by destruct (decide _).
Qed.

(** The loop only looks at the files; when it leaves with a name, no file
    has that name. *)
Lemma collision_loop_result fuel self dt path target_name i w :
  snd (collision_loop fuel self dt path target_name i w) = w
  /\ (fst (collision_loop fuel self dt path target_name i w) = Diverge
      \/ fst (collision_loop fuel self dt path target_name i w) = Ok None
      \/ exists t, fst (collision_loop fuel self dt path target_name i w)
                   = Ok (Some t)
                   /\ fs w !! t = None).
Proof.
  revert target_name i. induction fuel as [|fuel IH]; intros target_name i.
  - simpl. auto.
  - rewrite collision_loop_unfold.
    destruct (bool_decide (is_Some (fs w !! target_name))) eqn:Hex.
    + destruct (decide _); [simpl; auto|]. apply IH.
    + simpl. split; [done|]. right. right. exists target_name. split; [done|].
      apply bool_decide_eq_false in Hex. by apply eq_None_not_Some.
Qed.

(** With the fuel that [rename] gives it, the loop ends. *)
Lemma collision_loop_terminates fuel self dt path target_name i w :
  0 < i -> 0 < fuel ->
  (fs w !! target_name = None
   \/ exists k, S k < fuel /\ fs w !! candidate self dt (i + k) = None) ->
  fst (collision_loop fuel self dt path target_name i w) <> Diverge.
Proof.
  revert target_name i.
  induction fuel as [|fuel IH]; intros target_name i Hi Hfuel Hfree; [lia|].
  rewrite collision_loop_unfold.
  destruct (bool_decide (is_Some (fs w !! target_name))) eqn:Hex; [|done].
  destruct (decide _); [done|].
  apply bool_decide_eq_true in Hex.
  destruct Hfree as [Hnone|(k & Hk & Hfree)].
  { rewrite Hnone in Hex. by destruct Hex. }
  apply IH; [lia|lia|].
  destruct k as [|k].
  - left. rewrite Nat.add_0_r in Hfree. unfold candidate in Hfree.
    by destruct i; [lia|].
  - right. exists k. split; [lia|].
    by replace (S i + k) with (i + S k) by lia.
Qed.

(** Fuel beyond what the loop needs changes nothing. *)
Lemma collision_loop_more_fuel fuel self dt path target_name i w :
  fst (collision_loop fuel self dt path target_name i w) <> Diverge ->
  collision_loop (S fuel) self dt path target_name i w
  = collision_loop fuel self dt path target_name i w.
Proof.
  revert target_name i.
  induction fuel as [|fuel IH]; intros target_name i Hend.
  { by contradict Hend. }
  rewrite (collision_loop_unfold (S fuel) self dt path target_name i w).
  rewrite (collision_loop_unfold fuel self dt path target_name i w)
    in Hend |- *.
  destruct (bool_decide _); [|done].
  destruct (decide _); [done|]. by apply IH.
Qed.

Lemma collision_loop_total self dt path target_name w :
  fst (collision_loop (collision_fuel w) self dt path target_name 2 w)
  <> Diverge.
Proof.
  apply collision_loop_terminates; [lia|unfold collision_fuel; lia|].
  right. destruct (free_counter_exists self dt (fs w)) as (k & Hk & Hfree).
  exists k. split; [unfold collision_fuel; lia|done].
Qed.

(** The loop leaves with the first target that is free, when no target up
    to there is the current path. *)
Lemma collision_loop_finds fuel self dt path target_name i w n :
  n < fuel ->
  (forall m, m < n ->
     is_Some (fs w !! nth_target self dt target_name i m)) ->
  fs w !! nth_target self dt target_name i n = None ->
  (forall m, 1 <= m <= n -> nth_target self dt target_name i m <> path) ->
  collision_loop fuel self dt path target_name i w
  = (Ok (Some (nth_target self dt target_name i n)), w).
Proof.
  revert target_name i n.
  induction fuel as [|fuel IH]; intros target_name i n Hn Htaken Hfree Hne;
    [lia|].
  rewrite collision_loop_unfold.
  destruct n as [|n].
  - simpl in Hfree.
    rewrite bool_decide_eq_false_2; [reflexivity|].
    rewrite Hfree. by intros [? ?].
  - rewrite bool_decide_eq_true_2 by (apply (Htaken 0); lia).
    destruct (decide _) as [Heq|_].
    { exfalso. apply (Hne 1); [lia|]. simpl. by rewrite Nat.add_0_r. }
    assert (Hshift : forall m,
               nth_target self dt
                 (Extractable.get_name self dt (Some i) None) (S i) m
               = nth_target self dt target_name i (S m)).
    { intros [|m]; simpl; [by rewrite Nat.add_0_r|].
      by replace (i + S m) with (S (i + m)) by lia. }
    rewrite (IH _ _ n); [by rewrite Hshift|lia| | |].
    + intros m Hm. rewrite Hshift. apply Htaken. lia.
    + by rewrite Hshift.
    + intros m Hm. rewrite Hshift. apply Hne. lia.
Qed.

(** The loop leaves by its [return] when it reaches the current path
    before a free name. *)
Lemma collision_loop_already_correct fuel self dt path target_name i w n :
  n < fuel ->
  (forall m, m <= n ->
     is_Some (fs w !! nth_target self dt target_name i m)) ->
  (forall m, 1 <= m <= n -> nth_target self dt target_name i m <> path) ->
  nth_target self dt target_name i (S n) = path ->
  collision_loop fuel self dt path target_name i w = (Ok None, w).
Proof.
  revert target_name i n.
  induction fuel as [|fuel IH]; intros target_name i n Hn Htaken Hne Heq;
    [lia|].
  rewrite collision_loop_unfold.
  rewrite bool_decide_eq_true_2 by (apply (Htaken 0); lia).
  assert (Hshift : forall m,
             nth_target self dt
               (Extractable.get_name self dt (Some i) None) (S i) m
             = nth_target self dt target_name i (S m)).
  { intros [|m]; simpl; [by rewrite Nat.add_0_r|].
    by replace (i + S m) with (S (i + m)) by lia. }
  destruct n as [|n].
  - simpl in Heq. rewrite Nat.add_0_r in Heq. by rewrite decide_True.
  - destruct (decide _) as [Hp|_]; [done|].
    apply (IH _ _ n); [lia| | |].
    + intros m Hm. rewrite Hshift. apply Htaken. lia.
    + intros m Hm. rewrite Hshift. apply Hne. lia.
    + by rewrite Hshift.
Qed.

(** ** Computations that only read, computations that never overwrite *)

Lemma readonly_safe {A} (m : M A) : readonly m -> safe m.
Proof.
  intros H w. destruct (H w) as [Hw Hd]. split; [done|].
  exists []. rewrite Hw, app_nil_r. by split.
Qed.

Lemma readonly_ret {A} (a : A) : readonly (ret a).
Proof. by intros w. Qed.

Lemma readonly_throw {A} (e : exn) : readonly (@throw A e).
Proof. by intros w. Qed.

Lemma readonly_lift {A} (o : outcome A) : o <> Diverge -> readonly (lift o).
Proof. by intros H w. Qed.

Lemma readonly_bind {A B} (m : M A) (k : A -> M B) :
  readonly m -> (forall a, readonly (k a)) -> readonly (bind m k).
Proof.
  intros Hm Hk w. unfold bind. destruct (Hm w) as [Hw Hd].
  destruct (m w) as [[a| e|] w'] eqn:E; simpl in *; subst; try done.
  apply Hk.
Qed.

Lemma readonly_try_except {A} (m : M A) (e : exn) (h : M A) :
  readonly m -> readonly h -> readonly (try_except m e h).
Proof.
  intros Hm Hh w. unfold try_except. destruct (Hm w) as [Hw Hd].
  destruct (m w) as [[a| e'|] w'] eqn:E; simpl in *; subst; try done.
  destruct (decide (e' = e)); [apply Hh|done].
Qed.

Lemma readonly_exists (p : Path) : readonly (Fs.exists_ p).
Proof. by intros w. Qed.

Lemma readonly_read (e : exn) (p : Path) : readonly (Fs.read e p).
Proof. intros w. unfold Fs.read. by destruct (fs w !! p). Qed.

Lemma readonly_stat_size (p : Path) : readonly (Fs.stat_size p).
Proof.
  apply readonly_bind; [apply readonly_read|]. intros f. apply readonly_ret.
Qed.

Lemma safe_bind {A B} (m : M A) (k : A -> M B) :
  safe m -> (forall a, safe (k a)) -> safe (bind m k).
Proof.
  intros Hm Hk w. unfold bind.
  destruct (Hm w) as (Hd & new & Hops & Hnew).
  destruct (m w) as [[a| e|] w'] eqn:E; simpl in *; try done.
  - destruct (Hk a w') as (Hd' & new' & Hops' & Hnew').
    split; [done|]. exists (new ++ new').
    rewrite Hops', Hops, app_assoc. split; [done|].
    by apply Forall_app.
  - split; [done|]. by exists new.
Qed.

Lemma safe_try_except {A} (m : M A) (e : exn) (h : M A) :
  safe m -> safe h -> safe (try_except m e h).
Proof.
  intros Hm Hh w. unfold try_except.
  destruct (Hm w) as (Hd & new & Hops & Hnew).
  destruct (m w) as [[a| e'|] w'] eqn:E; simpl in *; try done.
  - split; [done|]. by exists new.
  - destruct (decide (e' = e)).
    + destruct (Hh w') as (Hd' & new' & Hops' & Hnew').
      split; [done|]. exists (new ++ new').
      rewrite Hops', Hops, app_assoc. split; [done|].
      by apply Forall_app.
    + split; [done|]. by exists new.
Qed.

Lemma safe_unlink (p : Path) : safe (Fs.unlink p).
Proof.
  intros w. unfold Fs.unlink. destruct (fs w !! p); simpl.
  - split; [done|]. exists [OpUnlink p]. split; [done|].
    by repeat constructor.
  - split; [done|]. exists []. by rewrite app_nil_r.
Qed.

Lemma safe_write (p : Path) (f : File) : safe (Fs.write p f).
Proof.
  intros w. split; [done|]. exists [OpWrite p]. split; [done|].
  by repeat constructor.
Qed.

(** A rename onto a path that was unlinked just before. *)
Lemma safe_unlink_rename {A} (src dst : Path) (k : Path -> M A) :
  (forall p, safe (k p)) ->
  safe (bind (Fs.unlink dst) (fun _ => bind (Fs.rename src dst) k)).
Proof.
  intros Hk w. unfold bind, Fs.unlink, Fs.rename.
  destruct (fs w !! dst) as [f|] eqn:Hdst; simpl.
  - destruct (delete dst (fs w) !! src) as [g|] eqn:Hsrc; simpl.
    + match goal with |- context [k dst ?w1] =>
        destruct (Hk dst w1) as (Hd & new & Hops & Hnew) end.
      split; [done|].
      eexists (_ :: _ :: new). rewrite Hops. simpl.
      rewrite <- !app_assoc. split; [reflexivity|].
      repeat constructor; [|done]. simpl.
      apply bool_decide_eq_false_2. rewrite lookup_delete_eq.
      by intros [? ?].
    + split; [done|]. exists [OpUnlink dst]. split; [done|].
      by repeat constructor.
  - split; [done|]. exists []. by rewrite app_nil_r.
Qed.

Lemma with_suffix_not_diverge (p : Path) (suf : string) :
  PathLib.with_suffix p suf <> Diverge.
Proof. unfold PathLib.with_suffix. by repeat case_match. Qed.

Lemma bind_ret {A B} (a : A) (k : A -> M B) : bind (ret a) k = k a.
Proof. reflexivity. Qed.

Create HintDb readonly.

#[local] Hint Resolve readonly_ret readonly_throw readonly_exists
  readonly_read readonly_stat_size with_suffix_not_diverge : readonly.

Ltac solve_readonly :=
  repeat first
    [ progress cbv beta
    | rewrite bind_ret
    | apply readonly_bind; [|intros ?]
    | apply readonly_try_except
    | apply readonly_lift
    | assumption
    | solve [auto with readonly]
    | case_match ].

Ltac solve_safe :=
  repeat first
    [ apply safe_unlink_rename; intros ?
    | apply safe_bind; [|intros ?]
    | apply safe_try_except
    | apply safe_unlink
    | apply safe_write
    | assumption
    | solve [auto]
    | solve [apply readonly_safe; solve_readonly]
    | case_match ].

Lemma safe_make_thumbnail env new_path tmp_path :
  safe (Video.make_thumbnail env new_path tmp_path).
Proof. unfold Video.make_thumbnail. solve_safe. Qed.

Lemma safe_after_rename env self status path dt dry :
  safe (after_rename env self status path dt dry).
Proof.
  unfold after_rename, Video.after_rename, Extractable.after_rename.
  pose proof safe_make_thumbnail. solve_safe.
Qed.

(** The post-step of a dry run changes nothing. *)
Lemma readonly_after_rename_dry env self status path dt :
  readonly (after_rename env self status path dt true).
Proof.
  unfold after_rename, Video.after_rename, Extractable.after_rename.
  simpl. solve_readonly.
Qed.

(** ** [rename] never overwrites *)

Lemma rename_unfold env self dt dry w :
  rename env self dt dry w
  = if decide (candidate self dt 0 = Extractable.path self) then
      after_rename env self UNCHANGED (Extractable.path self) dt dry w
    else
      match collision_loop (collision_fuel w) self dt (Extractable.path self)
                           (candidate self dt 0) 2 w with
      | (Ok None, w') =>
          after_rename env self UNCHANGED (Extractable.path self) dt dry w'
      | (Ok (Some target_name), w') =>
          if negb dry then
            bind (Fs.rename (Extractable.path self) target_name)
                 (fun new_path => after_rename env self RENAMED new_path dt dry)
                 w'
          else after_rename env self UNCHANGED (Extractable.path self) dt dry w'
      | (Raise e, w') => (Raise e, w')
      | (Diverge, w') => (Diverge, w')
      end.
Proof.
  unfold rename, Extractable.before_rename, candidate.
  cbv beta iota zeta.
  destruct (decide (UNCHANGED = ERROR)); [done|].
  destruct (decide _); [done|].
  unfold bind at 1.
  match goal with |- context [collision_loop ?a ?b ?c ?d ?e ?g w] =>
    destruct (collision_loop a b c d e g w) as [[[t|]| |] w'] end; try done.
  by destruct dry.
Qed.

Lemma safe_rename env self dt dry : safe (rename env self dt dry).
Proof.
  intros w. rewrite rename_unfold.
  destruct (decide _); [apply safe_after_rename|].
  pose proof (collision_loop_total self dt (Extractable.path self)
                (candidate self dt 0) w) as Hterm.
  destruct (collision_loop_result (collision_fuel w) self dt
              (Extractable.path self) (candidate self dt 0) 2 w)
    as [Hw Hres].
  match goal with |- context [collision_loop ?a ?b ?c ?d ?e ?g w] =>
    destruct (collision_loop a b c d e g w) as [r w'] end.
  simpl in *. subst w'.
  destruct Hres as [->|[->|(t & -> & Hfree)]]; [done| |].
  - apply safe_after_rename.
  - destruct dry; simpl; [apply safe_after_rename|].
    unfold bind, Fs.rename.
    destruct (fs w !! Extractable.path self) as [f|]; simpl.
    + match goal with |- context [after_rename _ _ _ _ _ _ ?w1] =>
        destruct (safe_after_rename env self RENAMED t dt false w1)
          as (Hd & new & Hops & Hnew) end.
      split; [done|]. eexists (_ :: new). rewrite Hops. simpl.
      rewrite <- app_assoc. split; [reflexivity|].
      constructor; [|done]. simpl.
      apply bool_decide_eq_false_2. rewrite Hfree. by intros [? ?].
    + split; [done|]. exists []. by rewrite app_nil_r.
Qed.

(** The candidates that are taken are distinct files. *)
Lemma taken_counters_bound (self : Extractable.t) (dt : DateTime.datetime)
    (m : gmap Path File) (k : nat) :
  (forall j, 2 <= j -> j < k -> is_Some (m !! candidate self dt j)) ->
  k <= size m + 2.
Proof.
  intros Htaken.
  set (l := (fun i => candidate self dt (2 + i)) <$> seq 0 (k - 2)).
  assert (Hnd : NoDup l).
  { apply NoDup_fmap_2; [|apply NoDup_seq].
    intros x y Hxy. apply candidate_inj in Hxy; lia. }
  assert (Hsub : (list_to_set l : gset Path) ⊆ dom m).
  { intros p Hp. apply elem_of_list_to_set, list_elem_of_fmap in Hp
      as (i & -> & Hi).
    apply elem_of_seq in Hi. apply elem_of_dom, Htaken; lia. }
  apply subseteq_size in Hsub.
  rewrite size_list_to_set in Hsub by done.
  unfold l in Hsub. rewrite length_fmap, length_seq, size_dom in Hsub.
  lia.
Qed.

(** The file moves to the first candidate that is free. *)
Lemma rename_moves_to_first_free env self dt w k f :
  counter_ok k ->
  fs w !! Extractable.path self = Some f ->
  (forall j, counter_ok j -> j < k ->
     is_Some (fs w !! candidate self dt j)) ->
  (forall j, counter_ok j -> j <= k ->
     candidate self dt j <> Extractable.path self) ->
  fs w !! candidate self dt k = None ->
  exists rest,
    ops (snd (rename env self dt false w))
    = ops w ++ OpRename (Extractable.path self) (candidate self dt k) false
               :: rest.
Proof.
  intros Hk Hfile Htaken Hne Hfree.
  rewrite rename_unfold.
  rewrite decide_False by (apply Hne; [by left|lia]).
  set (n := match k with 0 => 0 | S k' => k' end).
  assert (Hnth : forall m, nth_target self dt (candidate self dt 0) 2 m
                           = candidate self dt (match m with
                                                | 0 => 0
                                                | S m' => 2 + m'
                                                end)).
  { by intros [|m]. }
  assert (Hkn : k = match n with 0 => 0 | S n' => 2 + n' end).
  { unfold n. destruct Hk as [->|Hk]; [done|].
    destruct k as [|[|k]]; simpl; lia. }
  assert (Hbound : k <= size (fs w) + 2).
  { apply (taken_counters_bound self dt). intros j Hj1 Hj2.
    apply Htaken; [right; lia|done]. }
  rewrite (collision_loop_finds _ _ _ _ _ _ _ n).
  - rewrite Hnth, <- Hkn. simpl. unfold bind, Fs.rename. rewrite Hfile.
    match goal with |- context [after_rename _ _ _ _ _ _ ?w1] =>
      destruct (safe_after_rename env self RENAMED (candidate self dt k)
                  dt false w1) as (Hd & new & Hops & Hnew) end.
    exists new. rewrite Hops. simpl. rewrite <- app_assoc. simpl.
    do 3 f_equal. apply bool_decide_eq_false_2. rewrite Hfree.
    by intros [? ?].
  - unfold collision_fuel, n. destruct k; lia.
  - intros m Hm. rewrite Hnth. apply Htaken.
    + destruct m; [by left|right; lia].
    + rewrite Hkn. destruct m, n; lia.
  - by rewrite Hnth, <- Hkn.
  - intros m Hm. rewrite Hnth. apply Hne.
    + destruct m; [by left|right; lia].
    + rewrite Hkn. destruct m, n; lia.
Qed.

(** ** What the engine reads, it only reads *)

Lemma getitem_not_diverge v k : PyVal.getitem v k <> Diverge.
Proof. unfold PyVal.getitem. by repeat case_match. Qed.

Lemma stream_creation_time_not_diverge tags :
  Video.stream_creation_time tags <> Diverge.
Proof.
  unfold Video.stream_creation_time.
  destruct (PyVal.getitem (VDict tags) _) as [streams| |] eqn:E1;
    [|done|by apply getitem_not_diverge in E1].
  destruct (PyVal.getitem streams _) as [stream| |] eqn:E2;
    [|done|by apply getitem_not_diverge in E2].
  destruct (PyVal.getitem stream _) as [stream_tags| |] eqn:E3;
    [|done|by apply getitem_not_diverge in E3].
  apply getitem_not_diverge.
Qed.

Lemma strptime_not_diverge data fmt : DateTime.strptime data fmt <> Diverge.
Proof. unfold DateTime.strptime, DateTime.build. by repeat case_match. Qed.

Lemma strptime_cases data fmt :
  (exists dt, DateTime.strptime data fmt = Ok dt)
  \/ DateTime.strptime data fmt = Raise ValueError.
Proof.
  unfold DateTime.strptime, DateTime.build.
  repeat case_match; eauto.
Qed.

(** Closes a goal that has a hypothesis [x = Diverge] for an [x] known
    to end. *)
Ltac absurd_diverge :=
  match goal with
  | H : ?x = Diverge |- _ =>
      exfalso; assert (x <> Diverge) by auto with readonly; done
  end.

Ltac not_diverge :=
  repeat case_match; subst; try done; try absurd_diverge.

#[local] Hint Resolve strptime_not_diverge getitem_not_diverge : readonly.

Lemma timezone_formats_loop_not_diverge s formats :
  Image.timezone_formats_loop s formats <> Diverge.
Proof.
  induction formats as [|format formats IH]; [done|].
  cbn [Image.timezone_formats_loop].
  unfold Image.make_timezone. not_diverge.
Qed.

#[local] Hint Resolve timezone_formats_loop_not_diverge : readonly.

Lemma timezone_keys_loop_not_diverge group exif_dict keys :
  Image.timezone_keys_loop group exif_dict keys <> Diverge.
Proof.
  induction keys as [|[? key] keys IH]; [done|].
  cbn [Image.timezone_keys_loop]. not_diverge.
Qed.

#[local] Hint Resolve timezone_keys_loop_not_diverge : readonly.

Lemma get_time_zone_not_diverge group exif_dict :
  Image._get_time_zone group exif_dict <> Diverge.
Proof. unfold Image._get_time_zone. not_diverge. auto with readonly. Qed.

#[local] Hint Resolve get_time_zone_not_diverge : readonly.

Lemma date_formats_loop_not_diverge group exif_dict s formats :
  Image.date_formats_loop group exif_dict s formats <> Diverge.
Proof. unfold Image.date_formats_loop. not_diverge. Qed.

#[local] Hint Resolve date_formats_loop_not_diverge : readonly.

Lemma date_keys_loop_not_diverge group exif_dict keys :
  Image.date_keys_loop group exif_dict keys <> Diverge.
Proof.
  induction keys as [|[? key] keys IH]; [done|].
  cbn [Image.date_keys_loop]. not_diverge.
Qed.

#[local] Hint Resolve date_keys_loop_not_diverge : readonly.

Lemma date_groups_loop_not_diverge exif_dict groups :
  Image.date_groups_loop exif_dict groups <> Diverge.
Proof.
  induction groups as [|[group keys] groups IH]; [done|].
  cbn [Image.date_groups_loop]. not_diverge.
Qed.

Lemma add_seconds_not_diverge dt s : DateTime.add_seconds dt s <> Diverge.
Proof. unfold DateTime.add_seconds. by repeat case_match. Qed.

#[local] Hint Resolve add_seconds_not_diverge : readonly.

Lemma astimezone_not_diverge local dt tz :
  DateTime.astimezone local dt tz <> Diverge.
Proof.
  unfold DateTime.astimezone.
  destruct (DateTime.add_seconds dt _) as [u| |] eqn:E; [|done|].
  - apply add_seconds_not_diverge.
  - by apply add_seconds_not_diverge in E.
Qed.

#[local] Hint Resolve astimezone_not_diverge : readonly.

Lemma adjust_time_not_diverge env args modify_time target_timezone dt :
  adjust_time env args modify_time target_timezone dt <> Diverge.
Proof.
  unfold adjust_time, DateTime.add. not_diverge; auto with readonly.
Qed.

#[local] Hint Resolve stream_creation_time_not_diverge
  date_groups_loop_not_diverge adjust_time_not_diverge : readonly.

Lemma readonly_list env self : readonly (list_ env self).
Proof.
  unfold list_, Video.list_, Image.list_. solve_readonly.
Qed.

Lemma readonly_matches env self filters : readonly (matches env self filters).
Proof.
  unfold matches. pose proof (readonly_list env self). solve_readonly.
Qed.

Lemma readonly_get_creation_time env self :
  readonly (get_creation_time env self).
Proof.
  unfold get_creation_time, Video.get_creation_time,
    Image.get_creation_time, Video.list_, Image.list_.
  solve_readonly.
Qed.

Lemma readonly_rename_dry env self dt : readonly (rename env self dt true).
Proof.
  intros w. rewrite rename_unfold.
  destruct (decide _); [apply readonly_after_rename_dry|].
  pose proof (collision_loop_total self dt (Extractable.path self)
                (candidate self dt 0) w) as Hterm.
  destruct (collision_loop_result (collision_fuel w) self dt
              (Extractable.path self) (candidate self dt 0) 2 w)
    as [Hw Hres].
  match goal with |- context [collision_loop ?a ?b ?c ?d ?e ?g w] =>
    destruct (collision_loop a b c d e g w) as [r w'] end.
  simpl in *. subst w'.
  destruct Hres as [->|[->|(t & -> & Hfree)]]; [done| |];
    apply readonly_after_rename_dry.
Qed.

Lemma safe_execute_loop env parsers path args modify_time target_timezone
    filters :
  safe (execute_loop env parsers path args modify_time target_timezone
                     filters).
Proof.
  induction parsers as [|parser parsers IH]; simpl.
  { apply readonly_safe, readonly_ret. }
  pose proof (readonly_matches env). pose proof (readonly_list env).
  pose proof (readonly_get_creation_time env).
  pose proof (safe_rename env).
  solve_safe.
Qed.

Lemma readonly_execute_loop_dry env parsers path args modify_time
    target_timezone filters :
  args_dry args = true ->
  readonly (execute_loop env parsers path args modify_time target_timezone
                         filters).
Proof.
  intros Hdry. induction parsers as [|parser parsers IH]; simpl.
  { apply readonly_ret. }
  rewrite Hdry.
  pose proof (readonly_matches env). pose proof (readonly_list env).
  pose proof (readonly_get_creation_time env).
  pose proof (readonly_rename_dry env).
  solve_readonly.
Qed.

Lemma safe_main_loop env files args modify_time target_timezone filters
    stats :
  safe (main_loop env files args modify_time target_timezone filters stats).
Proof.
  revert stats. induction files as [|file files IH]; intros stats; simpl.
  { apply readonly_safe, readonly_ret. }
  apply safe_bind; [apply safe_execute_loop|]. intros status. apply IH.
Qed.

(** ** C1: no rename onto an existing file *)

(** C1.  [rename] always ends, and none of the filesystem renames that it
    performs (the move of the file and, for a video, the move of the
    rewritten copy) has a destination that exists when it is called; the
    same holds for a whole batch.  The destination of the move is the
    first free candidate: the name without a counter, then the names with
    the counters 2, 3, ... in increasing order.  In particular, when the
    name without a counter is taken by another file and the name with
    counter 2 is free, the file moves to the name with counter 2. *)
Theorem rename_never_overwrites env self dt dry w :
  fst (rename env self dt dry w) <> Diverge
  /\ (exists new,
        ops (snd (rename env self dt dry w)) = ops w ++ new
        /\ Forall no_overwrite new)
  /\ (forall files args modify_time target_timezone filters,
        safe (main env files args modify_time target_timezone filters))
  /\ (forall k f,
        counter_ok k ->
        fs w !! Extractable.path self = Some f ->
        (forall j, counter_ok j -> j < k ->
           is_Some (fs w !! candidate self dt j)) ->
        (forall j, counter_ok j -> j <= k ->
           candidate self dt j <> Extractable.path self) ->
        fs w !! candidate self dt k = None ->
        exists rest,
          ops (snd (rename env self dt false w))
          = ops w ++ OpRename (Extractable.path self) (candidate self dt k)
                              false :: rest)
  /\ (forall f,
        fs w !! Extractable.path self = Some f ->
        is_Some (fs w !! candidate self dt 0) ->
        candidate self dt 0 <> Extractable.path self ->
        candidate self dt 2 <> Extractable.path self ->
        fs w !! candidate self dt 2 = None ->
        exists rest,
          ops (snd (rename env self dt false w))
          = ops w ++ OpRename (Extractable.path self) (candidate self dt 2)
                              false :: rest).
Proof.
  destruct (safe_rename env self dt dry w) as [Hd Hsafe].
  split; [done|]. split; [done|]. split.
  { intros. apply safe_main_loop. }
  split.
  { intros k f. apply rename_moves_to_first_free. }
  intros f Hfile Htaken Hne0 Hne2 Hfree.
  apply (rename_moves_to_first_free env self dt w 2 f);
    [right; lia|done| | |done].
  - intros j [->|Hj] Hlt; [done|lia].
  - intros j [->|Hj] Hle; [done|].
    by replace j with 2 by lia.
Qed.

Lemma rename_never_overwrites_witness :
  exists rest,
    ops (snd (rename Example.env
                (configure ClsImage Example.img2 Example.args)
                Example.taken false Example.first_renamed))
    = ops Example.first_renamed
      ++ OpRename Example.img2 Example.renamed2 false :: rest.
Proof.
  destruct (rename_never_overwrites Example.env
              (configure ClsImage Example.img2 Example.args)
              Example.taken false Example.first_renamed)
    as (_ & _ & _ & _ & H).
  apply (H Example.photo).
  - vm_compute. reflexivity.
  - exists Example.photo. vm_compute. reflexivity.
  - vm_compute. discriminate.
  - vm_compute. discriminate.
  - vm_compute. reflexivity.
Defined.

(** ** C2: the status that [rename] returns *)

Lemma returns_ret {A} (a : A) (Q : A -> Prop) : Q a -> returns (ret a) Q.
Proof. intros H w b [= <-]. done. Qed.

Lemma returns_throw {A} (e : exn) (Q : A -> Prop) : returns (throw e) Q.
Proof. by intros w a. Qed.

Lemma returns_bind {A B} (m : M A) (k : A -> M B) (Q : B -> Prop) :
  (forall a, returns (k a) Q) -> returns (bind m k) Q.
Proof.
  intros Hk w b. unfold bind.
  destruct (m w) as [[a| e|] w']; [apply Hk|done|done].
Qed.

Lemma after_rename_never_RENAMED env self status path dt dry :
  returns (after_rename env self status path dt dry)
          (fun r => fst r <> RENAMED).
Proof.
  unfold after_rename, Video.after_rename, Extractable.after_rename.
  destruct (Extractable.cls self); try by apply returns_ret.
  rewrite bind_ret. cbv beta iota.
  destruct (decide (UNCHANGED = ERROR)); [done|].
  repeat first
    [ apply returns_bind; intros ?
    | apply returns_throw
    | by apply returns_ret
    | case_match ].
Qed.

Lemma rename_never_RENAMED env self dt dry :
  returns (rename env self dt dry) (fun r => fst r <> RENAMED).
Proof.
  intros w r. rewrite rename_unfold.
  pose proof (after_rename_never_RENAMED env self) as Hafter.
  repeat case_match; try done; try apply Hafter.
  refine (returns_bind _ _ (fun r => fst r <> RENAMED) _ w0 r).
  intros new_path. apply Hafter.
Qed.

(** A name that is already correct is left alone: no call changes the
    files before the post-step, which for a photo does nothing. *)
Lemma rename_already_correct env self dt dry w k :
  counter_ok k ->
  candidate self dt k = Extractable.path self ->
  (forall j, counter_ok j -> j < k ->
     is_Some (fs w !! candidate self dt j)
     /\ candidate self dt j <> Extractable.path self) ->
  rename env self dt dry w
  = after_rename env self UNCHANGED (Extractable.path self) dt dry w.
Proof.
  intros Hk Heq Hbefore. rewrite rename_unfold.
  destruct Hk as [->|Hk]; [by rewrite decide_True|].
  rewrite decide_False by (apply (Hbefore 0); [by left|lia]).
  assert (Hnth : forall m, nth_target self dt (candidate self dt 0) 2 m
                           = candidate self dt (match m with
                                                | 0 => 0
                                                | S m' => 2 + m'
                                                end)).
  { by intros [|m]. }
  assert (Hbound : k <= size (fs w) + 2).
  { apply (taken_counters_bound self dt). intros j Hj1 Hj2.
    apply Hbefore; [right; lia|done]. }
  rewrite (collision_loop_already_correct _ _ _ _ _ _ _ (k - 2)); [done| | | |].
  - unfold collision_fuel. lia.
  - intros m Hm. rewrite Hnth. apply Hbefore.
    + destruct m; [by left|right; lia].
    + destruct m; lia.
  - intros m Hm. rewrite Hnth. apply Hbefore.
    + destruct m; [by left|right; lia].
    + destruct m; lia.
  - rewrite Hnth. by replace (2 + (k - 2)) with k by lia.
Qed.

(** C2.  The status that [rename] returns is never [RENAMED]: the
    post-step of [Extractable] answers [UNCHANGED] whatever status it is
    given.  On a photo whose name is not yet the target name, the first
    run of [execute_by_path] moves the file and returns [UNCHANGED] where
    the specification expects [RENAMED]; the second run, on the new path,
    returns [UNCHANGED] and changes nothing. *)
Theorem first_run_reports_unchanged :
  (forall env self dt dry,
     returns (rename env self dt dry) (fun r => fst r <> RENAMED))
  /\ execute_by_path Example.env Example.img1 Example.args None None None
       Example.one_photo
     = (Ok UNCHANGED, Example.one_photo_renamed)
  /\ execute_by_path Example.env Example.renamed1 Example.args None None None
       Example.one_photo_renamed
     = (Ok UNCHANGED, Example.one_photo_renamed).
Proof.
  split; [apply rename_never_RENAMED|].
  split; vm_compute; reflexivity.
Qed.

Lemma first_run_reports_unchanged_witness :
  fst (UNCHANGED, Some Example.renamed1) <> RENAMED.
Proof.
  apply (proj1 first_run_reports_unchanged Example.env
           (configure ClsImage Example.img1 Example.args) Example.taken
           false Example.one_photo).
  vm_compute. reflexivity.
Defined.

(** ** C3: errors of one file and the batch *)

Lemma use_video_not_image path args :
  Extractable.use (configure ClsVideo path args) = true ->
  Extractable.use (configure ClsImage path args) = false.
Proof.
  unfold Extractable.use. simpl. intros H.
  apply bool_decide_eq_true in H. apply list_elem_of_singleton in H.
  rewrite H. reflexivity.
Qed.

Lemma use_image_not_video path args :
  Extractable.use (configure ClsImage path args) = true ->
  Extractable.use (configure ClsVideo path args) = false.
Proof.
  unfold Extractable.use. simpl. intros H.
  apply bool_decide_eq_true in H.
  apply bool_decide_eq_false. intros Hv. apply list_elem_of_singleton in Hv.
  rewrite Hv in H.
  pose proof (bool_decide_eq_true_2 _ H) as Hb. vm_compute in Hb.
  discriminate.
Qed.

Lemma main_loop_raise env file files args modify_time target_timezone
    filters stats w e w' :
  execute_by_path env file args modify_time target_timezone filters w
  = (Raise e, w') ->
  main_loop env (file :: files) args modify_time target_timezone filters
            stats w
  = (Raise e, w').
Proof. intros H. simpl. unfold bind. by rewrite H. Qed.

Lemma video_without_creation_time env path args modify_time target_timezone
    filters w f tags :
  Extractable.use (configure ClsVideo path args) = true ->
  ffmpeg_installed env = true ->
  fs w !! path = Some f ->
  meta f = ProbeMeta tags ->
  Video.stream_creation_time tags = Raise KeyError ->
  filters_truthy filters = false ->
  execute_by_path env path args modify_time target_timezone filters w
  = (Raise LookupError, w).
Proof.
  intros Huse Hffmpeg Hfile Hmeta Htag Hfilters.
  unfold execute_by_path, PARSERS. cbn [execute_loop].
  rewrite (use_video_not_image _ _ Huse), Huse, Hfilters.
  cbn [negb]. cbv beta iota. rewrite !bind_ret. cbv beta iota.
  unfold get_creation_time, Video.get_creation_time, Video.list_.
  cbn [configure construct Video.init Extractable.cls Extractable.path].
  rewrite Hffmpeg. cbn [negb].
  unfold bind, Fs.read, try_except, lift, throw, ret. cbv beta iota.
  rewrite Hfile. cbv beta iota. rewrite Hmeta. cbv beta iota.
  by rewrite Htag.
Qed.

Lemma unclaimed_file_is_error env path args modify_time target_timezone
    filters w :
  Extractable.use (configure ClsImage path args) = false ->
  Extractable.use (configure ClsVideo path args) = false ->
  execute_by_path env path args modify_time target_timezone filters w
  = (Ok ERROR, w).
Proof.
  intros Hi Hv. unfold execute_by_path, PARSERS. cbn [execute_loop].
  rewrite Hi, Hv. cbv beta iota. by rewrite !bind_ret.
Qed.

(** C3, as stated, fails: for a video without the [creation_time] tag
    [execute_by_path] returns no status, it raises [LookupError]; [main]
    raises it too and leaves the photo that follows untouched. *)
Lemma missing_tag_is_not_an_outcome :
  execute_by_path Example.env Example.untagged_clip Example.args None None None
    Example.batch
  = (Raise LookupError, Example.batch)
  /\ fst (execute_by_path Example.env Example.untagged_clip Example.args
            None None None Example.batch)
     <> Ok ERROR
  /\ main Example.env [Example.untagged_clip; Example.img1] Example.args
          None None None Example.batch
     = (Raise LookupError, Example.batch).
Proof. repeat split; vm_compute; (reflexivity || discriminate). Qed.

(** C3, amended.  Nothing catches the error of a file: an exception that
    [execute_by_path] raises leaves the loop of [main] at that file, with
    the files after it unprocessed.  A video that an extractor selects and
    whose probe result lacks the [creation_time] tag raises [LookupError],
    and the world is as before: no rename is attempted.  The [ERROR]
    status is what a file gets that no extractor claims. *)
Theorem per_file_error_propagates env :
  (forall file files args modify_time target_timezone filters stats w e w',
     execute_by_path env file args modify_time target_timezone filters w
     = (Raise e, w') ->
     main_loop env (file :: files) args modify_time target_timezone filters
               stats w
     = (Raise e, w'))
  /\ (forall path args modify_time target_timezone filters w f tags,
        Extractable.use (configure ClsVideo path args) = true ->
        ffmpeg_installed env = true ->
        fs w !! path = Some f ->
        meta f = ProbeMeta tags ->
        Video.stream_creation_time tags = Raise KeyError ->
        filters_truthy filters = false ->
        execute_by_path env path args modify_time target_timezone filters w
        = (Raise LookupError, w))
  /\ (forall path args modify_time target_timezone filters w,
        Extractable.use (configure ClsImage path args) = false ->
        Extractable.use (configure ClsVideo path args) = false ->
        execute_by_path env path args modify_time target_timezone filters w
        = (Ok ERROR, w)).
Proof.
  split; [intros; by apply main_loop_raise|].
  split; [intros; by eapply video_without_creation_time|].
  intros. by apply unclaimed_file_is_error.
Qed.

Lemma per_file_error_propagates_witness :
  main_loop Example.env [Example.untagged_clip; Example.img1] Example.args
            None None None ∅ Example.batch
  = (Raise LookupError, Example.batch)
  /\ execute_by_path Example.env (mkPath "photos" "notes.txt") Example.args
       None None None Example.batch
     = (Ok ERROR, Example.batch).
Proof.
  destruct (per_file_error_propagates Example.env) as (Hloop & Hvideo & Hnone).
  split.
  - apply Hloop.
    apply (Hvideo _ _ _ _ _ _ Example.untagged_video Example.probe_without_tag);
      vm_compute; reflexivity.
  - apply Hnone; vm_compute; reflexivity.
Defined.

(** ** C8: the time zone of an image *)

(** *** What [strptime] can read for the hour and the minute *)

Lemma digit_range c x : DateTime.digit c = Some x -> (0 <= x <= 9)%Z.
Proof.
  unfold DateTime.digit. case_match eqn:E; [|done]. intros [= <-].
  apply andb_true_iff in E as [E1 E2]. lia.
Qed.

Lemma Forall_d1 (P : Z -> bool) (Q : Z -> Prop) s :
  (forall x, (0 <= x <= 9)%Z -> P x = true -> Q x) ->
  Forall (fun vr => Q (fst vr)) (DateTime.d1 P s).
Proof.
  intros H. unfold DateTime.d1.
  destruct s as [|a s]; [constructor|].
  destruct (DateTime.digit a) as [x|] eqn:Ha; [|constructor].
  destruct (P x) eqn:HP; constructor; [|constructor].
  simpl. apply H; [by eapply digit_range|done].
Qed.

Lemma Forall_d2 (P : Z -> Z -> bool) (Q : Z -> Prop) s :
  (forall a b, (0 <= a <= 9)%Z -> (0 <= b <= 9)%Z -> P a b = true ->
     Q (10 * a + b)%Z) ->
  Forall (fun vr => Q (fst vr)) (DateTime.d2 P s).
Proof.
  intros H. unfold DateTime.d2.
  destruct s as [|a [|b s]]; try constructor.
  destruct (DateTime.digit a) as [x|] eqn:Ha; [|constructor].
  destruct (DateTime.digit b) as [y|] eqn:Hb; [|constructor].
  destruct (P x y) eqn:HP; constructor; [|constructor].
  simpl. apply H; [by eapply digit_range|by eapply digit_range|done].
Qed.

Lemma Forall_with_ (set : Z -> DateTime.fields -> DateTime.fields)
    (Q : Z -> Prop) l :
  (forall v, Q v -> keeps_hour_minute (set v)) ->
  Forall (fun vr => Q (fst vr)) l ->
  Forall (fun c => keeps_hour_minute (fst c)) (DateTime.with_ set l).
Proof.
  intros H Hl. unfold DateTime.with_. apply Forall_map.
  eapply Forall_impl; [exact Hl|]. intros [v r] Hv. simpl. by apply H.
Qed.

Lemma Forall_any {A} (l : list A) : Forall (fun _ => True) l.
Proof. by apply Forall_forall. Qed.

Lemma re_z_keeps_hour_minute s :
  Forall (fun c => keeps_hour_minute (fst c)) (DateTime.re_z s).
Proof.
  apply Forall_forall. intros [upd s'] Hin.
  assert (exists v b, upd = DateTime.set_gmtoff v b) as (v & b & ->);
    [|by intros f].
  unfold DateTime.re_z in Hin. destruct s as [|sg s1].
  { by apply elem_of_nil in Hin. }
  apply elem_of_app in Hin as [Hin|Hin].
  - destruct (_ || _); [|by apply elem_of_nil in Hin].
    apply list_elem_of_bind in Hin as ([hh s2] & Hin & _).
    apply list_elem_of_bind in Hin as ([c1 s3] & Hin & _).
    apply list_elem_of_bind in Hin as ([mm s4] & Hin & _).
    apply elem_of_app in Hin as [Hin|Hin].
    + apply list_elem_of_bind in Hin as ([c2 s5] & Hin & _).
      apply list_elem_of_bind in Hin as ([ss s6] & Hin & _).
      apply list_elem_of_singleton in Hin. injection Hin as -> _. eauto.
    + apply list_elem_of_singleton in Hin. injection Hin as -> _. eauto.
  - destruct (Ascii.eqb sg "Z"); [|by apply elem_of_nil in Hin].
    apply list_elem_of_singleton in Hin. injection Hin as -> _. eauto.
Qed.

Lemma candidates_keep_hour_minute it s :
  Forall (fun c => keeps_hour_minute (fst c)) (DateTime.candidates it s).
Proof.
  destruct it as [d|c|]; simpl.
  - destruct d.
    all: try (apply (Forall_with_ _ (fun _ => True)); [by intros v _ f|];
              apply Forall_any).
    + apply (Forall_with_ _ (fun v => (0 <= v <= 23)%Z)).
      { intros v Hv f [_ Hm]. by split. }
      repeat apply Forall_app_2.
      * apply (Forall_d2 _ (fun v => (0 <= v <= 23)%Z)). intros a b Ha Hb HP.
        apply andb_true_iff in HP as [H1 H2]. lia.
      * apply (Forall_d2 _ (fun v => (0 <= v <= 23)%Z)). intros a b Ha Hb HP.
        lia.
      * apply (Forall_d1 _ (fun v => (0 <= v <= 23)%Z)). intros x Hx _. lia.
    + apply (Forall_with_ _ (fun v => (0 <= v <= 59)%Z)).
      { intros v Hv f [Hh _]. by split. }
      repeat apply Forall_app_2.
      * apply (Forall_d2 _ (fun v => (0 <= v <= 59)%Z)). intros a b Ha Hb HP.
        lia.
      * apply (Forall_d1 _ (fun v => (0 <= v <= 59)%Z)). intros x Hx _. lia.
    + apply re_z_keeps_hour_minute.
  - destruct s as [|a s]; [constructor|].
    destruct (Ascii.eqb _ _); [|constructor].
    constructor; [|constructor]. by intros ? ?.
  - apply Forall_map, Forall_forall. by intros r _ ? ?.
Qed.

Lemma re_match_keeps_hour_minute items acc s f r :
  hour_minute_ok acc ->
  DateTime.re_match items acc s = Some (f, r) ->
  hour_minute_ok f.
Proof.
  revert acc s. induction items as [|it items IH]; intros acc s Hacc; simpl.
  { by intros [= <- _]. }
  pose proof (candidates_keep_hour_minute it s) as Hc.
  induction (DateTime.candidates it s) as [|[upd s'] cands IHc]; [done|].
  apply Forall_cons in Hc as [Hupd Hc].
  destruct (DateTime.re_match items (upd acc) s') as [[f' r']|] eqn:E.
  - intros [= -> ->]. eapply IH; [|exact E]. by apply Hupd.
  - by apply IHc.
Qed.

Lemma strptime_hour_minute data fmt dt :
  DateTime.strptime data fmt = Ok dt ->
  (0 <= DateTime.hour dt <= 23)%Z /\ (0 <= DateTime.minute dt <= 59)%Z.
Proof.
  unfold DateTime.strptime, DateTime.build.
  destruct (DateTime.compile fmt) as [items|]; [|done].
  destruct (DateTime.re_match items DateTime.fields0 data)
    as [[f [|? ?]]|] eqn:E; try done.
  apply re_match_keeps_hour_minute in E; [|by unfold hour_minute_ok].
  repeat case_match; try done. by intros [= <-].
Qed.

(** *** The search of the code as one list *)

Lemma make_timezone_ok h m :
  (0 <= h <= 23)%Z -> (0 <= m <= 59)%Z ->
  Image.make_timezone h m = Ok (DateTime.Timezone (h * 3600 + m * 60)).
Proof.
  intros Hh Hm. unfold Image.make_timezone, DateTime.timedelta_hm. simpl.
  rewrite (proj2 (andb_true_iff _ _)); [done|]. split; lia.
Qed.

Lemma bind_nil {A B} (f : A -> list B) : ([] : list A) ≫= f = [].
Proof. reflexivity. Qed.

Lemma timezone_formats_loop_spec text formats :
  Image.timezone_formats_loop text formats
  = Ok (head (fmt ← formats; option_list (parse_offset text fmt))).
Proof.
  induction formats as [|fmt formats IH]; [done|].
  cbn [Image.timezone_formats_loop]. rewrite bind_cons.
  unfold parse_offset at 1.
  destruct (strptime_cases text fmt) as [[t Ht]|Hfail].
  - rewrite Ht. destruct (strptime_hour_minute _ _ _ Ht) as [Hh Hm].
    by rewrite make_timezone_ok.
  - by rewrite Hfail.
Qed.

Lemma timezone_keys_loop_spec group exif_dict tags keys :
  PyVal.lookup group exif_dict = Some tags ->
  Image.timezone_keys_loop group exif_dict keys
  = Ok (head (offsets_in_order keys tags)).
Proof.
  intros Hgroup. unfold offsets_in_order.
  induction keys as [|[label key] keys IH]; [done|].
  cbn [Image.timezone_keys_loop]. rewrite Hgroup.
  rewrite fmap_cons, bind_cons. cbn [snd].
  destruct (PyVal.lookup key tags) as [text|]; [|exact IH].
  simpl (option_list _). rewrite bind_cons, bind_nil, app_nil_r.
  rewrite timezone_formats_loop_spec.
  destruct (_ ← Image.timezone_formats; _) as [|tz l] eqn:E; [exact IH|done].
Qed.

Lemma get_time_zone_spec group exif_dict tags :
  PyVal.lookup group exif_dict = Some tags ->
  Image._get_time_zone group exif_dict
  = Ok (first_parsed_offset group exif_dict).
Proof.
  intros Hgroup. unfold Image._get_time_zone, first_parsed_offset.
  rewrite Hgroup. destruct (PyVal.lookup group Image.timezone_keys); [|done].
  by apply timezone_keys_loop_spec.
Qed.

Lemma no_format_parses text (fmts : list string) :
  (forall fmt, fmt ∈ fmts -> parse_offset text fmt = None) ->
  (fmt ← fmts; option_list (parse_offset text fmt)) = [].
Proof.
  induction fmts as [|fmt fmts IH]; intros Hall; [done|].
  rewrite bind_cons, (Hall fmt) by by left. simpl.
  apply IH. intros fmt' Hin. apply Hall. by right.
Qed.

Lemma offsets_in_order_nil keys tags :
  (forall label key text fmt,
     (label, key) ∈ keys -> PyVal.lookup key tags = Some text ->
     fmt ∈ Image.timezone_formats -> parse_offset text fmt = None) ->
  offsets_in_order keys tags = [].
Proof.
  intros Hnone. unfold offsets_in_order.
  induction keys as [|[label key] keys IH]; [done|].
  rewrite fmap_cons, bind_cons. cbn [snd].
  rewrite IH, app_nil_r.
  2:{ intros l k text fmt Hin. apply (Hnone l). by right. }
  destruct (PyVal.lookup key tags) as [text|] eqn:Hkey; [|done].
  simpl (option_list _). rewrite bind_cons, bind_nil, app_nil_r.
  apply no_format_parses.
  intros fmt. apply (Hnone label key); [by left|done].
Qed.

(** *** The resolution in the words of the specification *)

(** A format that starts with a plus sign reads a text that starts with
    one, and then as the rest of the format reads the rest of the text. *)
Lemma strptime_plus_sign (c : ascii) (rest fmt : string) :
  DateTime.strptime (String c rest) (String "+" fmt)
  = if Ascii.eqb c "+" then DateTime.strptime rest fmt
    else Raise ValueError.
Proof.
  unfold DateTime.strptime. cbn [DateTime.compile].
  change (Ascii.eqb "+" "%") with false.
  change (DateTime.is_space "+") with false. cbv iota.
  destruct (DateTime.compile fmt) as [items|]; simpl.
  - assert (Hc : Ascii.eqb (PyStr.lower_ascii c) (PyStr.lower_ascii "+")
                 = Ascii.eqb c "+").
    { by destruct c as [[] [] [] [] [] [] [] []]. }
    rewrite Hc. destruct (Ascii.eqb c "+"); [|done].
    by destruct (DateTime.re_match items DateTime.fields0 rest)
      as [[f [|? ?]]|].
  - by destruct (Ascii.eqb c "+").
Qed.

Lemma strptime_plus_sign_empty (fmt : string) :
  DateTime.strptime "" (String "+" fmt) = Raise ValueError.
Proof.
  unfold DateTime.strptime. cbn [DateTime.compile].
  change (Ascii.eqb "+" "%") with false.
  change (DateTime.is_space "+") with false. cbv iota.
  by destruct (DateTime.compile fmt).
Qed.

Lemma parse_offset_unsigned (with_minute : bool) (text : string) :
  parse_offset text (if with_minute then "%H:%M" else "%H")
  = DateTime.Timezone <$> read_unsigned with_minute text.
Proof.
  unfold parse_offset, read_unsigned.
  by destruct (DateTime.strptime text _).
Qed.

Lemma parse_offset_signed (with_minute : bool) (text : string) :
  (forall rest, text <> String "-" rest) ->
  parse_offset text (String "+" (if with_minute then "%H:%M" else "%H"))
  = DateTime.Timezone <$> read_signed with_minute text.
Proof.
  intros Hminus. destruct text as [|c rest].
  - unfold parse_offset. by rewrite strptime_plus_sign_empty.
  - unfold parse_offset at 1. rewrite strptime_plus_sign. simpl.
    destruct (Ascii.eqb_spec c "+") as [->|Hplus].
    + fold (parse_offset rest (if with_minute then "%H:%M" else "%H")).
      apply parse_offset_unsigned.
    + destruct (Ascii.eqb_spec c "-") as [->|Hc]; [|done].
      by destruct (Hminus rest).
Qed.

(** A text without a minus sign in front gives the same offsets under the
    formats of the code as under those of the specification. *)
Lemma formats_agree (text : string) :
  (forall rest, text <> String "-" rest) ->
  (fmt ← Image.timezone_formats; option_list (parse_offset text fmt))
  = (fmt ← offset_formats; option_list (read_offset fmt text)).
Proof.
  intros Hminus. unfold Image.timezone_formats, offset_formats.
  rewrite !bind_cons, !bind_nil. unfold read_offset.
  rewrite <- (parse_offset_signed true), <- (parse_offset_signed false) by done.
  by rewrite <- (parse_offset_unsigned true), <- (parse_offset_unsigned false).
Qed.

(** A text that begins with a minus sign gives no offset under the formats
    of the code. *)
Lemma minus_sign_is_not_read (rest fmt : string) :
  fmt ∈ Image.timezone_formats ->
  parse_offset (String "-" rest) fmt = None.
Proof.
  intros Hin. unfold parse_offset.
  assert (Hfail : DateTime.strptime (String "-" rest) fmt = Raise ValueError);
    [|by rewrite Hfail].
  unfold Image.timezone_formats in Hin.
  repeat (apply elem_of_cons in Hin as [->|Hin]);
    [..|by apply elem_of_nil in Hin].
  - by rewrite strptime_plus_sign.
  - by destruct rest.
  - by rewrite strptime_plus_sign.
  - by destruct rest.
Qed.

(** The code reads no more than the specification: a text that is no
    offset under the formats of the specification is none under those of
    the code. *)
Lemma code_reads_no_more (text : string) :
  (forall fmt, fmt ∈ offset_formats -> read_offset fmt text = None) ->
  forall fmt, fmt ∈ Image.timezone_formats -> parse_offset text fmt = None.
Proof.
  intros Hnone fmt Hin.
  assert (Hcases : (exists rest, text = String "-" rest)
                   \/ forall rest, text <> String "-" rest).
  { destruct text as [|c rest]; [by right|].
    destruct (Ascii.eqb_spec c "-") as [->|Hc]; [left; by eexists|].
    right. by intros rest' [= ? _]. }
  destruct Hcases as [[rest ->]|Hminus].
  { by apply minus_sign_is_not_read. }
  unfold Image.timezone_formats in Hin.
  repeat (apply elem_of_cons in Hin as [->|Hin]);
    [..|by apply elem_of_nil in Hin].
  - rewrite (parse_offset_signed true) by done.
    apply (Hnone SignedHourMinute). set_solver.
  - rewrite (parse_offset_unsigned true).
    apply (Hnone UnsignedHourMinute). set_solver.
  - rewrite (parse_offset_signed false) by done.
    apply (Hnone SignedHour). set_solver.
  - rewrite (parse_offset_unsigned false).
    apply (Hnone UnsignedHour). set_solver.
Qed.

Lemma offsets_agree (keys : list (string * Z)) (tags : list (Z * string)) :
  (forall label key rest,
     (label, key) ∈ keys ->
     PyVal.lookup key tags <> Some (String "-" rest)) ->
  offsets_in_order keys tags
  = (key ← keys.*2;
     text ← option_list (PyVal.lookup key tags);
     fmt ← offset_formats;
     option_list (read_offset fmt text)).
Proof.
  unfold offsets_in_order.
  induction keys as [|[label key] keys IH]; intros Hminus; [done|].
  rewrite fmap_cons, !bind_cons. cbn [snd].
  rewrite IH by (intros l k rest Hin; apply (Hminus l); by right).
  f_equal.
  destruct (PyVal.lookup key tags) as [text|] eqn:Hkey; [|done].
  simpl (option_list _). rewrite !bind_cons, !bind_nil, !app_nil_r.
  apply formats_agree. intros rest ->.
  apply (Hminus label key rest); [by left|done].
Qed.

(** For a group without a minus sign in its offsets, the search of the
    code is that of the specification. *)
Lemma get_time_zone_resolves group exif_dict tags :
  PyVal.lookup group exif_dict = Some tags ->
  no_minus_sign group tags ->
  Image._get_time_zone group exif_dict
  = Ok (resolveTimezone group exif_dict).
Proof.
  intros Hgroup Hminus.
  rewrite (get_time_zone_spec _ _ tags) by done. f_equal.
  unfold first_parsed_offset, resolveTimezone. rewrite Hgroup.
  destruct (PyVal.lookup group Image.timezone_keys) as [keys|] eqn:Hkeys;
    [|done].
  f_equal. apply offsets_agree.
  intros label key rest Hin. by apply (Hminus keys label).
Qed.

(** C8.  The offset formats are, in this order, signed hour:minute,
    unsigned hour:minute, signed hour and unsigned hour, the sign of the
    code being the plus sign.  For a group that the metadata has and
    whose offsets do not begin with a minus sign, [_get_time_zone] returns
    what section 4.2 of the specification describes: the offset of the
    first combination of a candidate key of the group and a format that
    parses, keys before formats.  With [OffsetTimeOriginal] equal to
    "+02:00" and no [OffsetTime] before it in the [Exif] group, whatever
    [TimeZoneOffset] and the other groups hold, the offset is UTC+2 and is
    attached to the timestamp.  When no candidate key of the group is an
    offset under a format of the specification, no time zone is known and
    the timestamp that [get_creation_time] reads is returned naive; and
    for no metadata that has the group is the result an error. *)
Theorem timezone_resolution :
  Image.timezone_formats = ["+%H:%M"; "%H:%M"; "+%H"; "%H"]
  /\ (forall group exif_dict tags,
        PyVal.lookup group exif_dict = Some tags ->
        no_minus_sign group tags ->
        Image._get_time_zone group exif_dict
        = Ok (resolveTimezone group exif_dict))
  /\ (forall exif_dict tags,
        PyVal.lookup "Exif" exif_dict = Some tags ->
        PyVal.lookup 36880%Z tags = None ->
        PyVal.lookup 36881%Z tags = Some "+02:00" ->
        Image._get_time_zone "Exif" exif_dict
        = Ok (Some (DateTime.Timezone 7200))
        /\ forall time_str dt,
             DateTime.strptime time_str "%Y:%m:%d %H:%M:%S" = Ok dt ->
             Image.date_formats_loop "Exif" exif_dict time_str
                                     Image.date_formats
             = Ok (Some (DateTime.replace_tzinfo dt
                           (Some (DateTime.Timezone 7200)))))
  /\ (forall group exif_dict tags,
        PyVal.lookup group exif_dict = Some tags ->
        (forall keys label key text fmt,
           PyVal.lookup group Image.timezone_keys = Some keys ->
           (label, key) ∈ keys ->
           PyVal.lookup key tags = Some text ->
           fmt ∈ offset_formats ->
           read_offset fmt text = None) ->
        Image._get_time_zone group exif_dict = Ok None
        /\ forall time_str dt,
             DateTime.strptime time_str "%Y:%m:%d %H:%M:%S" = Ok dt ->
             Image.date_formats_loop group exif_dict time_str
                                     Image.date_formats
             = Ok (Some dt))
  /\ (forall group exif_dict tags,
        PyVal.lookup group exif_dict = Some tags ->
        exists tz, Image._get_time_zone group exif_dict = Ok tz).
Proof.
  split; [reflexivity|].
  split; [apply get_time_zone_resolves|].
  split; [|split].
  - intros exif_dict tags Hgroup Hfirst Hsecond.
    assert (Htz : Image._get_time_zone "Exif" exif_dict
                  = Ok (Some (DateTime.Timezone 7200))).
    { unfold Image._get_time_zone.
      change (PyVal.lookup "Exif" Image.timezone_keys)
        with (Some [("OffsetTime", 36880%Z); ("OffsetTimeOriginal", 36881%Z);
                    ("OffsetTimeDigitized", 36882%Z)]).
      cbn [Image.timezone_keys_loop]. rewrite Hgroup, Hfirst, Hsecond.
      reflexivity. }
    split; [done|].
    intros time_str dt Hdt. unfold Image.date_formats_loop, Image.date_formats.
    by rewrite Hdt, Htz.
  - intros group exif_dict tags Hgroup Hnone.
    assert (Htz : Image._get_time_zone group exif_dict = Ok None).
    { rewrite (get_time_zone_spec _ _ tags) by done.
      unfold first_parsed_offset. rewrite Hgroup.
      destruct (PyVal.lookup group Image.timezone_keys) as [keys|] eqn:Hkeys;
        [|done].
      rewrite offsets_in_order_nil; [done|].
      intros label key text fmt Hkey Htext. apply code_reads_no_more.
      intros fmt' Hfmt'. by apply (Hnone keys label key). }
    split; [done|].
    intros time_str dt Hdt. unfold Image.date_formats_loop, Image.date_formats.
    by rewrite Hdt, Htz.
  - intros group exif_dict tags Hgroup. eexists.
    by apply (get_time_zone_spec _ _ tags).
Qed.

Lemma timezone_resolution_witness :
  Image._get_time_zone "Exif" Example.exif
  = Ok (resolveTimezone "Exif" Example.exif)
  /\ Image._get_time_zone "Exif" Example.exif
     = Ok (Some (DateTime.Timezone 7200))
  /\ Image._get_time_zone "Exif" Example.exif_no_offset = Ok None
  /\ Image.date_formats_loop "Exif" Example.exif_no_offset
       "2023:05:01 10:00:00" Image.date_formats
     = Ok (Some Example.taken_naive).
Proof.
  destruct timezone_resolution as (_ & Hsame & Hplus & Hnone & _).
  split; [|split].
  - eapply Hsame; [reflexivity|].
    intros keys label key rest [= <-] Hkey.
    apply list_elem_of_In in Hkey. simpl in Hkey.
    destruct Hkey as [[= <- <-]|[[= <- <-]|[[= <- <-]|[]]]]; discriminate.
  - eapply Hplus; reflexivity.
  - edestruct (Hnone "Exif" Example.exif_no_offset) as [Htz Hdt].
    + reflexivity.
    + intros keys label key text fmt [= <-] Hkey Htext Hfmt.
      apply list_elem_of_In in Hkey. apply list_elem_of_In in Hfmt.
      simpl in Hkey, Hfmt.
      destruct Hkey as [[= <- <-]|[[= <- <-]|[[= <- <-]|[]]]];
        try discriminate Htext.
      injection Htext as <-.
      destruct Hfmt as [<-|[<-|[<-|[<-|[]]]]]; reflexivity.
    + split; [exact Htz|]. apply Hdt. reflexivity.
Defined.

(** C8, as stated, fails: the photo [exif_two_offsets] has
    [OffsetTimeOriginal] equal to "+02:00" and [TimeZoneOffset] in no
    group, and resolves to UTC+5, since [OffsetTime], which the table of
    the Exif group lists first, holds "+05:00".  The photo [exif_west]
    holds the signed offset "-02:00", which is UTC-2 in the words of the
    specification, and resolves to no time zone. *)
Lemma offset_time_is_read_first :
  (exists tags,
     PyVal.lookup "Exif" Example.exif_two_offsets = Some tags
     /\ PyVal.lookup 36881%Z tags = Some "+02:00")
  /\ (forall group tags,
        PyVal.lookup group Example.exif_two_offsets = Some tags ->
        PyVal.lookup 34858%Z tags = None)
  /\ Image._get_time_zone "Exif" Example.exif_two_offsets
     = Ok (Some (DateTime.Timezone 18000))
  /\ Image._get_time_zone "Exif" Example.exif_two_offsets
     <> Ok (Some (DateTime.Timezone 7200))
  /\ Image.date_formats_loop "Exif" Example.exif_two_offsets
       "2023:05:01 10:00:00" Image.date_formats
     = Ok (Some (DateTime.replace_tzinfo Example.taken_naive
                   (Some (DateTime.Timezone 18000))))
  /\ resolveTimezone "Exif" Example.exif_west
     = Some (DateTime.Timezone (-7200))
  /\ Image._get_time_zone "Exif" Example.exif_west = Ok None.
Proof.
  split; [by eexists|].
  split.
  { intros group tags Hgroup. simpl in Hgroup.
    repeat case_match; by simplify_eq. }
  repeat split; try reflexivity. discriminate.
Qed.

(** ** C4: the date formats of an image *)

Lemma first_format_fails group exif_dict tags time_str :
  PyVal.lookup group exif_dict = Some tags ->
  DateTime.strptime time_str "%Y:%m:%d %H:%M:%S" = Raise ValueError ->
  Image.date_formats_loop group exif_dict time_str Image.date_formats
  = Raise UnboundLocalError.
Proof.
  intros Hgroup Hfail. unfold Image.date_formats_loop, Image.date_formats.
  by rewrite Hfail, (get_time_zone_spec _ _ tags).
Qed.

(** C4.  The loop over the date formats returns in its first iteration
    whether or not the first format parsed.  A value that only the second
    format reads, and an unreadable value before a readable candidate, both
    end in [UnboundLocalError]: no further format is tried and the search
    does not go on to the next key.  This holds for every value of a
    present key that the first format rejects. *)
Theorem later_formats_are_never_tried :
  DateTime.strptime "2023-05-01 10:00:00" "%Y-%m-%d %H:%M:%S"
  = Ok Example.taken_naive
  /\ Image.get_creation_time Example.env
       (Image.init Example.img1 Example.args) Example.with_dashes
     = (Raise UnboundLocalError, Example.with_dashes)
  /\ Image.get_creation_time Example.env
       (Image.init Example.img1 Example.args) Example.with_fallback
     = (Raise UnboundLocalError, Example.with_fallback)
  /\ (forall group exif_dict tags time_str,
        PyVal.lookup group exif_dict = Some tags ->
        DateTime.strptime time_str "%Y:%m:%d %H:%M:%S" = Raise ValueError ->
        Image.date_formats_loop group exif_dict time_str Image.date_formats
        = Raise UnboundLocalError).
Proof.
  split; [vm_compute; reflexivity|].
  split; [vm_compute; reflexivity|].
  split; [vm_compute; reflexivity|].
  intros. by eapply first_format_fails.
Qed.

Lemma later_formats_are_never_tried_witness :
  Image.date_formats_loop "Exif" Example.exif_dashes "2023-05-01 10:00:00"
                          Image.date_formats
  = Raise UnboundLocalError.
Proof.
  destruct later_formats_are_never_tried as (_ & _ & _ & H).
  eapply H; vm_compute; reflexivity.
Defined.

(** ** C6: [--ignore-timezone] on a naive timestamp *)

(** C6.  With [--ignore-timezone] and no target time zone the naive
    timestamp goes through [astimezone(timezone.utc)], which takes it for
    a time in the system time zone and converts it: on a system two hours
    east of Greenwich, 10:00:00 becomes 08:00:00+00:00, where the
    specification keeps the clock value at 10:00:00.  The clock value is
    kept only when the system time zone is UTC itself. *)
Theorem ignore_timezone_converts_from_local_time :
  adjust_time Example.env Example.args_as_utc None None
              Example.taken_naive
  = Ok Example.two_hours_earlier
  /\ Example.two_hours_earlier
     <> DateTime.replace_tzinfo Example.taken_naive (Some DateTime.utc)
  /\ adjust_time Example.env_utc Example.args_as_utc None None
                 Example.taken_naive
     = Ok (DateTime.replace_tzinfo Example.taken_naive (Some DateTime.utc))
  /\ (forall env args dt,
        args_ignore_timezone args = true ->
        adjust_time env args None None dt
        = DateTime.astimezone (local_utcoffset env) dt DateTime.utc).
Proof.
  split; [vm_compute; reflexivity|].
  split; [vm_compute; discriminate|].
  split; [vm_compute; reflexivity|].
  intros env args dt H. unfold adjust_time. by rewrite H.
Qed.

Lemma ignore_timezone_converts_from_local_time_witness :
  adjust_time Example.env Example.args_as_utc None None
              Example.taken_naive
  = DateTime.astimezone 7200 Example.taken_naive DateTime.utc.
Proof.
  destruct ignore_timezone_converts_from_local_time as (_ & _ & _ & H).
  apply (H Example.env). reflexivity.
Defined.

(** ** C5: the generated name and its extensions *)

Lemma strftime_app dt a b :
  open_percent a = false ->
  DateTime.strftime dt (a +:+ b)
  = DateTime.strftime dt a +:+ DateTime.strftime dt b.
Proof.
  assert (H : (open_percent a = false ->
               DateTime.strftime dt (a +:+ b)
               = DateTime.strftime dt a +:+ DateTime.strftime dt b)
              /\ (forall c, open_percent (String c a) = false ->
                    DateTime.strftime dt (String c a +:+ b)
                    = DateTime.strftime dt (String c a)
                      +:+ DateTime.strftime dt b)).
  { induction a as [|d a [IH1 IH2]].
    - split; [done|]. intros c. cbn [open_percent].
      destruct (Ascii.eqb c "%") eqn:Hc; [done|]. intros _.
      rewrite append_cons, append_nil_l. by rewrite !strftime_char.
    - split; [apply IH2|]. intros c.
      cbn [open_percent]. destruct (Ascii.eqb c "%") eqn:Hc.
      + intros Hopen. rewrite !append_cons, !strftime_directive by done.
        by rewrite IH1, append_assoc.
      + intros Hopen. rewrite append_cons, !strftime_char by done.
        by rewrite IH2. }
  apply H.
Qed.

Lemma get_name_fmt_template self counter :
  Extractable.get_name_fmt self counter
  = name_stem self counter
    +:+ PyStr.join (match Extractable.extensions self with
                    | [] => own_extensions self
                    | l => l
                    end).
Proof.
  unfold Extractable.get_name_fmt, name_stem, own_extensions.
  destruct (Extractable.extensions self) as [|e es];
    destruct (opt_truthy (Extractable.prefix self)),
             (opt_truthy (Extractable.suffix self)), counter as [[|c]|];
    rewrite ?append_assoc, ?append_nil_r, ?append_nil_l; reflexivity.
Qed.

Lemma offset_time_original_plus_two exif_dict tags :
  PyVal.lookup "Exif" exif_dict = Some tags ->
  PyVal.lookup 36880%Z tags = None ->
  PyVal.lookup 36881%Z tags = Some "+02:00" ->
  Image._get_time_zone "Exif" exif_dict = Ok (Some (DateTime.Timezone 7200)).
Proof.
  intros Hgroup Hfirst Hsecond. unfold Image._get_time_zone.
  change (PyVal.lookup "Exif" Image.timezone_keys)
    with (Some [("OffsetTime", 36880%Z); ("OffsetTimeOriginal", 36881%Z);
                ("OffsetTimeDigitized", 36882%Z)]).
  cbn [Image.timezone_keys_loop]. rewrite Hgroup, Hfirst, Hsecond.
  reflexivity.
Qed.

Lemma scenario_creation_time env self w f exif_dict tags :
  Extractable.cls self = ClsImage ->
  piexif_installed env = true ->
  fs w !! Extractable.path self = Some f ->
  meta f = ExifMeta exif_dict ->
  PyVal.lookup "Exif" exif_dict = Some tags ->
  PyVal.lookup 36867%Z tags = Some "2023:05:01 10:00:00" ->
  PyVal.lookup 36880%Z tags = None ->
  PyVal.lookup 36881%Z tags = Some "+02:00" ->
  get_creation_time env self w = (Ok Example.taken, w).
Proof.
  intros Hcls Hpiexif Hfile Hmeta Hgroup Hdate Hfirst Hsecond.
  unfold get_creation_time. rewrite Hcls.
  unfold Image.get_creation_time, Image.list_. rewrite Hpiexif.
  unfold bind, Fs.read, lift, ret. cbn [negb]. rewrite Hfile, Hmeta.
  unfold Image.date_keys.
  cbn [Image.date_groups_loop Image.date_keys_loop].
  rewrite Hgroup, Hdate.
  unfold Image.date_formats_loop, Image.date_formats.
  rewrite (offset_time_original_plus_two _ tags) by done.
  reflexivity.
Qed.

(** C5, as stated, fails: the scenario's timestamp is read as expected,
    but the name generated for [IMG_0001.JPG] is not
    [IMG_20230501_100000.JPG]. *)
Lemma scenario_name_is_not_JPG :
  get_creation_time Example.env
    (configure ClsImage Example.img1 Example.args_scenario) Example.one_photo
  = (Ok Example.taken, Example.one_photo)
  /\ Extractable.get_name
       (configure ClsImage Example.img1 Example.args_scenario)
       Example.taken None None
     = mkPath "photos" "IMG_20230501_100000.jpg.jpeg.png"
  /\ Extractable.get_name
       (configure ClsImage Example.img1 Example.args_scenario)
       Example.taken None None
     <> mkPath "photos" "IMG_20230501_100000.JPG".
Proof.
  split; [vm_compute; reflexivity|].
  split; [vm_compute; reflexivity|].
  vm_compute. discriminate.
Qed.

(** C5, amended.  For the file [IMG_0001.JPG] of the scenario the
    timestamp read is 2023-05-01 10:00:00+02:00 and the generated name is
    [IMG_20230501_100000] followed by the extensions that the image
    extractor declares, not by the file's own [.JPG].  In general the
    template is [[prefix]<time-format>[_counter][suffix]] followed by the
    declared extensions when the extractor declares any, and by the file's
    own extensions otherwise; when the part before the extensions does not
    end inside a directive and the extensions hold no [%], the name ends
    with them as they are. *)
Theorem generated_name_extensions :
  (forall env dir args w f exif_dict tags,
     args_prefix args = Some "IMG_" ->
     args_time_format args = Some "%Y%m%d_%H%M%S" ->
     opt_truthy (args_suffix args) = false ->
     piexif_installed env = true ->
     fs w !! mkPath dir "IMG_0001.JPG" = Some f ->
     meta f = ExifMeta exif_dict ->
     PyVal.lookup "Exif" exif_dict = Some tags ->
     PyVal.lookup 36867%Z tags = Some "2023:05:01 10:00:00" ->
     PyVal.lookup 36880%Z tags = None ->
     PyVal.lookup 36881%Z tags = Some "+02:00" ->
     let self := configure ClsImage (mkPath dir "IMG_0001.JPG") args in
     Extractable.use self = true
     /\ get_creation_time env self w = (Ok Example.taken, w)
     /\ Extractable.get_name self Example.taken None None
        = mkPath dir ("IMG_20230501_100000"
                      +:+ PyStr.join (Extractable.extensions self)))
  /\ (forall self counter,
        Extractable.get_name_fmt self counter
        = name_stem self counter
          +:+ PyStr.join (match Extractable.extensions self with
                          | [] => own_extensions self
                          | declared => declared
                          end))
  /\ (forall self dt counter dir,
        let exts := match Extractable.extensions self with
                    | [] => own_extensions self
                    | declared => declared
                    end in
        open_percent (name_stem self counter) = false ->
        no_percent (PyStr.join exts) ->
        name (Extractable.get_name self dt counter dir)
        = DateTime.strftime dt (name_stem self counter) +:+ PyStr.join exts).
Proof.
  split.
  { intros env dir args w f exif_dict tags Hprefix Hformat Hsuffix Hpiexif
           Hfile Hmeta Hgroup Hdate Hfirst Hsecond self.
    split; [reflexivity|].
    split; [by eapply scenario_creation_time|].
    unfold Extractable.get_name, Extractable.get_name_fmt, self, configure.
    cbn [Extractable.prefix Extractable.suffix Extractable.time_format
         Extractable.extensions Extractable.path construct Image.init].
    rewrite Hprefix, Hformat, Hsuffix. reflexivity. }
  split; [apply get_name_fmt_template|].
  intros self dt counter dir exts Hopen Hexts.
  unfold Extractable.get_name, PathLib.joinpath. cbn [name].
  rewrite get_name_fmt_template. fold exts.
  rewrite strftime_app by done.
  f_equal. rewrite <- (append_nil_r (PyStr.join exts)) at 1.
  rewrite strftime_literal by done. by rewrite append_nil_r.
Qed.

Lemma generated_name_extensions_witness :
  Extractable.get_name (configure ClsImage Example.img1 Example.args_scenario)
    Example.taken None None
  = mkPath "photos" ("IMG_20230501_100000" +:+ ".jpg.jpeg.png")
  /\ name (Extractable.get_name (Video.init Example.untagged_clip Example.args)
             Example.taken (Some 2) None)
     = "VID_20230501_100000_2" +:+ ".mp4".
Proof.
  destruct generated_name_extensions as (Hscenario & _ & Hexts).
  split.
  - eapply (Hscenario Example.env "photos" Example.args_scenario
                      Example.one_photo);
      vm_compute; reflexivity.
  - apply (Hexts (Video.init Example.untagged_clip Example.args) Example.taken
                 (Some 2) None); reflexivity.
Defined.

(** ** C7: the dry run *)

Lemma after_rename_dry_unchanged env self status dt w :
  no_stale_temporary self w ->
  after_rename env self status (Extractable.path self) dt true w
  = (Ok (UNCHANGED, Some (Extractable.path self)), w).
Proof.
  intros Hclean. unfold after_rename, no_stale_temporary in *.
  destruct (Extractable.cls self); try done.
  unfold Video.after_rename, Extractable.after_rename.
  rewrite bind_ret. cbv beta iota.
  destruct (decide (UNCHANGED = ERROR)); [done|].
  destruct (args_video_thumbnail_skip_creation (Extractable.args self));
    [done|].
  destruct Hclean as (tmp_path & Htmp & Hfree); [done..|].
  cbn [negb]. rewrite Htmp.
  unfold bind, lift, ret, Fs.exists_. cbv beta iota.
  rewrite Hfree. reflexivity.
Qed.

Lemma rename_dry_unchanged env self dt w :
  no_stale_temporary self w ->
  rename env self dt true w
  = (Ok (UNCHANGED, Some (Extractable.path self)), w).
Proof.
  intros Hclean. rewrite rename_unfold.
  destruct (decide _); [by apply after_rename_dry_unchanged|].
  pose proof (collision_loop_total self dt (Extractable.path self)
                (candidate self dt 0) w) as Hterm.
  destruct (collision_loop_result (collision_fuel w) self dt
              (Extractable.path self) (candidate self dt 0) 2 w)
    as [Hw Hres].
  match goal with |- context [collision_loop ?a ?b ?c ?d ?e ?g w] =>
    destruct (collision_loop a b c d e g w) as [r w'] end.
  simpl in *. subst w'.
  destruct Hres as [->|[->|(t & -> & Hfree)]]; [done| |];
    by apply after_rename_dry_unchanged.
Qed.

Lemma readonly_main_loop_dry env files args modify_time target_timezone
    filters stats :
  args_dry args = true ->
  readonly (main_loop env files args modify_time target_timezone filters
                      stats).
Proof.
  intros Hdry. revert stats.
  induction files as [|file files IH]; intros stats; simpl.
  { apply readonly_ret. }
  apply readonly_bind; [by apply readonly_execute_loop_dry|].
  intros status. apply IH.
Qed.

(** C7, as stated, fails: the dry run returns the current path of the
    file, the run that renames returns another one. *)
Lemma dry_run_reports_current_path :
  rename Example.env (configure ClsImage Example.img1 Example.args)
         Example.taken true Example.one_photo
  = (Ok (UNCHANGED, Some Example.img1), Example.one_photo)
  /\ rename Example.env (configure ClsImage Example.img1 Example.args)
            Example.taken false Example.one_photo
     = (Ok (UNCHANGED, Some Example.renamed1), Example.one_photo_renamed)
  /\ Example.img1 <> Example.renamed1.
Proof. repeat split; vm_compute; (reflexivity || discriminate). Qed.

(** C7, amended.  With [--dry] nothing is changed: [execute_by_path], the
    whole batch and [rename] end and leave the files and the list of
    changing calls as they were, the post-step of a video included.
    Unless a temporary file of an earlier thumbnail step lies next to a
    video, [rename] returns [UNCHANGED] together with the current path of
    the file: the name that a real run would choose is not reported. *)
Theorem dry_run_changes_nothing env :
  (forall path args modify_time target_timezone filters w,
     args_dry args = true ->
     snd (execute_by_path env path args modify_time target_timezone filters
                          w) = w
     /\ fst (execute_by_path env path args modify_time target_timezone
                             filters w) <> Diverge)
  /\ (forall files args modify_time target_timezone filters w,
        args_dry args = true ->
        snd (main env files args modify_time target_timezone filters w) = w)
  /\ (forall self dt w,
        snd (rename env self dt true w) = w
        /\ fst (rename env self dt true w) <> Diverge)
  /\ (forall self dt w,
        no_stale_temporary self w ->
        rename env self dt true w
        = (Ok (UNCHANGED, Some (Extractable.path self)), w)).
Proof.
  split.
  { intros path args modify_time target_timezone filters w Hdry.
    by apply readonly_execute_loop_dry. }
  split.
  { intros files args modify_time target_timezone filters w Hdry.
    by apply readonly_main_loop_dry. }
  split.
  { intros self dt w. apply readonly_rename_dry. }
  intros self dt w. apply rename_dry_unchanged.
Qed.

Lemma dry_run_changes_nothing_witness :
  snd (execute_by_path Example.env Example.img1 Example.args_dry_run None
         None None Example.two_photos) = Example.two_photos
  /\ rename Example.env
       (configure ClsVideo Example.untagged_clip Example.args_dry_run)
       Example.taken true Example.batch
     = (Ok (UNCHANGED, Some Example.untagged_clip), Example.batch).
Proof.
  destruct (dry_run_changes_nothing Example.env) as (Hexec & _ & _ & Hrename).
  split.
  - apply Hexec. reflexivity.
  - apply Hrename. intros _ _.
    exists (mkPath "photos" "clip.output.mp4"). split; vm_compute; reflexivity.
Defined.

(** ** C9: the metadata filters *)

Lemma matches_dict_spec exif_dict filters :
  Extractable.matches_dict exif_dict filters = true
  <-> Forall (fun kv => exists x,
                PyVal.lookup (KStr (fst kv)) exif_dict = Some x
                /\ PyVal.str x = snd kv)
             filters.
Proof.
  induction filters as [|[key value] filters IH]; simpl.
  { split; [constructor|done]. }
  rewrite Forall_cons. simpl.
  destruct (PyVal.lookup (KStr key) exif_dict) as [x|].
  - destruct (String.eqb (PyVal.str x) value) eqn:E; simpl.
    + apply String.eqb_eq in E. rewrite IH. split.
      * intros H. split; [by exists x|done].
      * by intros [_ H].
    + apply String.eqb_neq in E. split; [done|].
      intros [(y & [= <-] & Hy) _]. done.
  - split; [done|]. by intros [(y & ? & _) _].
Qed.

Lemma matches_run env self filters w d w' :
  list_ env self w = (Ok d, w') ->
  matches env self filters w
  = (Ok (Extractable.matches_dict d filters), w').
Proof. intros H. unfold matches, bind. by rewrite H. Qed.

Lemma filter_mismatch_is_error env parser path args modify_time
    target_timezone filters w d :
  parser ∈ PARSERS ->
  Extractable.use (configure parser path args) = true ->
  filters <> [] ->
  list_ env (configure parser path args) w = (Ok d, w) ->
  Extractable.matches_dict d filters = false ->
  execute_by_path env path args modify_time target_timezone (Some filters) w
  = (Ok ERROR, w).
Proof.
  intros Hparser Huse Hfilters Hlist Hmismatch.
  assert (Htruthy : filters_truthy (Some filters) = true).
  { by destruct filters. }
  unfold execute_by_path, PARSERS in *. cbn [execute_loop].
  apply elem_of_cons in Hparser as [->|Hparser].
  - rewrite Huse, (use_image_not_video _ _ Huse), Htruthy.
    cbn [negb]. change (default [] (Some filters)) with filters.
    cbv beta iota.
    unfold bind at 1. rewrite (matches_run _ _ _ _ _ _ Hlist), Hmismatch.
    by rewrite !bind_ret.
  - apply list_elem_of_singleton in Hparser as ->.
    rewrite Huse, (use_video_not_image _ _ Huse), Htruthy.
    cbn [negb]. change (default [] (Some filters)) with filters.
    cbv beta iota. rewrite bind_ret. cbv beta iota.
    unfold bind at 1. rewrite (matches_run _ _ _ _ _ _ Hlist), Hmismatch.
    reflexivity.
Qed.

(** C9.  The filters match when every filter key is a key of the
    dictionary that [self.list()] returns and the text of its value
    equals the expected text; a missing key or another text makes the
    match fail.  With a non-empty filter mapping, a file whose extractor
    reads its metadata and finds a mismatch raises nothing: no extractor
    selects it, [execute_by_path] returns [ERROR], never [RENAMED], and
    the files are as before. *)
Theorem filters_match_all_keys env :
  (forall exif_dict filters,
     Extractable.matches_dict exif_dict filters = true
     <-> Forall (fun kv => exists x,
                   PyVal.lookup (KStr (fst kv)) exif_dict = Some x
                   /\ PyVal.str x = snd kv)
                filters)
  /\ (forall self filters w d w',
        list_ env self w = (Ok d, w') ->
        matches env self filters w
        = (Ok (Extractable.matches_dict d filters), w'))
  /\ (forall parser path args modify_time target_timezone filters w d,
        parser ∈ PARSERS ->
        Extractable.use (configure parser path args) = true ->
        filters <> [] ->
        list_ env (configure parser path args) w = (Ok d, w) ->
        Extractable.matches_dict d filters = false ->
        execute_by_path env path args modify_time target_timezone
                        (Some filters) w
        = (Ok ERROR, w)).
Proof.
  split; [apply matches_dict_spec|].
  split.
  - intros. by apply matches_run.
  - intros. by eapply filter_mismatch_is_error.
Qed.

Lemma filters_match_all_keys_witness :
  matches Example.env (configure ClsImage Example.img1 Example.args)
          [("GPS", "{}"); ("0th", "{}")] Example.one_photo
  = (Ok true, Example.one_photo)
  /\ execute_by_path Example.env Example.img1 Example.args None None
       (Some [("GPS", "{}"); ("Make", "Canon")]) Example.one_photo
     = (Ok ERROR, Example.one_photo).
Proof.
  destruct (filters_match_all_keys Example.env) as (_ & Hrun & Hskip).
  split.
  - rewrite (Hrun _ _ _ (exif_as_dict Example.exif) Example.one_photo)
      by reflexivity.
    reflexivity.
  - apply (Hskip ClsImage _ _ _ _ _ _ (exif_as_dict Example.exif)).
    + by left.
    + reflexivity.
    + discriminate.
    + reflexivity.
    + reflexivity.
Defined.

(** ** C10: the thumbnail step of a video *)

(** Runs the filesystem calls of an unfolded computation on a world whose
    lookups are known. *)
Ltac fs_steps :=
  repeat first
    [ progress cbv beta iota
    | progress cbn [fs ops st_size]
    | rewrite lookup_insert_eq
    | rewrite lookup_delete_eq
    | rewrite lookup_insert_ne by done
    | rewrite lookup_delete_ne by done
    | match goal with H : fs _ !! _ = _ |- _ => rewrite H end
    | rewrite bool_decide_eq_true_2 by eauto
    | rewrite bool_decide_eq_false_2 by (by intros [? ?]) ].

Lemma thumbnail_step env self status new_path dt w video thumbnail output
    thumbnail_path tmp_path :
  Extractable.cls self = ClsVideo ->
  args_video_thumbnail_skip_creation (Extractable.args self) = false ->
  fs w !! new_path = Some video ->
  PathLib.with_suffix new_path ".jpg" = Ok thumbnail_path ->
  PathLib.with_suffix new_path (".output" +:+ PathLib.suffix new_path)
  = Ok tmp_path ->
  thumbnail_path <> new_path ->
  tmp_path <> new_path ->
  tmp_path <> thumbnail_path ->
  ffmpeg_thumbnail env video = Some thumbnail ->
  ffmpeg_attach env video thumbnail = Some output ->
  after_rename env self status new_path dt false w
  = (Ok (UNCHANGED, Some new_path),
     after_thumbnail new_path thumbnail_path tmp_path thumbnail output
                     (st_size video <=? st_size output)%N w).
Proof.
  intros Hcls Hskip Hvideo Hjpg Htmp Hne1 Hne2 Hne3 Hthumb Hattach.
  unfold after_rename. rewrite Hcls.
  unfold Video.after_rename, Extractable.after_rename.
  rewrite bind_ret. cbv beta iota.
  destruct (decide (UNCHANGED = ERROR)); [done|].
  rewrite Hskip. cbn [negb]. rewrite Htmp.
  unfold Video.make_thumbnail. rewrite Hjpg.
  unfold Fs.stat_size.
  unfold bind, lift, ret, throw, try_except, Fs.exists_,
    Fs.read, Fs.write, Fs.unlink, Fs.rename.
  assert (new_path <> thumbnail_path) by done.
  assert (new_path <> tmp_path) by done.
  assert (thumbnail_path <> tmp_path) by done.
  unfold after_thumbnail.
  destruct (st_size video <=? st_size output)%N eqn:Hsize.
  - fs_steps. rewrite Hthumb. fs_steps. rewrite Hattach. fs_steps.
    rewrite Hsize. fs_steps. by rewrite <- !app_assoc.
  - fs_steps. rewrite Hthumb. fs_steps. rewrite Hattach. fs_steps.
    rewrite Hsize. fs_steps. by rewrite <- !app_assoc.
Qed.

Lemma rename_then_thumbnail env self dt w video thumbnail output
    thumbnail_path tmp_path :
  Extractable.cls self = ClsVideo ->
  args_video_thumbnail_skip_creation (Extractable.args self) = false ->
  fs w !! Extractable.path self = Some video ->
  candidate self dt 0 <> Extractable.path self ->
  fs w !! candidate self dt 0 = None ->
  PathLib.with_suffix (candidate self dt 0) ".jpg" = Ok thumbnail_path ->
  PathLib.with_suffix (candidate self dt 0)
    (".output" +:+ PathLib.suffix (candidate self dt 0))
  = Ok tmp_path ->
  thumbnail_path <> candidate self dt 0 ->
  tmp_path <> candidate self dt 0 ->
  tmp_path <> thumbnail_path ->
  ffmpeg_thumbnail env video = Some thumbnail ->
  ffmpeg_attach env video thumbnail = Some output ->
  rename env self dt false w
  = (Ok (UNCHANGED, Some (candidate self dt 0)),
     after_thumbnail (candidate self dt 0) thumbnail_path tmp_path
       thumbnail output (st_size video <=? st_size output)%N
       (mkWorld (<[candidate self dt 0 := video]>
                   (delete (Extractable.path self) (fs w)))
                (ops w ++ [OpRename (Extractable.path self)
                                    (candidate self dt 0) false]))).
Proof.
  intros Hcls Hskip Hfile Hne Hfree Hjpg Htmp Hne1 Hne2 Hne3 Hthumb Hattach.
  rewrite rename_unfold. rewrite decide_False by done.
  rewrite (collision_loop_finds _ _ _ _ _ _ _ 0);
    [|unfold collision_fuel; lia|intros m Hm; lia|done|intros m Hm; lia].
  cbn [nth_target negb]. unfold bind at 1. unfold Fs.rename.
  rewrite Hfile, Hfree.
  rewrite bool_decide_eq_false_2 by (by intros [? ?]).
  eapply thumbnail_step; try done.
  cbn [fs]. by rewrite lookup_insert_eq.
Qed.

(** C10.  When a video is renamed by a run that is not dry and creates
    thumbnails, and both [ffmpeg] runs succeed, the post-step changes
    more than the rename did: after the move of the file it writes the
    thumbnail, with suffix [.jpg], and the temporary file, with [.output]
    before the suffix, next to the target.  When the temporary file is at
    least as large as the renamed video, the thumbnail and the renamed
    video are unlinked and the temporary file is moved onto the target:
    the file at the returned path is the output of [ffmpeg], and neither
    thumbnail nor temporary file is left.  Otherwise the renamed video
    stays and both written files are left next to it. *)
Theorem thumbnail_step_rewrites_video env self dt w video thumbnail output
    thumbnail_path tmp_path :
  Extractable.cls self = ClsVideo ->
  args_video_thumbnail_skip_creation (Extractable.args self) = false ->
  fs w !! Extractable.path self = Some video ->
  candidate self dt 0 <> Extractable.path self ->
  fs w !! candidate self dt 0 = None ->
  PathLib.with_suffix (candidate self dt 0) ".jpg" = Ok thumbnail_path ->
  PathLib.with_suffix (candidate self dt 0)
    (".output" +:+ PathLib.suffix (candidate self dt 0))
  = Ok tmp_path ->
  thumbnail_path <> candidate self dt 0 ->
  tmp_path <> candidate self dt 0 ->
  tmp_path <> thumbnail_path ->
  ffmpeg_thumbnail env video = Some thumbnail ->
  ffmpeg_attach env video thumbnail = Some output ->
  let target := candidate self dt 0 in
  let w' := snd (rename env self dt false w) in
  (exists status, fst (rename env self dt false w) = Ok (status, Some target))
  /\ ((st_size video <= st_size output)%N ->
        ops w' = ops w ++ [OpRename (Extractable.path self) target false;
                           OpWrite thumbnail_path; OpWrite tmp_path;
                           OpUnlink thumbnail_path; OpUnlink target;
                           OpRename tmp_path target false]
        /\ fs w' !! target = Some output
        /\ fs w' !! thumbnail_path = None
        /\ fs w' !! tmp_path = None)
  /\ ((st_size output < st_size video)%N ->
        ops w' = ops w ++ [OpRename (Extractable.path self) target false;
                           OpWrite thumbnail_path; OpWrite tmp_path]
        /\ fs w' !! target = Some video
        /\ fs w' !! thumbnail_path = Some thumbnail
        /\ fs w' !! tmp_path = Some output).
Proof.
  intros Hcls Hskip Hfile Hne Hfree Hjpg Htmp Hne1 Hne2 Hne3 Hthumb Hattach
         target w'.
  unfold w'.
  rewrite (rename_then_thumbnail env self dt w video thumbnail output
             thumbnail_path tmp_path) by done.
  fold target in Hne, Hfree, Hjpg, Htmp, Hne1, Hne2 |- *.
  assert (target <> thumbnail_path) by done.
  assert (target <> tmp_path) by done.
  assert (thumbnail_path <> tmp_path) by done.
  cbn [fst snd]. split; [by eexists|]. unfold after_thumbnail. split.
  - intros Hsize. apply N.leb_le in Hsize. rewrite Hsize. cbn [fs ops].
    rewrite <- app_assoc. split; [done|].
    split; [by rewrite lookup_insert_eq|].
    split.
    + rewrite lookup_insert_ne, !lookup_delete_ne by done.
      by rewrite lookup_delete_eq.
    + rewrite lookup_insert_ne by done. by rewrite lookup_delete_eq.
  - intros Hsize. apply N.leb_gt in Hsize. rewrite Hsize. cbn [fs ops].
    rewrite <- app_assoc. split; [done|].
    split; [by rewrite !lookup_insert_ne, lookup_insert_eq by done|].
    split.
    + by rewrite lookup_insert_ne, lookup_insert_eq by done.
    + by rewrite lookup_insert_eq.
Qed.

Lemma thumbnail_step_rewrites_video_witness :
  fs (snd (rename Example.env
             (configure ClsVideo Example.holiday_clip Example.args)
             Example.shot false Example.holiday_before))
  !! Example.holiday_target
  = Some (mkFile 1010 (ProbeMeta Example.holiday_probe))
  /\ fs (snd (rename Example.env
                (configure ClsVideo Example.holiday_clip Example.args)
                Example.shot false Example.holiday_before))
     !! Example.holiday_thumbnail
     = None.
Proof.
  destruct (thumbnail_step_rewrites_video Example.env
              (configure ClsVideo Example.holiday_clip Example.args)
              Example.shot Example.holiday_before Example.holiday_video
              (mkFile 10 NoMeta) (mkFile 1010 (ProbeMeta Example.holiday_probe))
              Example.holiday_thumbnail Example.holiday_tmp)
    as (_ & Hreplace & _);
    try (vm_compute; (reflexivity || discriminate)).
  destruct Hreplace as (_ & Htarget & Hthumbnail & _).
  - vm_compute. discriminate.
  - split; [exact Htarget|exact Hthumbnail].
Defined.

(** * Further properties *)

(** ** Decimal texts *)

Lemma length_string_of_uint (d : Decimal.uint) :
  String.length (NilEmpty.string_of_uint d) = Unsigned.usize d.
Proof. induction d; simpl; congruence. Qed.

Lemma to_uint_normal (n : nat) : Decimal.unorm (Nat.to_uint n) = Nat.to_uint n.
Proof. by rewrite <- Unsigned.to_of, Unsigned.of_to. Qed.

Lemma usize_nb_digits (d : Decimal.uint) :
  Unsigned.usize d = Decimal.nb_digits d.
Proof. induction d; simpl; congruence. Qed.

(** A normal numeral of two digits or more does not start with a zero. *)
Lemma normal_head (d : Decimal.uint) :
  Decimal.unorm (Decimal.D0 d) = Decimal.D0 d -> d = Decimal.Nil.
Proof.
  intros H. destruct d as [|d|d|d|d|d|d|d|d|d|d]; [done|exfalso..].
  all: match goal with H : Decimal.unorm (Decimal.D0 ?x) = _ |- _ =>
         assert (Hd : x <> Decimal.Nil) by done;
         pose proof (DecimalFacts.nb_digits_unorm x Hd) as Hle end.
  all: rewrite DecimalFacts.unorm_D0 in H; rewrite H in Hle; simpl in Hle; lia.
Qed.


Lemma str_nat_length (n k : nat) :
  0 < k -> n < 10 ^ k -> String.length (PyStr.str_nat n) <= k.
Proof.
  intros Hk Hn. unfold PyStr.str_nat, NilZero.string_of_uint.
  pose proof (to_uint_normal n) as Hnorm.
  pose proof (Unsigned.of_to n) as Hval.
  destruct (Nat.to_uint n) as [|d|d|d|d|d|d|d|d|d|d] eqn:E;
    [simpl; lia|..].
  { apply normal_head in Hnorm as ->. simpl. lia. }
  all: simpl String.length; rewrite length_string_of_uint.
  all: unfold Nat.of_uint in Hval; simpl Nat.of_uint_acc in Hval.
  all: rewrite Unsigned.of_uint_acc_spec in Hval.
  all: destruct (decide (Unsigned.usize d < k)) as [|Hge]; [lia|].
  all: exfalso.
  all: assert (10 ^ k <= 10 ^ Unsigned.usize d)
         by (apply Nat.pow_le_mono_r; lia).
  all: rewrite Nat.tail_mul_spec in Hval; nia.
Qed.

Lemma digits_string_of_uint (d : Decimal.uint) :
  all_chars is_digit (NilEmpty.string_of_uint d) = true.
Proof. induction d; simpl; auto. Qed.

Lemma digits_str_nat (n : nat) : all_chars is_digit (PyStr.str_nat n) = true.
Proof.
  unfold PyStr.str_nat, NilZero.string_of_uint.
  destruct (Nat.to_uint n) eqn:E;
    try (rewrite <- E; apply digits_string_of_uint).
  reflexivity.
Qed.

Lemma all_chars_impl (P Q : ascii -> bool) (s : string) :
  (forall c, P c = true -> Q c = true) ->
  all_chars P s = true -> all_chars Q s = true.
Proof.
  intros H. induction s as [|c s IH]; [done|]. simpl.
  rewrite !andb_true_iff. intros [Hc Hs]. auto.
Qed.

(** ** [str.strip] and [int] *)

Lemma rstrip_no_space (s : string) :
  all_chars (fun c => negb (Builtins.isspace c)) s = true ->
  Builtins.rstrip s = s.
Proof.
  induction s as [|c s IH]; [done|]. simpl.
  rewrite andb_true_iff, negb_true_iff. intros [Hc Hs].
  rewrite IH by done. rewrite Hc. by destruct s.
Qed.

Lemma strip_no_space (s : string) :
  all_chars (fun c => negb (Builtins.isspace c)) s = true ->
  Builtins.strip s = s.
Proof.
  intros H. unfold Builtins.strip.
  assert (Builtins.lstrip s = s) as ->; [|by apply rstrip_no_space].
  destruct s as [|c s]; [done|]. simpl in *.
  apply andb_true_iff in H as [Hc _]. apply negb_true_iff in Hc.
  by rewrite Hc.
Qed.

Lemma digit_not_space (c : ascii) :
  is_digit c = true -> negb (Builtins.isspace c) = true.
Proof.
  unfold is_digit, DateTime.digit, Builtins.isspace.
  destruct (_ && _)%Z eqn:E; [|done]. intros _.
  apply andb_true_iff in E as [E1 E2]. apply Z.leb_le in E1, E2.
  apply negb_true_iff, orb_false_iff.
  split; apply andb_false_iff; right; apply Nat.leb_gt; lia.
Qed.

Lemma int_digits_uint (d : Decimal.uint) (a cnt : nat) (b : bool) :
  d <> Decimal.Nil \/ b = true ->
  Builtins.int_digits (Z.of_nat a) cnt b (NilEmpty.string_of_uint d)
  = Some (Z.of_nat (Nat.of_uint_acc d a), cnt + Unsigned.usize d).
Proof.
  revert a cnt b.
  induction d; intros a cnt b Hb;
    [destruct Hb as [Hn| ->]; [done|]; simpl; by rewrite Nat.add_0_r|..].
  all: cbn [NilEmpty.string_of_uint Builtins.int_digits].
  all: match goal with |- context [DateTime.digit ?c] =>
         let v := eval vm_compute in (DateTime.digit c) in
         change (DateTime.digit c) with v end.
  all: cbv beta iota.
  all: cbn [Nat.of_uint_acc Unsigned.usize].
  all: match goal with
       |- context [Builtins.int_digits ?z _ _ _] =>
         match goal with
         |- context [Nat.of_uint_acc _ ?m] =>
           replace z with (Z.of_nat m)
             by (rewrite ?Nat.tail_mul_spec; lia)
         end
       end.
  all: rewrite IHd by (by right); f_equal; f_equal; lia.
Qed.

Lemma int_digits_str_nat (n : nat) :
  Builtins.int_digits 0 0 false (PyStr.str_nat n)
  = Some (Z.of_nat n, String.length (PyStr.str_nat n)).
Proof.
  unfold PyStr.str_nat, NilZero.string_of_uint.
  pose proof (Unsigned.of_to n) as Hval. unfold Nat.of_uint in Hval.
  pose proof (to_uint_normal n) as Hnorm.
  destruct (Nat.to_uint n) as [|d|d|d|d|d|d|d|d|d|d] eqn:E.
  { by destruct (DecimalFacts.unorm_nonnil Decimal.Nil). }
  all: rewrite length_string_of_uint.
  all: rewrite (int_digits_uint _ 0 0 false) by (by left).
  all: by rewrite Hval.
Qed.

(** [int(str(n))] is [n], for a text within the limit of [int]. *)
Lemma int_repr (n : Z) :
  String.length (PyStr.str_nat (Z.abs_nat n)) <= Builtins.max_str_digits ->
  Builtins.int_ (PyVal.repr_Z n) = Ok n.
Proof.
  intros Hlen. unfold Builtins.int_, PyVal.repr_Z.
  destruct (n <? 0)%Z eqn:Hneg.
  - apply Z.ltb_lt in Hneg.
    replace (Z.to_nat (- n)) with (Z.abs_nat n) by lia.
    rewrite strip_no_space.
    2:{ rewrite append_cons, append_nil_l. simpl. 
        eapply all_chars_impl; [apply digit_not_space|apply digits_str_nat]. }
    rewrite append_cons, append_nil_l.
    change (Ascii.eqb "-" "-") with true. cbv beta iota.
    rewrite int_digits_str_nat.
    rewrite (proj2 (Nat.ltb_ge _ _)) by done. f_equal. lia.
  - apply Z.ltb_ge in Hneg.
    replace (Z.to_nat n) with (Z.abs_nat n) by lia.
    rewrite strip_no_space
      by (eapply all_chars_impl; [apply digit_not_space|apply digits_str_nat]).
    pose proof (digits_str_nat (Z.abs_nat n)) as Hdig.
    pose proof (int_digits_str_nat (Z.abs_nat n)) as Hval.
    destruct (PyStr.str_nat (Z.abs_nat n)) as [|c r] eqn:E; [done|].
    simpl in Hdig. apply andb_true_iff in Hdig as [Hc _].
    assert (Ascii.eqb c "-" = false) as ->.
    { apply Ascii.eqb_neq. intros ->. done. }
    assert (Ascii.eqb c "+" = false) as ->.
    { apply Ascii.eqb_neq. intros ->. done. }
    rewrite Hval.
    rewrite (proj2 (Nat.ltb_ge _ _)) by done. f_equal. lia.
Qed.

Lemma str_nat_length_Z (n k : nat) :
  0 < k -> (Z.of_nat n < 10 ^ Z.of_nat k)%Z ->
  String.length (PyStr.str_nat n) <= k.
Proof.
  intros Hk Hn. apply str_nat_length; [done|].
  apply Nat2Z.inj_lt. by rewrite Nat2Z.inj_pow.
Qed.

Lemma all_chars_false_lstrip (P : ascii -> bool) (s : string) :
  (forall c, Builtins.isspace c = true -> P c = true) ->
  all_chars P s = false -> all_chars P (Builtins.lstrip s) = false.
Proof.
  intros HP. induction s as [|c s IH]; [done|]. simpl.
  destruct (Builtins.isspace c) eqn:Hc; [|done].
  rewrite (HP c Hc). simpl. exact IH.
Qed.

Lemma all_chars_false_rstrip (P : ascii -> bool) (s : string) :
  (forall c, Builtins.isspace c = true -> P c = true) ->
  all_chars P s = false -> all_chars P (Builtins.rstrip s) = false.
Proof.
  intros HP. induction s as [|c s IH]; [done|]. simpl.
  destruct (P c) eqn:Hc; simpl.
  - intros Hs. specialize (IH Hs).
    destruct (Builtins.rstrip s); [done|]. simpl. by rewrite Hc.
  - intros _. destruct (Builtins.rstrip s).
    + destruct (Builtins.isspace c) eqn:Hsp.
      * by rewrite (HP c Hsp) in Hc.
      * simpl. by rewrite Hc.
    + simpl. by rewrite Hc.
Qed.

Lemma int_digits_bad_char (s : string) (acc : Z) (count : nat) (b : bool) :
  all_chars (fun c => is_digit c || Ascii.eqb c "_") s = false ->
  Builtins.int_digits acc count b s = None.
Proof.
  revert acc count b. induction s as [|c s IH]; intros acc count b; [done|].
  simpl. unfold is_digit.
  destruct (DateTime.digit c) as [d|]; simpl.
  - intros H. by apply IH.
  - destruct (Ascii.eqb c "_"); simpl; [|done].
    intros H. destruct b; [|done]. by apply IH.
Qed.

(** A text that holds a character foreign to integer literals is refused
    by [int]. *)
Lemma int_bad_char (text : string) :
  all_chars literal_char text = false ->
  Builtins.int_ text = Raise ValueError.
Proof.
  intros H. unfold Builtins.int_, Builtins.strip.
  assert (Hsp : forall c, Builtins.isspace c = true -> literal_char c = true).
  { intros c Hc. unfold literal_char. rewrite Hc. by rewrite !orb_true_r. }
  apply (all_chars_false_lstrip _ _ Hsp) in H.
  apply (all_chars_false_rstrip _ _ Hsp) in H.
  destruct (Builtins.rstrip (Builtins.lstrip text)) as [|c r]; [done|].
  assert (Hbody : forall body,
            all_chars literal_char body = false ->
            Builtins.int_digits 0 0 false body = None).
  { intros body Hb. apply int_digits_bad_char.
    apply not_true_iff_false. intros Hgood.
    apply not_true_iff_false in Hb. apply Hb.
    eapply all_chars_impl; [|exact Hgood].
    intros a Ha. unfold literal_char.
    apply orb_true_iff in Ha as [->| ->]; by rewrite ?orb_true_r. }
  simpl in H.
  destruct (Ascii.eqb c "-") eqn:Hm.
  { apply Ascii.eqb_eq in Hm as ->. simpl in H. by rewrite Hbody. }
  destruct (Ascii.eqb c "+") eqn:Hp.
  { apply Ascii.eqb_eq in Hp as ->. simpl in H. by rewrite Hbody. }
  by rewrite Hbody.
Qed.

Lemma unit_seconds_supported (key : string) (unit : Z) :
  unit_seconds key = Some unit ->
  key ∈ SUPPORTED_TIME_MODIFICATION_KEYS /\ (1 <= unit <= 604800)%Z.
Proof.
  unfold unit_seconds, SUPPORTED_TIME_MODIFICATION_KEYS.
  repeat (destruct (String.eqb key _) eqn:?E;
          [apply String.eqb_eq in E as ->; intros [= <-];
           split; [set_solver|lia]|clear E]).
  done.
Qed.

Lemma supported_unit_seconds (key : string) :
  key ∈ SUPPORTED_TIME_MODIFICATION_KEYS ->
  exists unit, unit_seconds key = Some unit.
Proof.
  unfold SUPPORTED_TIME_MODIFICATION_KEYS. intros H.
  repeat (apply elem_of_cons in H as [->|H]; [by eexists|]).
  by apply elem_of_nil in H.
Qed.

(** ** [parse_timedelta] *)

(** X1.  [parse_timedelta] reads the decimal text of every integer [n]
    under each of the five supported keys: the result is the [timedelta]
    of [n] units, as long as that is a [timedelta], that is, as long as it
    counts at most 999999999 days in magnitude. *)
Theorem parse_timedelta_reads_integer (key : string) (unit n : Z) :
  unit_seconds key = Some unit ->
  in_timedelta_range (n * unit) ->
  parse_timedelta (Some [key; PyVal.repr_Z n])
  = Ok (Some (DateTime.Timedelta (n * unit))).
Proof.
  intros Hunit Hrange. unfold in_timedelta_range in Hrange.
  destruct (unit_seconds_supported _ _ Hunit) as [Hkey Hbound].
  unfold parse_timedelta. rewrite bool_decide_eq_true_2 by done.
  rewrite int_repr.
  - unfold timedelta_kw. rewrite Hunit.
    rewrite (proj2 (andb_true_iff _ _)); [done|].
    split; apply Z.leb_le; lia.
  - etransitivity; [apply (str_nat_length_Z _ 15); [lia|]|].
    + change (Z.of_nat 15) with 15%Z.
      assert (Z.abs n <= Z.abs (n * unit))%Z by nia.
      assert (Z.abs (n * unit) < 999999999 * 86400 + 86400 + 86400)%Z.
      { pose proof (Z.div_mod (n * unit) 86400).
        pose proof (Z.mod_pos_bound (n * unit) 86400). lia. }
      lia.
    + unfold Builtins.max_str_digits. lia.
Qed.

Lemma parse_timedelta_reads_integer_witness :
  parse_timedelta (Some ["hours"; "-2"])
  = Ok (Some (DateTime.Timedelta (-7200))).
Proof.
  apply (parse_timedelta_reads_integer "hours" 3600 (-2)).
  - reflexivity.
  - split; apply Z.leb_le; reflexivity.
Defined.

(** X2.  What [parse_timedelta] does not read.  Without the option, and
    for a key outside the five supported ones, the result is [None] and no
    error, whatever the value: the modification is dropped.  Under a
    supported key, a value that holds a character foreign to integer
    literals (such as the point of [1.5]) raises [ValueError], and an
    integer whose [timedelta] would count more than 999999999 days raises
    [OverflowError]. *)
Theorem parse_timedelta_refusals :
  parse_timedelta None = Ok None
  /\ parse_timedelta (Some []) = Ok None
  /\ (forall key value,
        key ∉ SUPPORTED_TIME_MODIFICATION_KEYS ->
        parse_timedelta (Some [key; value]) = Ok None)
  /\ (forall key value,
        key ∈ SUPPORTED_TIME_MODIFICATION_KEYS ->
        all_chars literal_char value = false ->
        parse_timedelta (Some [key; value]) = Raise ValueError)
  /\ (forall key unit value n,
        unit_seconds key = Some unit ->
        Builtins.int_ value = Ok n ->
        ~ in_timedelta_range (n * unit) ->
        parse_timedelta (Some [key; value]) = Raise OverflowError).
Proof.
  split; [done|]. split; [done|]. split.
  { intros key value Hkey. unfold parse_timedelta.
    by rewrite bool_decide_eq_false_2. }
  split.
  { intros key value Hkey Hbad. unfold parse_timedelta.
    rewrite bool_decide_eq_true_2 by done. by rewrite int_bad_char. }
  intros key unit value n Hunit Hint Hrange.
  destruct (unit_seconds_supported _ _ Hunit) as [Hkey Hbound].
  unfold parse_timedelta. rewrite bool_decide_eq_true_2 by done.
  rewrite Hint. unfold timedelta_kw. rewrite Hunit.
  destruct (_ && _)%Z eqn:E; [|done].
  exfalso. apply Hrange. unfold in_timedelta_range.
  apply andb_true_iff in E as [E1 E2]. apply Z.leb_le in E1, E2. lia.
Qed.

Lemma parse_timedelta_refusals_witness :
  parse_timedelta (Some ["years"; "1"]) = Ok None
  /\ parse_timedelta (Some ["hours"; "1.5"]) = Raise ValueError
  /\ parse_timedelta (Some ["weeks"; "142857143"]) = Raise OverflowError.
Proof.
  destruct parse_timedelta_refusals as (_ & _ & Hkey & Htext & Hbig).
  split; [|split].
  - apply Hkey. intros Hin.
    pose proof (bool_decide_eq_true_2 _ Hin) as Hb. vm_compute in Hb.
    discriminate.
  - apply Htext; [|reflexivity].
    apply (bool_decide_eq_true_1 _). reflexivity.
  - apply (Hbig "weeks" 604800%Z "142857143" 142857143%Z).
    + reflexivity.
    + reflexivity.
    + unfold in_timedelta_range. vm_compute. intros [_ H]. by apply H.
Defined.

(** ** [parse_timezone] *)

(** A property that holds for the first [n] integers, checked by
    running through them. *)
Lemma forall_below (P : Z -> bool) (n : nat) :
  forallb P (Z.of_nat <$> seq 0 n) = true ->
  forall h, (0 <= h < Z.of_nat n)%Z -> P h = true.
Proof.
  intros Hall h Hh. rewrite forallb_forall in Hall. apply Hall.
  apply list_elem_of_In, list_elem_of_fmap. exists (Z.to_nat h).
  split; [lia|]. apply elem_of_seq. lia.
Qed.

(** X3.  The hour form of [--target-timezone].  A plus sign followed by
    two digits gives the offset of that many hours when they are fewer
    than 24, and raises [ValueError] from 24 on; a plus sign followed by
    one digit gives the offset of that many hours. *)
Theorem parse_timezone_hours (tznames : list string) :
  (forall h, (0 <= h <= 99)%Z ->
     parse_timezone tznames (Some ("+" +:+ DateTime.pad 2 h))
     = if (h <? 24)%Z then Ok (Some (DateTime.Timezone (h * 3600)))
       else Raise ValueError)
  /\ (forall h, (0 <= h <= 9)%Z ->
        parse_timezone tznames (Some ("+" +:+ PyVal.repr_Z h))
        = Ok (Some (DateTime.Timezone (h * 3600)))).
Proof.
  split.
  - intros h Hh.
    set (P := fun h =>
           bool_decide
             (parse_timezone tznames (Some ("+" +:+ DateTime.pad 2 h))
              = if (h <? 24)%Z
                then Ok (Some (DateTime.Timezone (h * 3600)))
                else Raise ValueError)).
    assert (H : P h = true).
    { apply (forall_below P 100); [vm_compute; reflexivity|lia]. }
    by apply bool_decide_eq_true_1 in H.
  - intros h Hh.
    set (P := fun h =>
           bool_decide
             (parse_timezone tznames (Some ("+" +:+ PyVal.repr_Z h))
              = Ok (Some (DateTime.Timezone (h * 3600))))).
    assert (H : P h = true).
    { apply (forall_below P 10); [vm_compute; reflexivity|lia]. }
    by apply bool_decide_eq_true_1 in H.
Qed.

Lemma parse_timezone_hours_witness :
  parse_timezone ["CET"; "CEST"] (Some "+02")
  = Ok (Some (DateTime.Timezone 7200))
  /\ parse_timezone ["CET"; "CEST"] (Some "+24") = Raise ValueError
  /\ parse_timezone ["CET"; "CEST"] (Some "+2")
     = Ok (Some (DateTime.Timezone 7200)).
Proof.
  destruct (parse_timezone_hours ["CET"; "CEST"]) as [Htwo Hone].
  split; [|split].
  - apply (Htwo 2%Z). lia.
  - apply (Htwo 24%Z). lia.
  - apply (Hone 2%Z). lia.
Defined.

Lemma strptime_offset_cases (text : string) :
  strptime_offset text = Raise ValueError
  \/ exists off,
       strptime_offset text
       = Ok (DateTime.mkDatetime 1900 1 1 0 0 0 0
                                 (Some (DateTime.Timezone off))).
Proof.
  unfold strptime_offset.
  destruct (re_offset text) as [|[[off bad] [|? ?]] l]; auto.
  destruct bad; auto. destruct (_ && _)%Z; eauto.
Qed.

Lemma strip_empty : Builtins.strip "" = "".
Proof. reflexivity. Qed.

Lemma truthy_strip (expr : string) (first : ascii) (rest : string) :
  Builtins.strip expr = String first rest -> PyStr.truthy expr = true.
Proof. by destruct expr. Qed.

(** X4.  Every other form of [--target-timezone].  Apart from the hour
    form, a plus sign followed by one or two characters, no expression
    gives an offset: the result is UTC or an error.  White space alone
    raises [IndexError].  A plus sign followed by digits in another number
    than one or two, the four digits of the help text included, raises
    [ValueError]; so does an expression without a leading plus sign that
    is not, in either case, [UTC], [GMT] or a name of the system time
    zone: a negative offset or a name such as [Europe/Berlin]. *)
Theorem parse_timezone_other_forms (tznames : list string) :
  (forall expr,
     PyStr.truthy expr = true -> Builtins.strip expr = "" ->
     parse_timezone tznames (Some expr) = Raise IndexError)
  /\ (forall expr first rest,
        Builtins.strip expr = String first rest ->
        first <> "+"%char
        \/ (String.length rest <> 1 /\ String.length rest <> 2) ->
        parse_timezone tznames (Some expr) = Ok (Some DateTime.utc)
        \/ parse_timezone tznames (Some expr) = Raise ValueError)
  /\ (forall expr rest,
        Builtins.strip expr = String "+" rest ->
        all_chars is_digit rest = true ->
        String.length rest <> 1 -> String.length rest <> 2 ->
        parse_timezone tznames (Some expr) = Raise ValueError)
  /\ (forall expr first rest,
        Builtins.strip expr = String first rest ->
        first <> "+"%char ->
        PyStr.lower (String first rest)
          ∉ "utc" :: "gmt" :: (PyStr.lower <$> tznames) ->
        parse_timezone tznames (Some expr) = Raise ValueError).
Proof.
  split.
  { intros expr Htruthy Hstrip. unfold parse_timezone.
    by rewrite Htruthy, Hstrip. }
  split.
  { intros expr first rest Hstrip Hform. unfold parse_timezone.
    rewrite (truthy_strip _ _ _ Hstrip), Hstrip. cbn [negb].
    destruct (Ascii.eqb first "+") eqn:Hfirst.
    - apply Ascii.eqb_eq in Hfirst.
      destruct Hform as [Hne|[H1 H2]]; [done|].
      rewrite (proj2 (Nat.eqb_neq _ _) H1), (proj2 (Nat.eqb_neq _ _) H2).
      cbn [orb]. destruct (4 <=? String.length rest)%nat; [|by right].
      destruct (strptime_offset_cases rest) as [->|[off ->]];
        [by right|by left].
    - unfold strptime_zone. destruct (bool_decide _); [by left|by right]. }
  split.
  { intros expr rest Hstrip Hdigits H1 H2. unfold parse_timezone.
    rewrite (truthy_strip _ _ _ Hstrip), Hstrip. cbn [negb].
    change (Ascii.eqb "+" "+") with true. cbv beta iota.
    rewrite (proj2 (Nat.eqb_neq _ _) H1), (proj2 (Nat.eqb_neq _ _) H2).
    cbn [orb]. destruct (4 <=? String.length rest)%nat; [|done].
    destruct rest as [|c r]; [done|].
    simpl in Hdigits. apply andb_true_iff in Hdigits as [Hc _].
    unfold strptime_offset, re_offset.
    assert (Ascii.eqb c "+" = false) as ->.
    { apply Ascii.eqb_neq. by intros ->. }
    assert (Ascii.eqb c "-" = false) as ->.
    { apply Ascii.eqb_neq. by intros ->. }
    assert (Ascii.eqb c "Z" = false) as ->.
    { apply Ascii.eqb_neq. by intros ->. }
    reflexivity. }
  intros expr first rest Hstrip Hfirst Hname. unfold parse_timezone.
  rewrite (truthy_strip _ _ _ Hstrip), Hstrip. cbn [negb].
  rewrite (proj2 (Ascii.eqb_neq _ _) Hfirst).
  unfold strptime_zone. by rewrite bool_decide_eq_false_2.
Qed.

Lemma parse_timezone_other_forms_witness :
  parse_timezone ["CET"; "CEST"] (Some "  ") = Raise IndexError
  /\ (parse_timezone ["CET"; "CEST"] (Some "++0200") = Ok (Some DateTime.utc)
      \/ parse_timezone ["CET"; "CEST"] (Some "++0200") = Raise ValueError)
  /\ parse_timezone ["CET"; "CEST"] (Some "+0200") = Raise ValueError
  /\ parse_timezone ["CET"; "CEST"] (Some "Europe/Berlin") = Raise ValueError.
Proof.
  destruct (parse_timezone_other_forms ["CET"; "CEST"])
    as (Hspace & Hother & Hdigits & Hname).
  split; [|split; [|split]].
  - apply Hspace; reflexivity.
  - apply (Hother "++0200" "+"%char "+0200"); [reflexivity|].
    right. split; discriminate.
  - apply (Hdigits "+0200" "0200"); [reflexivity|reflexivity| |];
      discriminate.
  - apply (Hname "Europe/Berlin" "E"%char "urope/Berlin");
      [reflexivity|discriminate|].
    intros Hin. pose proof (bool_decide_eq_true_2 _ Hin) as Hb.
    vm_compute in Hb. discriminate.
Defined.

(** ** [parse_filters] *)

Section Dict.

Context {K V : Type} `{EqDecision K}.

Lemma lookup_dict_set (key k : K) (value : V) (items : list (K * V)) :
  PyVal.lookup k (dict_set key value items)
  = if decide (k = key) then Some value else PyVal.lookup k items.
Proof.
  induction items as [|[k' v'] items IH]; simpl.
  - by destruct (decide (k = key)).
  - destruct (decide (key = k')) as [->|Hne]; simpl.
    + by destruct (decide (k = k')).
    + destruct (decide (k = k')) as [->|]; [|exact IH].
      by rewrite decide_False by done.
Qed.

Lemma keys_dict_set (key : K) (value : V) (items : list (K * V)) :
  NoDup items.*1 -> NoDup (dict_set key value items).*1.
Proof.
  induction items as [|[k' v'] items IH]; simpl.
  - intros _. apply NoDup_singleton.
  - rewrite NoDup_cons. intros [Hk Hnd].
    destruct (decide (key = k')) as [->|Hne]; simpl.
    + by apply NoDup_cons.
    + apply NoDup_cons. split; [|by apply IH].
      intros Hin. apply list_elem_of_fmap in Hin as ([k v] & -> & Hin).
      simpl in *. apply Hk.
      assert (Hl : PyVal.lookup k (dict_set key value items) <> None).
      { clear -Hin. induction (dict_set key value items) as [|[a b] l IHl];
          [by apply elem_of_nil in Hin|].
        simpl. destruct (decide (k = a)); [done|].
        apply elem_of_cons in Hin as [[= -> ->]|Hin]; [done|]. by apply IHl. }
      rewrite lookup_dict_set, decide_False in Hl by done.
      clear -Hl. induction items as [|[a b] l IHl]; [done|].
      simpl in *. destruct (decide (k = a)) as [->|]; [by left|].
      right. by apply IHl.
Qed.

Lemma lookup_fold_dict_set (pairs items : list (K * V)) (k : K) :
  PyVal.lookup k
    (fold_left (fun items kv => dict_set (fst kv) (snd kv) items) pairs items)
  = match PyVal.lookup k (rev pairs) with
    | Some v => Some v
    | None => PyVal.lookup k items
    end.
Proof.
  revert items. induction pairs as [|[key value] pairs IH]; intros items;
    [done|].
  simpl. rewrite IH, lookup_dict_set.
  assert (Happ : forall (l : list (K * V)),
            PyVal.lookup k (l ++ [(key, value)])
            = match PyVal.lookup k l with
              | Some v => Some v
              | None => if decide (k = key) then Some value else None
              end).
  { induction l as [|[a b] l IHl]; simpl; [done|].
    by destruct (decide (k = a)). }
  rewrite Happ.
  by destruct (PyVal.lookup k (rev pairs)), (decide (k = key)).
Qed.

Lemma keys_fold_dict_set (pairs items : list (K * V)) :
  NoDup items.*1 ->
  NoDup (fold_left (fun items kv => dict_set (fst kv) (snd kv) items)
                   pairs items).*1.
Proof.
  revert items. induction pairs as [|[key value] pairs IH]; intros items;
    [done|].
  intros Hnd. simpl. apply IH. by apply keys_dict_set.
Qed.

(** The items of a dictionary, seen through its lookups. *)
Lemma lookup_items (items : list (K * V)) (k : K) (v : V) :
  NoDup items.*1 ->
  (k, v) ∈ items <-> PyVal.lookup k items = Some v.
Proof.
  induction items as [|[a b] items IH]; simpl.
  - intros _. split; [by intros ?%elem_of_nil|done].
  - rewrite NoDup_cons. intros [Ha Hnd]. rewrite elem_of_cons.
    destruct (decide (k = a)) as [->|Hne].
    + split.
      * intros [[= ->]|Hin]; [done|]. exfalso. apply Ha.
        apply list_elem_of_fmap. by exists (a, v).
      * intros [= ->]. by left.
    + rewrite <- IH by done. split; [|by right].
      by intros [[= -> _]|Hin].
Qed.

End Dict.

(** X5.  [parse_filters] turns the pairs of [--filter-meta] into a
    dictionary, so of two filters with the same key only the last one
    counts: a file matches the parsed filters exactly when, for every key
    given, the text of its metadata value equals the value given last for
    that key.  Without the option, or with no pair, no filter applies. *)
Theorem parse_filters_last_value_counts :
  parse_filters None = None
  /\ parse_filters (Some []) = None
  /\ (forall args exif_dict,
        args <> [] ->
        exists filters,
          parse_filters (Some args) = Some filters
          /\ filters_truthy (Some filters) = true
          /\ (Extractable.matches_dict exif_dict filters = true
              <-> forall key value,
                    PyVal.lookup key (rev args) = Some value ->
                    exists x,
                      PyVal.lookup (KStr key) exif_dict = Some x
                      /\ PyVal.str x = value)).
Proof.
  split; [done|]. split; [done|].
  intros args exif_dict Hargs.
  exists (dict_of_pairs args). split; [by destruct args|].
  assert (Hnd : NoDup (dict_of_pairs args).*1).
  { apply keys_fold_dict_set. constructor. }
  assert (Hlookup : forall k,
            PyVal.lookup k (dict_of_pairs args) = PyVal.lookup k (rev args)).
  { intros k. unfold dict_of_pairs. rewrite lookup_fold_dict_set.
    by destruct (PyVal.lookup k (rev args)). }
  split.
  { destruct args as [|[key value] args]; [done|].
    destruct (dict_of_pairs ((key, value) :: args)) eqn:E; [|done].
    specialize (Hlookup key). simpl in Hlookup. symmetry in Hlookup.
    assert (Happ : forall (l : list (string * string)),
              PyVal.lookup key (l ++ [(key, value)]) <> None).
    { induction l as [|[a b] l IHl]; simpl; [by rewrite decide_True|].
      by destruct (decide (key = a)). }
    by apply Happ in Hlookup. }
  rewrite matches_dict_spec, Forall_forall. split.
  - intros Hall key value Hlast. rewrite <- Hlookup in Hlast.
    apply lookup_items in Hlast; [|done].
    apply (Hall (key, value) Hlast).
  - intros Hall [key value] Hin. simpl.
    apply lookup_items in Hin; [|done].
    rewrite Hlookup in Hin. by apply Hall.
Qed.

Lemma parse_filters_last_value_counts_witness :
  parse_filters (Some [("GPS", "x"); ("0th", "{}"); ("GPS", "{}")])
  = Some [("GPS", "{}"); ("0th", "{}")]
  /\ Extractable.matches_dict (exif_as_dict Example.exif)
       [("GPS", "{}"); ("0th", "{}")] = true.
Proof.
  destruct parse_filters_last_value_counts as (_ & _ & H).
  destruct (H [("GPS", "x"); ("0th", "{}"); ("GPS", "{}")]
              (exif_as_dict Example.exif))
    as (filters & Hparse & _ & Hmatch); [discriminate|].
  injection Hparse as <-.
  split; [reflexivity|].
  apply Hmatch. intros key value Hlast. simpl in Hlast.
  destruct (decide (key = "GPS")) as [->|_].
  { injection Hlast as <-. by exists (VDict []). }
  destruct (decide (key = "0th")) as [->|_].
  { injection Hlast as <-. by exists (VDict []). }
  by destruct (decide (key = "GPS")).
Defined.

(** ** [print_meta] *)

Lemma print_item_dict_app (path : list string) (l1 l2 : list (PyKey * PyVal)) :
  print_item path (VDict (l1 ++ l2))
  = print_item path (VDict l1) ++ print_item path (VDict l2).
Proof.
  induction l1 as [|[k v] l1 IH]; [done|].
  cbn [print_item app] in *. by rewrite IH, app_assoc.
Qed.

Lemma print_item_dict_cons (path : list string) (k : PyKey) (v : PyVal)
    (l : list (PyKey * PyVal)) :
  print_item path (VDict ((k, v) :: l))
  = print_item (path ++ [str_key k]) v ++ print_item path (VDict l).
Proof. reflexivity. Qed.

(** X6.  What [--list-meta] prints for an image.  On the dictionary that
    [Image.list] returns, [print_meta] prints one line for each tag, made
    of two spaces, the name of the group, a slash, the number of the tag,
    a colon and the byte string; the lines come group by group in the
    order of the dictionary, and a group without tags prints nothing. *)
Theorem print_meta_of_image (d : ExifDict) :
  print_meta (exif_as_dict d) []
  = group ← d; tag ← group.2; [tag_line group.1 tag.1 tag.2].
Proof.
  unfold print_meta.
  induction d as [|[group tags] d IH]; [done|].
  rewrite bind_cons. cbn [exif_as_dict List.map fst snd].
  rewrite print_item_dict_cons. fold (exif_as_dict d). rewrite IH.
  f_equal. cbn [app str_key].
  induction tags as [|[key value] tags IHt]; [done|].
  rewrite bind_cons. cbn [List.map fst snd].
  rewrite print_item_dict_cons, IHt. f_equal.
  cbn [print_item app str_key slash_join PyVal.str PyVal.repr].
  unfold tag_line. by rewrite !append_assoc.
Qed.

(** ** The loop of [main] *)

Lemma main_options_loop_parsed env tznames files args modify_time
    target_timezone filter_meta stats delta tz w :
  parse_timedelta modify_time = Ok delta ->
  parse_timezone tznames target_timezone = Ok tz ->
  main_options_loop env tznames files args modify_time target_timezone
                    filter_meta stats w
  = main_loop env files args delta tz (parse_filters filter_meta) stats w.
Proof.
  intros Hdelta Htz. revert stats w.
  induction files as [|file files IH]; intros stats w; [done|].
  cbn [main_options_loop main_loop]. rewrite Hdelta, Htz.
  unfold bind at 1 2. unfold lift at 1 2. cbv beta iota.
  unfold bind.
  destruct (execute_by_path _ _ _ _ _ _ w) as [[status| e|] w'];
    [apply IH|done|done].
Qed.

(** X7.  [main] parses [--modify-time], [--target-timezone] and
    [--filter-meta] anew for each file.  When the first two parse, the
    run is the loop over the files with the parsed values.  When one of
    them raises, the run raises at the first file, before anything is
    read or changed; a run over no file ends normally, whatever the
    options hold. *)
Theorem main_parses_options_for_each_file env tznames :
  (forall files args modify_time target_timezone filter_meta stats delta tz w,
     parse_timedelta modify_time = Ok delta ->
     parse_timezone tznames target_timezone = Ok tz ->
     main_options_loop env tznames files args modify_time target_timezone
                       filter_meta stats w
     = main_loop env files args delta tz (parse_filters filter_meta) stats w)
  /\ (forall file files args modify_time target_timezone filter_meta stats
             e w,
        parse_timedelta modify_time = Raise e
        \/ (exists delta,
              parse_timedelta modify_time = Ok delta
              /\ parse_timezone tznames target_timezone = Raise e) ->
        main_options_loop env tznames (file :: files) args modify_time
                          target_timezone filter_meta stats w
        = (Raise e, w))
  /\ (forall args modify_time target_timezone filter_meta stats w,
        main_options_loop env tznames [] args modify_time target_timezone
                          filter_meta stats w
        = (Ok stats, w)).
Proof.
  split; [intros; by apply main_options_loop_parsed|].
  split; [|done].
  intros file files args modify_time target_timezone filter_meta stats e w
         [Hdelta|(delta & Hdelta & Htz)];
    cbn [main_options_loop]; rewrite Hdelta; [done|].
  rewrite Htz. reflexivity.
Qed.

Lemma main_parses_options_for_each_file_witness :
  main_options_loop Example.env ["CET"; "CEST"] [Example.img1] Example.args
    (Some ["hours"; "-2"]) (Some "+02") None ∅ Example.one_photo
  = main_loop Example.env [Example.img1] Example.args
      (Some (DateTime.Timedelta (-7200))) (Some (DateTime.Timezone 7200))
      None ∅ Example.one_photo
  /\ main_options_loop Example.env ["CET"; "CEST"] [Example.img1]
       Example.args None (Some "+0200") None ∅ Example.one_photo
     = (Raise ValueError, Example.one_photo).
Proof.
  destruct (main_parses_options_for_each_file Example.env ["CET"; "CEST"])
    as (Hparsed & Hraise & _).
  split.
  - apply Hparsed; reflexivity.
  - apply Hraise. right. exists None. split; reflexivity.
Defined.

Lemma total_insert (stats : gmap Status nat) (status : Status) :
  total (<[status := S (default 0 (stats !! status))]> stats)
  = S (total stats).
Proof.
  unfold total.
  assert (Hcomm : forall (m : gmap Status nat) (b : nat) i x,
            m !! i = None ->
            map_fold (fun _ n acc => n + acc) b (<[i := x]> m)
            = x + map_fold (fun _ n acc => n + acc) b m).
  { intros m b i x Hi.
    apply (map_fold_insert_L (fun _ n acc => n + acc)); [|done].
    intros. lia. }
  destruct (stats !! status) as [n|] eqn:E; simpl.
  - rewrite <- (insert_delete_id stats status n) at 2 by done.
    rewrite <- (insert_delete_eq stats).
    rewrite !Hcomm by apply lookup_delete_eq. lia.
  - by rewrite Hcomm.
Qed.

Lemma execute_loop_never_RENAMED env parsers path args modify_time
    target_timezone filters :
  returns (execute_loop env parsers path args modify_time target_timezone
                        filters)
          (fun status => status <> RENAMED).
Proof.
  induction parsers as [|parser parsers IH]; [by apply returns_ret|].
  cbn [execute_loop].
  apply returns_bind. intros [|]; [|exact IH].
  apply returns_bind. intros creation_time.
  apply returns_bind. intros adjusted.
  destruct (args_list_meta args).
  - apply returns_bind. intros _. by apply returns_ret.
  - intros w status. unfold bind.
    pose proof (rename_never_RENAMED env (configure parser path args)
                  adjusted (args_dry args) w) as Hrename.
    destruct (rename env _ adjusted (args_dry args) w)
      as [[[s p]| e|] w']; try done.
    intros [= <-]. by apply (Hrename (s, p)).
Qed.

(** X8.  The counts of [main].  When the loop ends normally, the counts
    of the statuses add up to one for each file processed, on top of what
    they held before, so the number of files that [main] reports is the
    number of files it was given; and no file is counted under
    [RENAMED]. *)
Theorem main_counts_every_file env files args modify_time target_timezone
    filters stats w stats' w' :
  main_loop env files args modify_time target_timezone filters stats w
  = (Ok stats', w') ->
  total stats' = total stats + List.length files
  /\ stats' !! RENAMED = stats !! RENAMED.
Proof.
  revert stats w. induction files as [|file files IH]; intros stats w.
  { intros [= <- <-]. split; [simpl; lia|done]. }
  cbn [main_loop]. unfold bind at 1.
  pose proof (execute_loop_never_RENAMED env PARSERS file args modify_time
                target_timezone filters w) as Hstatus.
  fold (execute_by_path env file args modify_time target_timezone filters)
    in Hstatus.
  destruct (execute_by_path env file args modify_time target_timezone
                            filters w) as [[status| e|] w1]; try done.
  intros Hrest. apply IH in Hrest as [Htotal Hrenamed].
  rewrite total_insert in Htotal. split; [simpl; lia|].
  rewrite Hrenamed. apply lookup_insert_ne. by apply Hstatus.
Qed.

Lemma main_counts_every_file_witness :
  total (<[UNCHANGED := 1]> ∅) = total ∅ + List.length [Example.img1]
  /\ (<[UNCHANGED := 1]> ∅ : gmap Status nat) !! RENAMED
     = (∅ : gmap Status nat) !! RENAMED.
Proof.
  apply (main_counts_every_file Example.env [Example.img1] Example.args
           None None None ∅ Example.one_photo _ Example.one_photo_renamed).
  vm_compute. reflexivity.
Defined.

(** ** [execute_by_path]: listing, and missing modules *)

Lemma readonly_execute_loop_list_meta env parsers path args modify_time
    target_timezone filters :
  args_list_meta args = true ->
  readonly (execute_loop env parsers path args modify_time target_timezone
                         filters).
Proof.
  intros Hlist. induction parsers as [|parser parsers IH]; simpl.
  { apply readonly_ret. }
  rewrite Hlist.
  pose proof (readonly_matches env). pose proof (readonly_list env).
  pose proof (readonly_get_creation_time env).
  solve_readonly.
Qed.

Lemma execute_loop_list_meta_status env parsers path args modify_time
    target_timezone filters :
  args_list_meta args = true ->
  returns (execute_loop env parsers path args modify_time target_timezone
                        filters)
          (fun status => status = UNCHANGED \/ status = ERROR).
Proof.
  intros Hlist. induction parsers as [|parser parsers IH];
    [apply returns_ret; by right|].
  cbn [execute_loop]. rewrite Hlist.
  apply returns_bind. intros [|]; [|exact IH].
  apply returns_bind. intros creation_time.
  apply returns_bind. intros adjusted.
  apply returns_bind. intros _. apply returns_ret. by left.
Qed.

(** X9.  With [--list-meta], [execute_by_path] only reads: it ends, the
    files and the list of changing calls are as before, whether or not
    [--dry] is given, and a status it returns is [UNCHANGED] or [ERROR],
    never [RENAMED]. *)
Theorem list_meta_only_reads env path args modify_time target_timezone
    filters w :
  args_list_meta args = true ->
  snd (execute_by_path env path args modify_time target_timezone filters w)
  = w
  /\ fst (execute_by_path env path args modify_time target_timezone filters
                          w) <> Diverge
  /\ forall status,
       fst (execute_by_path env path args modify_time target_timezone
                            filters w) = Ok status ->
       status = UNCHANGED \/ status = ERROR.
Proof.
  intros Hlist.
  destruct (readonly_execute_loop_list_meta env PARSERS path args modify_time
              target_timezone filters Hlist w) as [Hw Hend].
  split; [exact Hw|]. split; [exact Hend|].
  intros status.
  apply (execute_loop_list_meta_status env PARSERS path args modify_time
           target_timezone filters Hlist w status).
Qed.

Lemma list_meta_only_reads_witness :
  snd (execute_by_path Example.env Example.img1
         (mkNamespace false false true None None None false)
         None None None Example.one_photo)
  = Example.one_photo.
Proof.
  apply (list_meta_only_reads Example.env Example.img1
           (mkNamespace false false true None None None false)
           None None None Example.one_photo).
  reflexivity.
Defined.

(** X10.  A file for an extractor whose optional module is missing.  When
    [piexif] could not be imported, every file that the image extractor
    would use raises [NotImplementedError], with or without filters,
    before the file is looked at; so does, without [ffmpeg], every file
    that the video extractor would use. *)
Theorem missing_module_raises env path args modify_time target_timezone
    filters w :
  (Extractable.use (configure ClsImage path args) = true ->
   piexif_installed env = false ->
   execute_by_path env path args modify_time target_timezone filters w
   = (Raise NotImplementedError, w))
  /\ (Extractable.use (configure ClsVideo path args) = true ->
      ffmpeg_installed env = false ->
      execute_by_path env path args modify_time target_timezone filters w
      = (Raise NotImplementedError, w)).
Proof.
  split.
  - intros Huse Hmodule. unfold execute_by_path, PARSERS.
    cbn [execute_loop]. rewrite Huse.
    unfold matches, get_creation_time, list_, Image.get_creation_time,
      Image.list_.
    cbn [configure construct Image.init Extractable.cls].
    rewrite Hmodule. cbn [negb].
    by destruct (filters_truthy filters).
  - intros Huse Hmodule. unfold execute_by_path, PARSERS.
    cbn [execute_loop]. rewrite (use_video_not_image _ _ Huse), Huse.
    rewrite bind_ret. cbv beta iota.
    unfold matches, get_creation_time, list_, Video.get_creation_time,
      Video.list_.
    cbn [configure construct Video.init Extractable.cls].
    rewrite Hmodule. cbn [negb].
    by destruct (filters_truthy filters).
Qed.

Lemma missing_module_raises_witness :
  execute_by_path
    (mkEnv false true 0 (fun _ => None) (fun _ _ => None))
    Example.img1 Example.args None None None Example.one_photo
  = (Raise NotImplementedError, Example.one_photo).
Proof.
  apply (proj1 (missing_module_raises
                  (mkEnv false true 0 (fun _ => None) (fun _ _ => None))
                  Example.img1 Example.args None None None
                  Example.one_photo));
    reflexivity.
Defined.

(** ** [Image.get_creation_time]: which tag decides *)

Lemma date_formats_loop_returns group exif_dict time_str :
  Image.date_formats_loop group exif_dict time_str Image.date_formats
  <> Ok None.
Proof.
  unfold Image.date_formats_loop, Image.date_formats.
  destruct (DateTime.strptime time_str _) as [dt|[]|];
    destruct (Image._get_time_zone group exif_dict) as [[tz|]|e|]; done.
Qed.

Lemma head_app {A} (l1 l2 : list A) :
  head (l1 ++ l2) = match head l1 with Some x => Some x | None => head l2 end.
Proof. by destruct l1. Qed.

Lemma date_keys_loop_absent group exif_dict keys :
  PyVal.lookup group exif_dict = None ->
  Image.date_keys_loop group exif_dict keys = Ok None.
Proof.
  intros Hgroup. induction keys as [|[label key] keys IH]; [done|].
  cbn [Image.date_keys_loop]. by rewrite Hgroup.
Qed.

Lemma date_keys_loop_first group exif_dict tags keys :
  PyVal.lookup group exif_dict = Some tags ->
  Image.date_keys_loop group exif_dict keys
  = match head (key ← keys;
                value ← option_list (PyVal.lookup key.2 tags);
                [(group, value)]) with
    | Some (g, value) =>
        Image.date_formats_loop g exif_dict value Image.date_formats
    | None => Ok None
    end.
Proof.
  intros Hgroup. induction keys as [|[label key] keys IH]; [done|].
  cbn [Image.date_keys_loop]. rewrite Hgroup, bind_cons, head_app.
  cbn [snd]. destruct (PyVal.lookup key tags) as [value|]; [|exact IH].
  simpl (option_list _). rewrite bind_cons, bind_nil. simpl (head _).
  pose proof (date_formats_loop_returns group exif_dict value) as Hret.
  destruct (Image.date_formats_loop group exif_dict value Image.date_formats)
    as [[dt|]|e|]; [reflexivity|done|reflexivity|reflexivity].
Qed.

Lemma date_groups_loop_first exif_dict groups :
  Image.date_groups_loop exif_dict groups
  = match head (group ← groups;
                tags ← option_list (PyVal.lookup group.1 exif_dict);
                key ← group.2;
                value ← option_list (PyVal.lookup key.2 tags);
                [(group.1, value)]) with
    | Some (g, value) =>
        Image.date_formats_loop g exif_dict value Image.date_formats
    | None => Ok None
    end.
Proof.
  induction groups as [|[group keys] groups IH]; [done|].
  cbn [Image.date_groups_loop]. rewrite bind_cons, head_app. cbn [fst snd].
  destruct (PyVal.lookup group exif_dict) as [tags|] eqn:Hgroup.
  - rewrite (date_keys_loop_first _ _ tags) by done.
    simpl (option_list _). rewrite bind_cons, bind_nil, app_nil_r.
    match goal with |- context [head (keys ≫= ?k)] =>
      destruct (head (keys ≫= k)) as [[g value]|] end; [|exact IH].
    pose proof (date_formats_loop_returns g exif_dict value) as Hret.
    destruct (Image.date_formats_loop g exif_dict value Image.date_formats)
      as [[dt|]|e|]; [reflexivity|done|reflexivity|reflexivity].
  - rewrite date_keys_loop_absent by done. exact IH.
Qed.

Lemma first_date_tag_group exif_dict group value :
  first_date_tag exif_dict = Some (group, value) ->
  exists tags, PyVal.lookup group exif_dict = Some tags.
Proof.
  intros H. apply head_Some_elem_of in H.
  apply list_elem_of_bind in H as (g & H & _).
  apply list_elem_of_bind in H as (tags & H & Htags).
  destruct (PyVal.lookup g.1 exif_dict) as [tags'|] eqn:Hgroup;
    [|by apply elem_of_nil in Htags].
  apply list_elem_of_bind in H as (key & H & _).
  apply list_elem_of_bind in H as (v & H & _).
  apply list_elem_of_singleton in H. injection H as -> _. by exists tags'.
Qed.

(** X11.  Which tag gives the date of an image.  [get_creation_time]
    looks at one tag only: the first one that the metadata has among
    DateTimeOriginal and DateTimeDigitized of the Exif group, GPSDateStamp
    of the GPS group, and DateTime of the 0th and of the 1st group, in
    this order.  When none is there it raises [LookupError].  When the
    value of that tag reads as year:month:day hour:minute:second, the
    result is this date, with the time zone that the same group gives,
    whatever the tags after it and the other groups hold. *)
Theorem creation_time_from_first_tag env self w f exif_dict :
  Extractable.cls self = ClsImage ->
  piexif_installed env = true ->
  fs w !! Extractable.path self = Some f ->
  meta f = ExifMeta exif_dict ->
  (first_date_tag exif_dict = None ->
   get_creation_time env self w = (Raise LookupError, w))
  /\ (forall group value dt,
        first_date_tag exif_dict = Some (group, value) ->
        DateTime.strptime value "%Y:%m:%d %H:%M:%S" = Ok dt ->
        get_creation_time env self w
        = (Ok match first_parsed_offset group exif_dict with
              | Some tz => DateTime.replace_tzinfo dt (Some tz)
              | None => dt
              end, w))
  /\ (forall group value,
        first_date_tag exif_dict = Some (group, value) ->
        get_creation_time env self w
        = (match Image.date_formats_loop group exif_dict value
                   Image.date_formats with
           | Ok (Some dt) => Ok dt
           | Ok None => Raise LookupError
           | Raise e => Raise e
           | Diverge => Diverge
           end, w)).
Proof.
  intros Hcls Hmodule Hfile Hmeta.
  assert (Hrun : get_creation_time env self w
                 = (match Image.date_groups_loop exif_dict Image.date_keys with
                    | Ok (Some dt) => Ok dt
                    | Ok None => Raise LookupError
                    | Raise e => Raise e
                    | Diverge => Diverge
                    end, w)).
  { unfold get_creation_time. rewrite Hcls.
    unfold Image.get_creation_time, Image.list_. rewrite Hmodule.
    cbn [negb]. unfold bind, Fs.read, lift, ret, throw.
    rewrite Hfile, Hmeta.
    by destruct (Image.date_groups_loop _ _) as [[dt|]| |]. }
  rewrite Hrun, date_groups_loop_first. fold (first_date_tag exif_dict).
  split; [by intros ->|]. split.
  - intros group value dt Htag Hdt. rewrite Htag.
    unfold Image.date_formats_loop, Image.date_formats. rewrite Hdt.
    destruct (first_date_tag_group _ _ _ Htag) as [tags Hgroup].
    rewrite (get_time_zone_spec _ _ tags) by done.
    by destruct (first_parsed_offset group exif_dict).
  - by intros group value ->.
Qed.

Lemma creation_time_from_first_tag_witness :
  get_creation_time Example.env
    (configure ClsImage Example.img1 Example.args) Example.one_photo
  = (Ok Example.taken, Example.one_photo)
  /\ get_creation_time Example.env
       (configure ClsImage Example.img1 Example.args) Example.undated
     = (Raise LookupError, Example.undated).
Proof.
  split.
  - apply (proj1 (proj2 (creation_time_from_first_tag Example.env
                           (configure ClsImage Example.img1 Example.args)
                           Example.one_photo Example.photo Example.exif
                           eq_refl eq_refl eq_refl eq_refl))
                 "Exif" "2023:05:01 10:00:00" Example.taken_naive);
      reflexivity.
  - apply (proj1 (creation_time_from_first_tag Example.env
                    (configure ClsImage Example.img1 Example.args)
                    Example.undated (mkFile 100 (ExifMeta [("Exif", [])]))
                    [("Exif", [])] eq_refl eq_refl eq_refl eq_refl)).
    reflexivity.
Defined.

(** ** Suffixes of names *)

Lemma rfind_tail_none (c : ascii) (s : string) :
  PyStr.contains c s = false -> PyStr.rfind_tail c s = None.
Proof.
  induction s as [|a s IH]; [done|]. simpl.
  intros [Ha Hs]%orb_false_iff. by rewrite IH, Ha.
Qed.

Lemma rfind_tail_stem_ext (stem ext : string) :
  PyStr.contains "." ext = false ->
  PyStr.rfind_tail "." (stem +:+ String "." ext) = Some (String "." ext).
Proof.
  intros Hext. induction stem as [|a stem IH].
  - rewrite append_nil_l. simpl. by rewrite rfind_tail_none.
  - rewrite append_cons. simpl. by rewrite IH.
Qed.

Lemma suffix_stem_ext (dir stem ext : string) :
  stem <> "" -> ext <> "" -> PyStr.contains "." ext = false ->
  PathLib.suffix (mkPath dir (stem +:+ String "." ext)) = String "." ext.
Proof.
  intros Hstem Hext Hdot. unfold PathLib.suffix. cbn [name].
  rewrite rfind_tail_stem_ext by done.
  rewrite length_append.
  destruct stem as [|a stem]; [done|]. destruct ext as [|b ext]; [done|].
  simpl String.length.
  rewrite (proj2 (Nat.ltb_lt _ _)) by lia.
  by rewrite (proj2 (Nat.ltb_lt _ _)) by lia.
Qed.

Lemma take_append (s t : string) :
  PyStr.take (String.length (s +:+ t) - String.length t) (s +:+ t) = s.
Proof.
  rewrite length_append.
  replace (String.length s + String.length t - String.length t)
    with (String.length s) by lia.
  induction s as [|a s IH]; [by destruct t|].
  rewrite append_cons. simpl. by rewrite IH.
Qed.

Lemma with_suffix_stem_ext (dir stem ext suf : string) :
  stem <> "" -> ext <> "" -> PyStr.contains "." ext = false ->
  PyStr.contains "/" suf = false ->
  String.prefix "." suf = true -> suf <> "." ->
  PathLib.with_suffix (mkPath dir (stem +:+ String "." ext)) suf
  = Ok (mkPath dir (stem +:+ suf)).
Proof.
  intros Hstem Hext Hdot Hslash Hprefix Hsuf. unfold PathLib.with_suffix.
  rewrite Hslash, Hprefix. cbn [negb orb].
  rewrite (proj2 (String.eqb_neq _ _) Hsuf), andb_false_r.
  rewrite suffix_stem_ext by done. cbn [name parent].
  destruct stem as [|a stem]; [done|].
  rewrite append_cons at 1. cbn [PyStr.truthy negb].
  by rewrite take_append.
Qed.

Lemma contains_append (c : ascii) (s t : string) :
  PyStr.contains c (s +:+ t) = PyStr.contains c s || PyStr.contains c t.
Proof.
  induction s as [|a s IH]; [done|]. rewrite append_cons. simpl.
  by rewrite IH, orb_assoc.
Qed.

(** Lowering the case neither makes nor removes a character that comes
    before the letters, such as the dot and the slash. *)
Lemma lower_ascii_low (a c : ascii) :
  nat_of_ascii c < 65 ->
  Ascii.eqb (PyStr.lower_ascii a) c = Ascii.eqb a c.
Proof.
  intros Hc. unfold PyStr.lower_ascii, PyStr.is_upper.
  destruct (_ && _)%nat eqn:E; [|done].
  apply andb_true_iff in E as [E1 E2]. apply Nat.leb_le in E1, E2.
  rewrite (proj2 (Ascii.eqb_neq a c)) by (intros ->; lia).
  apply Ascii.eqb_neq. intros H.
  apply (f_equal nat_of_ascii) in H.
  rewrite nat_ascii_embedding in H by lia. lia.
Qed.

Lemma lower_ascii_dot (a : ascii) :
  Ascii.eqb (PyStr.lower_ascii a) "." = Ascii.eqb a ".".
Proof. apply lower_ascii_low. vm_compute. lia. Qed.

Lemma contains_lower (c : ascii) (s : string) :
  nat_of_ascii c < 65 ->
  PyStr.contains c (PyStr.lower s) = PyStr.contains c s.
Proof.
  intros Hc. induction s as [|a s IH]; [done|]. simpl.
  by rewrite lower_ascii_low, IH.
Qed.

Lemma length_lower (s : string) :
  String.length (PyStr.lower s) = String.length s.
Proof. induction s as [|a s IH]; simpl; congruence. Qed.

Lemma rfind_tail_lower (s : string) :
  PyStr.rfind_tail "." (PyStr.lower s)
  = PyStr.lower <$> PyStr.rfind_tail "." s.
Proof.
  induction s as [|a s IH]; [done|]. simpl. rewrite IH.
  destruct (PyStr.rfind_tail "." s); [done|]. simpl.
  rewrite lower_ascii_dot. by destruct (Ascii.eqb a ".").
Qed.

Lemma suffix_lower (p : Path) :
  PathLib.suffix (mkPath (parent p) (PyStr.lower (name p)))
  = PyStr.lower (PathLib.suffix p).
Proof.
  unfold PathLib.suffix. cbn [name]. rewrite rfind_tail_lower.
  destruct (PyStr.rfind_tail "." (name p)) as [t|]; [|done]. simpl.
  rewrite !length_lower. by destruct (_ && _).
Qed.

(** ** [Extractable.use] *)

(** X12.  The extractors choose their files by the last suffix of the
    name, whatever its case.  Two names that differ in case only are used
    by the same extractors.  A name made of a non-empty stem, a dot and
    [jpg], [jpeg] or [png] in any mix of cases is used by the image
    extractor, one that ends in [mp4] in any mix of cases by the video
    extractor, and no name is used by both. *)
Theorem use_ignores_case :
  (forall self p q,
     PyStr.lower (name p) = PyStr.lower (name q) ->
     Extractable.use (at_path self p) = Extractable.use (at_path self q))
  /\ (forall dir stem ext args,
        stem <> "" ->
        PyStr.lower ext ∈ ["jpg"; "jpeg"; "png"] ->
        Extractable.use
          (configure ClsImage (mkPath dir (stem +:+ String "." ext)) args)
        = true)
  /\ (forall dir stem ext args,
        stem <> "" ->
        PyStr.lower ext = "mp4" ->
        Extractable.use
          (configure ClsVideo (mkPath dir (stem +:+ String "." ext)) args)
        = true)
  /\ (forall path args,
        Extractable.use (configure ClsImage path args) = true ->
        Extractable.use (configure ClsVideo path args) = false).
Proof.
  assert (Hcase : forall p,
            PyStr.lower (PathLib.suffix p)
            = PathLib.suffix (mkPath "" (PyStr.lower (name p)))).
  { intros p. rewrite <- suffix_lower. unfold PathLib.suffix. by cbn [name]. }
  assert (Hext : forall dir stem ext,
            stem <> "" -> ext <> "" ->
            PyStr.contains "." (PyStr.lower ext) = false ->
            PyStr.lower (PathLib.suffix (mkPath dir (stem +:+ String "." ext)))
            = String "." (PyStr.lower ext)).
  { intros dir stem ext Hstem Hne Hdot.
    rewrite suffix_stem_ext; [done|done|done|].
    clear -Hdot. induction ext as [|a ext IH]; [done|].
    simpl in *. apply orb_false_iff in Hdot as [Ha Hs].
    rewrite lower_ascii_dot in Ha. by rewrite Ha, IH. }
  split.
  { intros self p q Hpq. unfold Extractable.use, at_path.
    cbn [Extractable.path Extractable.extensions].
    by rewrite !Hcase, Hpq. }
  split.
  { intros dir stem ext args Hstem Hin. unfold Extractable.use.
    cbn [configure construct Image.init Extractable.path
         Extractable.extensions].
    apply bool_decide_eq_true.
    assert (Hcases : PyStr.lower ext = "jpg" \/ PyStr.lower ext = "jpeg"
                     \/ PyStr.lower ext = "png").
    { repeat (apply elem_of_cons in Hin as [Hin|Hin]; [by auto|]).
      by apply elem_of_nil in Hin. }
    assert (Hne : ext <> "").
    { intros ->. by destruct Hcases as [?|[?|?]]. }
    rewrite Hext; [|done|done|by destruct Hcases as [->|[->| ->]]].
    destruct Hcases as [->|[->| ->]]; apply (bool_decide_eq_true_1 _);
      reflexivity. }
  split.
  { intros dir stem ext args Hstem Hmp4. unfold Extractable.use.
    cbn [configure construct Video.init Extractable.path
         Extractable.extensions].
    apply bool_decide_eq_true.
    assert (Hne : ext <> "") by (by intros ->).
    rewrite Hext; [|done|done|by rewrite Hmp4]. rewrite Hmp4.
    apply (bool_decide_eq_true_1 _). reflexivity. }
  intros path args. apply use_image_not_video.
Qed.

Lemma use_ignores_case_witness :
  Extractable.use (at_path (Image.init Example.img1 Example.args)
                           (mkPath "photos" "img_0001.jpg"))
  = Extractable.use (at_path (Image.init Example.img1 Example.args)
                             Example.img1)
  /\ Extractable.use
       (configure ClsImage (mkPath "photos" ("IMG_0001" +:+ String "." "JPG"))
                  Example.args)
     = true.
Proof.
  destruct use_ignores_case as (Hcase & Himage & _).
  split.
  - apply Hcase. reflexivity.
  - apply Himage; [discriminate|].
    apply (bool_decide_eq_true_1 _). reflexivity.
Defined.

(** ** The names of the thumbnail step *)

(** X13.  The files of the thumbnail step.  For a video whose name is a
    non-empty stem, a dot and [mp4] in any mix of cases, the thumbnail is
    written to the stem followed by [.jpg] and the temporary file to the
    stem followed by [.output.] and the extension of the video, both in
    the directory of the video; the three paths are pairwise distinct. *)
Theorem thumbnail_step_names (dir stem ext : string) :
  stem <> "" ->
  PyStr.lower ext = "mp4" ->
  let video := mkPath dir (stem +:+ String "." ext) in
  let thumbnail := mkPath dir (stem +:+ ".jpg") in
  let tmp := mkPath dir (stem +:+ ".output." +:+ ext) in
  PathLib.with_suffix video ".jpg" = Ok thumbnail
  /\ PathLib.with_suffix video (".output" +:+ PathLib.suffix video) = Ok tmp
  /\ thumbnail <> video /\ tmp <> video /\ tmp <> thumbnail.
Proof.
  intros Hstem Hext video thumbnail tmp.
  assert (Hne : ext <> "") by (by intros ->).
  assert (Hdot : PyStr.contains "." ext = false).
  { rewrite <- (contains_lower "." ext), Hext; [done|vm_compute; lia]. }
  assert (Hslash : PyStr.contains "/" ext = false).
  { rewrite <- (contains_lower "/" ext), Hext; [done|vm_compute; lia]. }
  assert (Hlen : String.length ext = 3).
  { by rewrite <- length_lower, Hext. }
  split; [by apply with_suffix_stem_ext|]. split.
  { unfold video. rewrite suffix_stem_ext by done.
    rewrite with_suffix_stem_ext; [done|done|done|done| |done|done].
    change (".output" +:+ String "." ext) with (".output." +:+ ext).
    by rewrite contains_append, Hslash. }
  unfold video, thumbnail, tmp.
  split; [|split].
  - intros [= H]. apply String.app_inj in H. injection H as <-.
    discriminate Hext.
  - intros [= H]. apply (f_equal String.length) in H.
    rewrite !length_append in H. simpl in H. lia.
  - intros [= H]. apply (f_equal String.length) in H.
    rewrite !length_append in H. simpl in H. lia.
Qed.

Lemma thumbnail_step_names_witness :
  PathLib.with_suffix (mkPath "videos" ("VID_1" +:+ String "." "MP4")) ".jpg"
  = Ok (mkPath "videos" ("VID_1" +:+ ".jpg")).
Proof.
  apply (thumbnail_step_names "videos" "VID_1" "MP4"); [discriminate|].
  reflexivity.
Defined.

(** ** [rename]: the move of a file and a second run *)

(** An instance whose post-step does nothing: any but a video, and a
    video when thumbnails are skipped. *)
Lemma after_rename_plain env self status path dt dry :
  Extractable.cls self <> ClsVideo
  \/ args_video_thumbnail_skip_creation (Extractable.args self) = true ->
  after_rename env self status path dt dry = ret (UNCHANGED, Some path).
Proof.
  intros Hplain. unfold after_rename.
  destruct (Extractable.cls self) eqn:Hcls; try done.
  destruct Hplain as [|Hskip]; [done|].
  unfold Video.after_rename, Extractable.after_rename.
  rewrite bind_ret. cbv beta iota.
  destruct (decide (UNCHANGED = ERROR)); [done|].
  by rewrite Hskip.
Qed.

Lemma nth_target_candidate self dt m :
  nth_target self dt (candidate self dt 0) 2 m
  = candidate self dt (match m with 0 => 0 | S m' => 2 + m' end).
Proof. by destruct m. Qed.

(** The run of [rename] that moves the file: up to the post-step. *)
Lemma rename_to_first_free env self dt w k f :
  counter_ok k ->
  fs w !! Extractable.path self = Some f ->
  (forall j, counter_ok j -> j < k ->
     is_Some (fs w !! candidate self dt j)) ->
  (forall j, counter_ok j -> j <= k ->
     candidate self dt j <> Extractable.path self) ->
  fs w !! candidate self dt k = None ->
  rename env self dt false w
  = after_rename env self RENAMED (candidate self dt k) dt false
      (mkWorld (<[candidate self dt k := f]>
                  (delete (Extractable.path self) (fs w)))
               (ops w ++ [OpRename (Extractable.path self)
                                   (candidate self dt k) false])).
Proof.
  intros Hk Hfile Htaken Hne Hfree.
  rewrite rename_unfold.
  rewrite decide_False by (apply Hne; [by left|lia]).
  set (n := match k with 0 => 0 | S k' => k' end).
  assert (Hkn : k = match n with 0 => 0 | S n' => 2 + n' end).
  { unfold n. destruct Hk as [->|Hk]; [done|].
    destruct k as [|[|k]]; simpl; lia. }
  assert (Hbound : k <= size (fs w) + 2).
  { apply (taken_counters_bound self dt). intros j Hj1 Hj2.
    apply Htaken; [right; lia|done]. }
  rewrite (collision_loop_finds _ _ _ _ _ _ _ n).
  - rewrite nth_target_candidate, <- Hkn. cbn [negb].
    unfold bind, Fs.rename. rewrite Hfile.
    rewrite bool_decide_eq_false_2; [done|].
    rewrite Hfree. by intros [? ?].
  - unfold collision_fuel, n. destruct k; lia.
  - intros m Hm. rewrite nth_target_candidate. apply Htaken.
    + destruct m; [by left|right; lia].
    + rewrite Hkn. destruct m, n; lia.
  - by rewrite nth_target_candidate, <- Hkn.
  - intros m Hm. rewrite nth_target_candidate. apply Hne.
    + destruct m; [by left|right; lia].
    + rewrite Hkn. destruct m, n; lia.
Qed.

(** X14.  What a rename changes.  For a photo, and for a video when
    thumbnails are skipped, the run that is not dry moves the file to the
    first free candidate name and does nothing else: the file is found
    under the new name, with its size and metadata, the old name is gone,
    every other file is as before, and the one changing call is the
    rename.  The path returned is the new one. *)
Theorem rename_moves_one_file env self dt w k f :
  Extractable.cls self <> ClsVideo
  \/ args_video_thumbnail_skip_creation (Extractable.args self) = true ->
  counter_ok k ->
  fs w !! Extractable.path self = Some f ->
  (forall j, counter_ok j -> j < k ->
     is_Some (fs w !! candidate self dt j)) ->
  (forall j, counter_ok j -> j <= k ->
     candidate self dt j <> Extractable.path self) ->
  fs w !! candidate self dt k = None ->
  let target := candidate self dt k in
  let w' := snd (rename env self dt false w) in
  fst (rename env self dt false w) = Ok (UNCHANGED, Some target)
  /\ ops w' = ops w ++ [OpRename (Extractable.path self) target false]
  /\ fs w' !! target = Some f
  /\ fs w' !! Extractable.path self = None
  /\ forall p, p <> target -> p <> Extractable.path self ->
       fs w' !! p = fs w !! p.
Proof.
  intros Hplain Hk Hfile Htaken Hne Hfree target w'. unfold w'.
  rewrite (rename_to_first_free env self dt w k f) by done.
  rewrite after_rename_plain by done. fold target. cbn [ret fst snd fs ops].
  assert (target <> Extractable.path self) by (apply Hne; [done|lia]).
  split; [done|]. split; [done|].
  split; [by rewrite lookup_insert_eq|].
  split; [by rewrite lookup_insert_ne, lookup_delete_eq|].
  intros p Hp1 Hp2. by rewrite lookup_insert_ne, lookup_delete_ne.
Qed.

Lemma rename_moves_one_file_witness :
  fst (rename Example.env (configure ClsImage Example.img2 Example.args)
         Example.taken false Example.first_renamed)
  = Ok (UNCHANGED, Some Example.renamed2).
Proof.
  apply (rename_moves_one_file Example.env
           (configure ClsImage Example.img2 Example.args) Example.taken
           Example.first_renamed 2 Example.photo).
  - by left.
  - right. lia.
  - reflexivity.
  - intros j [->|Hj] Hlt; [|lia]. by exists Example.photo.
  - intros j [->|Hj] Hle; [discriminate|].
    replace j with 2 by lia. discriminate.
  - reflexivity.
Defined.

Lemma rename_plain_status env self dt dry w status p w' :
  Extractable.cls self <> ClsVideo
  \/ args_video_thumbnail_skip_creation (Extractable.args self) = true ->
  rename env self dt dry w = (Ok (status, p), w') ->
  status = UNCHANGED.
Proof.
  intros Hplain. rewrite rename_unfold.
  destruct (decide _).
  { rewrite after_rename_plain by done. by intros [= <- _ _]. }
  destruct (collision_loop _ _ _ _ _ _ w) as [[[t|]| |] w1]; try done.
  - destruct dry; cbn [negb].
    + rewrite after_rename_plain by done. by intros [= <- _ _].
    + unfold bind, Fs.rename.
      destruct (fs w1 !! Extractable.path self); [|done].
      rewrite after_rename_plain by done. by intros [= <- _ _].
  - rewrite after_rename_plain by done. by intros [= <- _ _].
Qed.

(** The way in which the collision loop leaves with a name. *)
Lemma collision_loop_inv fuel self dt path target_name i w t w' :
  collision_loop fuel self dt path target_name i w = (Ok (Some t), w') ->
  w' = w
  /\ exists n,
       t = nth_target self dt target_name i n
       /\ (forall m, m < n ->
             is_Some (fs w !! nth_target self dt target_name i m))
       /\ (forall m, 1 <= m <= n ->
             nth_target self dt target_name i m <> path)
       /\ fs w !! t = None.
Proof.
  revert target_name i. induction fuel as [|fuel IH]; intros target_name i;
    [done|].
  rewrite collision_loop_unfold.
  destruct (bool_decide (is_Some (fs w !! target_name))) eqn:Hex.
  - destruct (decide _) as [|Hne]; [done|].
    intros Hrest. apply IH in Hrest as (-> & n & -> & Htaken & Hnes & Hfree).
    split; [done|]. exists (S n).
    assert (Hshift : forall m,
               nth_target self dt
                 (Extractable.get_name self dt (Some i) None) (S i) m
               = nth_target self dt target_name i (S m)).
    { intros [|m]; simpl; [by rewrite Nat.add_0_r|].
      by replace (i + S m) with (S (i + m)) by lia. }
    rewrite Hshift in Hfree |- *. split; [done|]. split; [|split; [|done]].
    + intros [|m] Hm; [simpl; by apply bool_decide_eq_true in Hex|].
      rewrite <- Hshift. apply Htaken. lia.
    + intros [|m] Hm; [lia|]. rewrite <- Hshift.
      destruct m as [|m]; [exact Hne|].
      apply Hnes. lia.
  - intros [= <- <-]. split; [done|]. exists 0. simpl.
    split; [done|]. split; [intros m Hm; lia|]. split; [intros m Hm; lia|].
    apply bool_decide_eq_false in Hex. by apply eq_None_not_Some.
Qed.

(** The loop leaves by its [return] at the first target that is the
    current path, when the targets before it are taken. *)
Lemma collision_loop_reaches_path fuel self dt path target_name i w n :
  n < fuel ->
  (forall m, m <= n ->
     is_Some (fs w !! nth_target self dt target_name i m)) ->
  nth_target self dt target_name i (S n) = path ->
  collision_loop fuel self dt path target_name i w = (Ok None, w).
Proof.
  revert target_name i n.
  induction fuel as [|fuel IH]; intros target_name i n Hn Htaken Heq; [lia|].
  rewrite collision_loop_unfold.
  rewrite bool_decide_eq_true_2 by (apply (Htaken 0); lia).
  destruct (decide _) as [|Hne]; [done|].
  assert (Hshift : forall m,
             nth_target self dt
               (Extractable.get_name self dt (Some i) None) (S i) m
             = nth_target self dt target_name i (S m)).
  { intros [|m]; simpl; [by rewrite Nat.add_0_r|].
    by replace (i + S m) with (S (i + m)) by lia. }
  destruct n as [|n].
  { simpl in Heq. by rewrite Nat.add_0_r in Heq. }
  apply (IH _ _ n); [lia| |by rewrite Hshift].
  intros m Hm. rewrite Hshift. apply Htaken. lia.
Qed.

Lemma candidate_at_path self p dt j :
  Extractable.extensions self <> [] ->
  parent p = parent (Extractable.path self) ->
  candidate (at_path self p) dt j = candidate self dt j.
Proof.
  intros Hexts Hparent.
  unfold candidate, Extractable.get_name, Extractable.get_name_fmt, at_path.
  cbn [Extractable.path Extractable.prefix Extractable.suffix
       Extractable.time_format Extractable.extensions].
  rewrite Hparent. by destruct (Extractable.extensions self).
Qed.

Lemma at_path_same self : at_path self (Extractable.path self) = self.
Proof. by destruct self. Qed.

(** X15.  A second run changes nothing.  For a photo, and for a video
    when thumbnails are skipped, whatever the files are: when a run of
    [rename] that is not dry returns a path, a second run on that path
    returns the same path with [UNCHANGED] and leaves the files and the
    list of changing calls as the first run left them. *)
Theorem rename_twice env self dt w status p w' :
  Extractable.cls self <> ClsVideo
  \/ args_video_thumbnail_skip_creation (Extractable.args self) = true ->
  Extractable.extensions self <> [] ->
  rename env self dt false w = (Ok (status, Some p), w') ->
  rename env (at_path self p) dt false w' = (Ok (UNCHANGED, Some p), w').
Proof.
  intros Hplain Hexts Hfirst.
  assert (Hplain' : forall q,
            Extractable.cls (at_path self q) <> ClsVideo
            \/ args_video_thumbnail_skip_creation
                 (Extractable.args (at_path self q)) = true) by done.
  assert (Hsame : rename env self dt false w = (Ok (status, Some p), w') ->
                  p = Extractable.path self -> w' = w ->
                  rename env (at_path self p) dt false w'
                  = (Ok (UNCHANGED, Some p), w')).
  { intros Hrun -> ->. rewrite at_path_same, Hrun.
    by rewrite (rename_plain_status _ _ _ _ _ _ _ _ Hplain Hrun). }
  revert Hfirst. rewrite rename_unfold.
  destruct (decide (candidate self dt 0 = Extractable.path self)) as [Heq|Hne].
  { rewrite after_rename_plain by done. intros [= <- <- <-].
    apply Hsame; [|done|done].
    rewrite rename_unfold, decide_True by done.
    by rewrite after_rename_plain. }
  destruct (collision_loop _ _ _ _ _ _ w) as [[[t|]| |] w1] eqn:Hloop;
    try done.
  2:{ rewrite after_rename_plain by done. intros [= <- <- <-].
      destruct (collision_loop_result (collision_fuel w) self dt
                  (Extractable.path self) (candidate self dt 0) 2 w)
        as [Hw _].
      rewrite Hloop in Hw. simpl in Hw. subst w1.
      apply Hsame; [|done|done].
      rewrite rename_unfold, decide_False, Hloop by done.
      by rewrite after_rename_plain. }
  apply collision_loop_inv in Hloop
    as (-> & n & -> & Htaken & Hnes & Hfree).
  cbn [negb]. unfold bind, Fs.rename.
  destruct (fs w !! Extractable.path self) as [f|] eqn:Hfile; [|done].
  rewrite after_rename_plain by done. cbn [ret]. intros [= <- <- <-].
  set (t := nth_target self dt (candidate self dt 0) 2 n) in *.
  assert (Hparent : parent t = parent (Extractable.path self)).
  { unfold t. by destruct n. }
  set (w' := mkWorld _ _).
  assert (Hcand : forall j, candidate (at_path self t) dt j
                            = candidate self dt j).
  { intros j. by apply candidate_at_path. }
  assert (Hnth : forall m,
            nth_target (at_path self t) dt (candidate (at_path self t) dt 0)
                       2 m
            = nth_target self dt (candidate self dt 0) 2 m).
  { intros m. by rewrite !nth_target_candidate, Hcand. }
  assert (Hstill : forall m, m < n ->
            is_Some (fs w' !! nth_target self dt (candidate self dt 0) 2 m)).
  { intros m Hm. unfold w'. cbn [fs].
    destruct (decide (nth_target self dt (candidate self dt 0) 2 m = t))
      as [->|Hmt]; [by rewrite lookup_insert_eq|].
    rewrite lookup_insert_ne by done.
    rewrite lookup_delete_ne; [by apply Htaken|].
    destruct m as [|m]; [simpl; congruence|]. intros Hp. symmetry in Hp.
    revert Hp. apply Hnes. lia. }
  rewrite rename_unfold. cbn [Extractable.path at_path].
  rewrite after_rename_plain by done.
  destruct (decide (candidate (at_path self t) dt 0 = t)) as [|Hne0];
    [done|].
  destruct n as [|n]; [by rewrite Hcand in Hne0|].
  assert (Hbound : S n <= size (fs w') + 1).
  { pose proof (taken_counters_bound self dt (fs w') (2 + n)) as Hb.
    assert (2 + n <= size (fs w') + 2); [|lia].
    apply Hb. intros j Hj1 Hj2.
    replace j with (2 + (j - 2)) by lia.
    rewrite <- (nth_target_candidate self dt (S (j - 2))).
    apply Hstill. lia. }
  rewrite (collision_loop_reaches_path _ _ _ _ _ _ _ n).
  - reflexivity.
  - unfold collision_fuel. lia.
  - intros m Hm. rewrite Hnth. apply Hstill. lia.
  - by rewrite Hnth.
Qed.

Lemma rename_twice_witness :
  rename Example.env
    (at_path (configure ClsImage Example.img1 Example.args) Example.renamed1)
    Example.taken false Example.one_photo_renamed
  = (Ok (UNCHANGED, Some Example.renamed1), Example.one_photo_renamed).
Proof.
  apply (rename_twice Example.env
           (configure ClsImage Example.img1 Example.args) Example.taken
           Example.one_photo UNCHANGED).
  - by left.
  - discriminate.
  - vm_compute. reflexivity.
Defined.

(** ** [Video]: the creation time, and a failing [ffmpeg] *)

(** X16.  The errors of [Video.get_creation_time].  Of the errors that
    reading [tags["streams"][0]["tags"]["creation_time"]] can raise, only
    [KeyError] is turned into [LookupError]; any other passes as it is.
    So a probe result whose list of streams is empty raises [IndexError].
    When the tag is there, the result is what [strptime] makes of it under
    the one format year-month-dayThour:minute:second.fraction and
    offset. *)
Theorem video_creation_time_errors env self w f tags :
  Extractable.cls self = ClsVideo ->
  ffmpeg_installed env = true ->
  fs w !! Extractable.path self = Some f ->
  meta f = ProbeMeta tags ->
  (forall e,
     Video.stream_creation_time tags = Raise e ->
     get_creation_time env self w
     = (Raise (if decide (e = KeyError) then LookupError else e), w))
  /\ (PyVal.lookup (KStr "streams") tags = Some (VList []) ->
      get_creation_time env self w = (Raise IndexError, w))
  /\ (forall iso_time,
        Video.stream_creation_time tags = Ok (VStr iso_time) ->
        get_creation_time env self w
        = (DateTime.strptime iso_time "%Y-%m-%dT%H:%M:%S.%f%z", w)).
Proof.
  intros Hcls Hmodule Hfile Hmeta.
  assert (Hrun : get_creation_time env self w
                 = bind (try_except (lift (Video.stream_creation_time tags))
                                    KeyError (throw LookupError))
                        (fun iso_time =>
                           match iso_time with
                           | VStr s =>
                               lift (DateTime.strptime s
                                       "%Y-%m-%dT%H:%M:%S.%f%z")
                           | _ => throw TypeError
                           end) w).
  { unfold get_creation_time. rewrite Hcls.
    unfold Video.get_creation_time, Video.list_. rewrite Hmodule.
    cbn [negb]. unfold bind at 1 2. unfold Fs.read. rewrite Hfile.
    cbv beta iota. by rewrite Hmeta. }
  rewrite Hrun. unfold bind, try_except, lift, throw.
  split; [|split].
  - intros e ->. by destruct (decide (e = KeyError)).
  - intros Hstreams. unfold Video.stream_creation_time, PyVal.getitem.
    by rewrite Hstreams.
  - by intros iso_time ->.
Qed.

Lemma video_creation_time_errors_witness :
  get_creation_time Example.env
    (configure ClsVideo Example.untagged_clip Example.args) Example.batch
  = (Raise LookupError, Example.batch)
  /\ get_creation_time Example.env
       (configure ClsVideo Example.holiday_clip Example.args)
       Example.holiday_before
     = (Ok Example.shot, Example.holiday_before).
Proof.
  split.
  - apply (proj1 (video_creation_time_errors Example.env
                    (configure ClsVideo Example.untagged_clip Example.args)
                    Example.batch Example.untagged_video
                    Example.probe_without_tag
                    eq_refl eq_refl eq_refl eq_refl) KeyError).
    reflexivity.
  - rewrite (proj2 (proj2 (video_creation_time_errors Example.env
                      (configure ClsVideo Example.holiday_clip Example.args)
                      Example.holiday_before Example.holiday_video
                      Example.holiday_probe
                      eq_refl eq_refl eq_refl eq_refl))
               "2023-05-01T08:00:00.000000Z") by reflexivity.
    reflexivity.
Defined.

Lemma thumbnail_fails env self status new_path dt w video tmp_path
    thumbnail_path :
  Extractable.cls self = ClsVideo ->
  args_video_thumbnail_skip_creation (Extractable.args self) = false ->
  fs w !! new_path = Some video ->
  PathLib.with_suffix new_path ".jpg" = Ok thumbnail_path ->
  PathLib.with_suffix new_path (".output" +:+ PathLib.suffix new_path)
  = Ok tmp_path ->
  thumbnail_path <> new_path ->
  after_rename env self status new_path dt false w
  = match ffmpeg_thumbnail env video with
    | None => (Ok (ERROR, Some new_path), w)
    | Some thumbnail =>
        match ffmpeg_attach env video thumbnail with
        | None =>
            (Ok (ERROR, Some new_path),
             mkWorld (<[thumbnail_path := thumbnail]> (fs w))
                     (ops w ++ [OpWrite thumbnail_path]))
        | Some output =>
            after_rename env self status new_path dt false w
        end
    end.
Proof.
  intros Hcls Hskip Hvideo Hjpg Htmp Hne.
  destruct (ffmpeg_thumbnail env video) as [thumbnail|] eqn:Hthumb.
  - destruct (ffmpeg_attach env video thumbnail) as [output|] eqn:Hattach;
      [done|].
    unfold after_rename. rewrite Hcls.
    unfold Video.after_rename, Extractable.after_rename.
    rewrite bind_ret. cbv beta iota.
    destruct (decide (UNCHANGED = ERROR)); [done|].
    rewrite Hskip. cbn [negb]. rewrite Htmp.
    unfold Video.make_thumbnail. rewrite Hjpg.
    unfold bind, lift, ret, throw, try_except, Fs.read, Fs.write.
    assert (new_path <> thumbnail_path) by done.
    fs_steps. rewrite Hthumb. fs_steps. rewrite Hattach. fs_steps.
    by destruct (decide (FfmpegError = FfmpegError)).
  - unfold after_rename. rewrite Hcls.
    unfold Video.after_rename, Extractable.after_rename.
    rewrite bind_ret. cbv beta iota.
    destruct (decide (UNCHANGED = ERROR)); [done|].
    rewrite Hskip. cbn [negb]. rewrite Htmp.
    unfold Video.make_thumbnail. rewrite Hjpg.
    unfold bind, lift, ret, throw, try_except, Fs.read.
    fs_steps. rewrite Hthumb. fs_steps.
    by destruct (decide (FfmpegError = FfmpegError)).
Qed.

(** X17.  A video whose thumbnail step fails.  In a run that is not dry
    and makes thumbnails, the video is moved to its target name first.
    When [ffmpeg] then fails to cut the thumbnail, [rename] returns
    [ERROR] with the new path and the move is all that has happened; when
    it fails to attach the thumbnail, the thumbnail that was written is
    left next to the video. *)
Theorem failed_thumbnail_keeps_the_move env self dt w k video
    thumbnail_path tmp_path :
  Extractable.cls self = ClsVideo ->
  args_video_thumbnail_skip_creation (Extractable.args self) = false ->
  counter_ok k ->
  fs w !! Extractable.path self = Some video ->
  (forall j, counter_ok j -> j < k ->
     is_Some (fs w !! candidate self dt j)) ->
  (forall j, counter_ok j -> j <= k ->
     candidate self dt j <> Extractable.path self) ->
  fs w !! candidate self dt k = None ->
  PathLib.with_suffix (candidate self dt k) ".jpg" = Ok thumbnail_path ->
  PathLib.with_suffix (candidate self dt k)
    (".output" +:+ PathLib.suffix (candidate self dt k))
  = Ok tmp_path ->
  thumbnail_path <> candidate self dt k ->
  let target := candidate self dt k in
  let moved :=
    mkWorld (<[target := video]> (delete (Extractable.path self) (fs w)))
            (ops w ++ [OpRename (Extractable.path self) target false]) in
  (ffmpeg_thumbnail env video = None ->
   rename env self dt false w = (Ok (ERROR, Some target), moved))
  /\ (forall thumbnail,
        ffmpeg_thumbnail env video = Some thumbnail ->
        ffmpeg_attach env video thumbnail = None ->
        rename env self dt false w
        = (Ok (ERROR, Some target),
           mkWorld (<[thumbnail_path := thumbnail]> (fs moved))
                   (ops moved ++ [OpWrite thumbnail_path]))).
Proof.
  intros Hcls Hskip Hk Hfile Htaken Hne Hfree Hjpg Htmp Hthumb target moved.
  rewrite (rename_to_first_free env self dt w k video) by done.
  fold target moved.
  rewrite (thumbnail_fails env self RENAMED target dt moved video tmp_path
             thumbnail_path); try done.
  2:{ unfold moved. cbn [fs]. by rewrite lookup_insert_eq. }
  split.
  - by intros ->.
  - by intros thumbnail -> ->.
Qed.

Lemma failed_thumbnail_keeps_the_move_witness :
  rename Example.env_ffmpeg_fails
    (configure ClsVideo Example.holiday_clip Example.args) Example.shot false
    Example.holiday_before
  = (Ok (ERROR, Some Example.holiday_target),
     mkWorld (<[Example.holiday_target := Example.holiday_video]>
                (delete Example.holiday_clip (fs Example.holiday_before)))
             (ops Example.holiday_before
              ++ [OpRename Example.holiday_clip Example.holiday_target
                           false])).
Proof.
  apply (proj1 (failed_thumbnail_keeps_the_move Example.env_ffmpeg_fails
                  (configure ClsVideo Example.holiday_clip Example.args)
                  Example.shot Example.holiday_before 0 Example.holiday_video
                  Example.holiday_thumbnail Example.holiday_tmp
                  eq_refl eq_refl (or_introl eq_refl) eq_refl
                  ltac:(intros j _ Hj; lia)
                  ltac:(intros j _ Hj; replace j with 0 by lia; discriminate)
                  eq_refl eq_refl eq_refl ltac:(discriminate))).
  reflexivity.
Defined.

(** ** The calendar *)

Section Calendar.
Import DateTime.
Local Open Scope Z_scope.

Lemma is_leap_spec y :
  is_leap y = true <-> (y mod 4 = 0 /\ (y mod 100 <> 0 \/ y mod 400 = 0)).
Proof.
  unfold is_leap.
  rewrite andb_true_iff, orb_true_iff, negb_true_iff.
  rewrite !Z.eqb_eq, Z.eqb_neq. tauto.
Qed.

(** The year that follows [a] cycles of 400 years, [b] centuries, [c]
    cycles of four years and [e] years. *)
Lemma is_leap_split a b c e :
  0 <= b <= 3 -> 0 <= c <= 24 -> 0 <= e <= 3 ->
  is_leap (a * 400 + 1 + b * 100 + c * 4 + e)
  = (e =? 3) && (negb (c =? 24) || (b =? 3)).
Proof.
  intros Hb Hc He. unfold is_leap.
  replace (a * 400 + 1 + b * 100 + c * 4 + e)
    with (e + 1 + (a * 100 + b * 25 + c) * 4) at 1 by ring.
  replace (a * 400 + 1 + b * 100 + c * 4 + e)
    with (c * 4 + e + 1 + (a * 4 + b) * 100) at 1 by ring.
  replace (a * 400 + 1 + b * 100 + c * 4 + e)
    with (b * 100 + c * 4 + e + 1 + a * 400) by ring.
  rewrite !Z_mod_plus_full.
  apply eq_true_iff_eq.
  rewrite !andb_true_iff, !orb_true_iff, !negb_true_iff.
  rewrite !Z.eqb_eq, !Z.eqb_neq.
  Z.div_mod_to_equations. lia.
Qed.

Lemma days_before_year_split a b c e :
  0 <= b <= 3 -> 0 <= c <= 24 -> 0 <= e <= 3 ->
  days_before_year (a * 400 + 1 + b * 100 + c * 4 + e)
  = 146097 * a + 36524 * b + 1461 * c + 365 * e.
Proof.
  intros Hb Hc He. unfold days_before_year.
  replace (a * 400 + 1 + b * 100 + c * 4 + e - 1)
    with (e + (a * 100 + b * 25 + c) * 4) at 2 by ring.
  replace (a * 400 + 1 + b * 100 + c * 4 + e - 1)
    with (c * 4 + e + (a * 4 + b) * 100) at 2 by ring.
  replace (a * 400 + 1 + b * 100 + c * 4 + e - 1)
    with (b * 100 + c * 4 + e + a * 400) at 2 by ring.
  rewrite !Z.div_add by lia.
  Z.div_mod_to_equations. lia.
Qed.

Lemma ord2ymd_ok n :
  1 <= n <= MAXORDINAL ->
  exists y m d, ord2ymd n = (y, m, d) /\ valid_date y m d /\ ymd2ord y m d = n.
Proof.
  intros Hn. unfold MAXORDINAL in Hn. unfold ord2ymd.
  unfold DI400Y, DI100Y, DI4Y.
  set (n0 := n - 1).
  set (q400 := n0 / 146097). set (r400 := n0 mod 146097).
  set (q100 := r400 / 36524). set (r100 := r400 mod 36524).
  set (q4 := r100 / 1461). set (r4 := r100 mod 1461).
  set (q1 := r4 / 365). set (r1 := r4 mod 365).
  assert (H400 : n0 = 146097 * q400 + r400 /\ 0 <= r400 < 146097).
  { unfold q400, r400.
    split; [apply Z.div_mod; lia|apply Z.mod_pos_bound; lia]. }
  assert (H100 : r400 = 36524 * q100 + r100 /\ 0 <= r100 < 36524).
  { unfold q100, r100.
    split; [apply Z.div_mod; lia|apply Z.mod_pos_bound; lia]. }
  assert (H4 : r100 = 1461 * q4 + r4 /\ 0 <= r4 < 1461).
  { unfold q4, r4. split; [apply Z.div_mod; lia|apply Z.mod_pos_bound; lia]. }
  assert (H1 : r4 = 365 * q1 + r1 /\ 0 <= r1 < 365).
  { unfold q1, r1. split; [apply Z.div_mod; lia|apply Z.mod_pos_bound; lia]. }
  assert (Hn0 : 0 <= n0 < 3652059 /\ n = n0 + 1) by (unfold n0; lia).
  clearbody q400 r400 q100 r100 q4 r4 q1 r1 n0.
  assert (0 <= q400 <= 24) by lia.
  assert (0 <= q100 <= 4) by lia.
  assert (0 <= q4 <= 24) by lia.
  assert (0 <= q1 <= 4) by lia.
  set (y := q400 * 400 + 1 + q100 * 100 + q4 * 4 + q1).
  destruct ((q1 =? 4) || (q100 =? 4)) eqn:Hedge.
  - exists (y - 1), 12, 31. split; [done|].
    apply orb_true_iff in Hedge.
    rewrite !Z.eqb_eq in Hedge.
    assert (Hleap : is_leap (y - 1) = true).
    { apply is_leap_spec. unfold y. destruct Hedge as [-> | ->].
      - assert (q4 <= 23) by lia.
        split; [|left]; Z.div_mod_to_equations; lia. 
      - assert (r100 = 0) by lia. assert (q4 = 0) by lia.
        assert (q1 = 0) by lia. subst.
        split; [|right]; Z.div_mod_to_equations; lia. }
    unfold valid_date, ymd2ord, days_in_month, days_before_month,
      days_before_year.
    rewrite Hleap. simpl DAYS_IN_MONTH. simpl DAYS_BEFORE_MONTH.
    change (12 =? 2) with false. change (2 <? 12) with true.
    cbn [andb]. unfold y. destruct Hedge as [-> | ->].
    + assert (q4 <= 23) by lia.
      repeat split; try lia; Z.div_mod_to_equations; lia.
    + assert (r100 = 0) by lia. assert (q4 = 0) by lia.
      assert (q1 = 0) by lia. subst.
      repeat split; try lia; Z.div_mod_to_equations; lia.
  - apply orb_false_iff in Hedge as [Hq1 Hq100].
    apply Z.eqb_neq in Hq1, Hq100.
    assert (Hdby : days_before_year y
                   = 146097 * q400 + 36524 * q100 + 1461 * q4 + 365 * q1).
    { apply days_before_year_split; lia. }
    set (leapyear := (q1 =? 3) && (negb (q4 =? 24) || (q100 =? 3))).
    assert (Hleap : is_leap y = leapyear).
    { apply is_leap_split; lia. }
    clearbody leapyear.
    rewrite Z.shiftr_div_pow2 by lia. change (2 ^ 5) with 32.
    remember ((r1 + 50) / 32) as m0 eqn:Hm0.
    assert (Hm0' : 32 * m0 <= r1 + 50 < 32 * m0 + 32).
    { subst m0. Z.div_mod_to_equations. lia. }
    clear Hm0.
    assert (Hcases : m0 = 1 \/ m0 = 2 \/ m0 = 3 \/ m0 = 4 \/ m0 = 5 \/ m0 = 6
                     \/ m0 = 7 \/ m0 = 8 \/ m0 = 9 \/ m0 = 10 \/ m0 = 11
                     \/ m0 = 12) by lia.
    remember (m0 - 1) as m1 eqn:Hm1.
    repeat (destruct Hcases as [->|Hcases]); try subst m0;
      vm_compute in Hm1; subst m1;
      destruct leapyear; cbn;
      match goal with
      | |- context [r1 <? ?c] => destruct (Z.ltb_spec r1 c)
      | _ => idtac
      end;
      eexists _, _, _; (split; [reflexivity|]);
      unfold valid_date, ymd2ord, days_in_month, days_before_month;
      rewrite Hdby, Hleap; cbn; lia.
Qed.

Lemma days_before_year_succ y :
  days_before_year (y + 1)
  = days_before_year y + 365 + (if is_leap y then 1 else 0).
Proof.
  unfold days_before_year.
  replace (y + 1 - 1) with y by lia.
  destruct (is_leap y) eqn:Hleap.
  - apply is_leap_spec in Hleap. Z.div_mod_to_equations. lia.
  - assert (Hn : ~ (y mod 4 = 0 /\ (y mod 100 <> 0 \/ y mod 400 = 0))).
    { rewrite <- is_leap_spec. by rewrite Hleap. }
    Z.div_mod_to_equations. lia.
Qed.

Lemma days_before_year_mono y y' :
  y <= y' -> days_before_year y <= days_before_year y'.
Proof.
  intros Hle. replace y' with (y + (y' - y)) by lia.
  assert (Hk : 0 <= y' - y) by lia. revert Hk.
  generalize (y' - y). clear y' Hle.
  apply natlike_ind; [by rewrite Z.add_0_r|].
  intros k Hk IH. replace (y + Z.succ k) with (y + k + 1) by lia.
  rewrite days_before_year_succ. destruct (is_leap (y + k)); lia.
Qed.

Lemma month_cases m :
  1 <= m <= 12 ->
  m = 1 \/ m = 2 \/ m = 3 \/ m = 4 \/ m = 5 \/ m = 6 \/ m = 7 \/ m = 8
  \/ m = 9 \/ m = 10 \/ m = 11 \/ m = 12.
Proof. lia. Qed.

(** One case for each month. *)
Ltac by_month m Hm :=
  let H := fresh "Hcase" in
  pose proof (month_cases m Hm) as H;
  repeat (destruct H as [H|H]; [subst m|]); [..|subst m].

(** The days of a valid date within its year. *)
Lemma day_of_year_bound y m d :
  valid_date y m d ->
  1 <= days_before_month y m + d <= 365 + (if is_leap y then 1 else 0).
Proof.
  intros (_ & Hm & Hd). unfold days_before_month, days_in_month in *.
  by_month m Hm; destruct (is_leap y); cbn in *; lia.
Qed.

Lemma month_start_mono y m m' :
  1 <= m -> m < m' -> m' <= 12 ->
  days_before_month y m + days_in_month y m <= days_before_month y m'.
Proof.
  intros H1 H2 H3. unfold days_before_month, days_in_month.
  assert (Hm : 1 <= m <= 12) by lia. assert (Hm' : 1 <= m' <= 12) by lia.
  by_month m Hm; by_month m' Hm'; try lia; destruct (is_leap y); cbn; lia.
Qed.

Lemma ymd2ord_inj y m d y' m' d' :
  valid_date y m d -> valid_date y' m' d' ->
  ymd2ord y m d = ymd2ord y' m' d' ->
  y = y' /\ m = m' /\ d = d'.
Proof.
  intros Hv Hv' Heq. unfold ymd2ord in Heq.
  pose proof (day_of_year_bound _ _ _ Hv) as Hb.
  pose proof (day_of_year_bound _ _ _ Hv') as Hb'.
  assert (Hy : y = y').
  { destruct (Z.lt_trichotomy y y') as [Hlt|[?|Hlt]]; [|done|]; exfalso.
    - pose proof (days_before_year_mono (y + 1) y' ltac:(lia)) as Hmono.
      rewrite days_before_year_succ in Hmono. lia.
    - pose proof (days_before_year_mono (y' + 1) y ltac:(lia)) as Hmono.
      rewrite days_before_year_succ in Hmono. lia. }
  subst y'. split; [done|].
  destruct Hv as (_ & Hm & Hd), Hv' as (_ & Hm' & Hd').
  assert (Hmm : m = m').
  { destruct (Z.lt_trichotomy m m') as [Hlt|[?|Hlt]]; [|done|]; exfalso.
    - pose proof (month_start_mono y m m' ltac:(lia) Hlt ltac:(lia)). lia.
    - pose proof (month_start_mono y m' m ltac:(lia) Hlt ltac:(lia)). lia. }
  subst m'. split; [done|lia].
Qed.

Lemma ymd2ord_range y m d :
  valid_date y m d -> 1 <= ymd2ord y m d <= MAXORDINAL.
Proof.
  intros Hv. pose proof (day_of_year_bound _ _ _ Hv) as Hb.
  destruct Hv as (Hy & _ & _). unfold ymd2ord.
  pose proof (days_before_year_mono 1 y ltac:(lia)) as Hlow.
  pose proof (days_before_year_mono (y + 1) 10000 ltac:(lia)) as Hhigh.
  rewrite days_before_year_succ in Hhigh.
  change (days_before_year 1) with 0 in Hlow.
  change (days_before_year 10000) with 3652059 in Hhigh.
  unfold MAXORDINAL. lia.
Qed.

Lemma ord2ymd_ymd2ord y m d :
  valid_date y m d -> ord2ymd (ymd2ord y m d) = (y, m, d).
Proof.
  intros Hv.
  destruct (ord2ymd_ok _ (ymd2ord_range _ _ _ Hv))
    as (y' & m' & d' & Hord & Hv' & Heq).
  destruct (ymd2ord_inj _ _ _ _ _ _ Hv' Hv Heq) as (-> & -> & ->).
  exact Hord.
Qed.

End Calendar.

(** ** Shifting and converting a time *)

Section Clock.
Import DateTime.
Local Open Scope Z_scope.

Lemma valid_representable dt :
  valid_datetime dt -> representable (clock_seconds dt).
Proof.
  intros (Hdate & Hh & Hm & Hs).
  pose proof (ymd2ord_range _ _ _ Hdate) as Hord.
  unfold representable, clock_seconds, day_seconds, MAXORDINAL in *. lia.
Qed.

(** The time of the day that a number of seconds since midnight is. *)
Lemma day_seconds_split h m s :
  0 <= h <= 23 -> 0 <= m <= 59 -> 0 <= s <= 59 ->
  let rem := h * 3600 + m * 60 + s in
  rem / 3600 = h /\ rem mod 3600 / 60 = m /\ rem mod 60 = s.
Proof.
  intros Hh Hm Hs rem. unfold rem.
  assert (H1 : (h * 3600 + m * 60 + s) / 3600 = h).
  { symmetry. apply (Z.div_unique _ _ _ (m * 60 + s)); lia. }
  assert (H2 : (h * 3600 + m * 60 + s) mod 3600 = m * 60 + s).
  { symmetry. apply (Z.mod_unique _ _ h); lia. }
  split; [done|]. rewrite H2. split.
  - symmetry. apply (Z.div_unique _ _ _ s); lia.
  - symmetry. apply (Z.mod_unique _ _ (h * 60 + m)); lia.
Qed.

Lemma add_seconds_spec dt s r :
  add_seconds dt s = Ok r
  <-> valid_datetime r
      /\ clock_seconds r = clock_seconds dt + s
      /\ microsecond r = microsecond dt
      /\ tzinfo r = tzinfo dt.
Proof.
  unfold add_seconds. fold (day_seconds dt).
  change (ymd2ord (year dt) (month dt) (day dt) * 86400 + day_seconds dt)
    with (clock_seconds dt).
  set (total := clock_seconds dt + s).
  pose proof (Z.div_mod total 86400 ltac:(lia)) as Hdm.
  pose proof (Z.mod_pos_bound total 86400 ltac:(lia)) as Hrem.
  set (days := total / 86400) in *. set (rem := total mod 86400) in *.
  split.
  - destruct ((0 <? days) && (days <=? MAXORDINAL)) eqn:Hrange; [|done].
    apply andb_true_iff in Hrange as [Hlow Hhigh].
    apply Z.ltb_lt in Hlow. apply Z.leb_le in Hhigh.
    destruct (ord2ymd_ok days ltac:(lia)) as (y & m & d & -> & Hv & Hord).
    intros [= <-]. unfold valid_datetime, clock_seconds, day_seconds.
    cbn [year month day hour minute second microsecond tzinfo].
    rewrite Hord. clearbody days rem.
    split; [|split; [|done]].
    + split; [done|]. Z.div_mod_to_equations. lia.
    + Z.div_mod_to_equations. lia.
  - intros ((Hdate & Hh & Hm & Hs) & Hclock & Hus & Htz).
    pose proof (ymd2ord_range _ _ _ Hdate) as Hord.
    unfold clock_seconds at 1 in Hclock. unfold day_seconds in Hclock.
    fold total in Hclock.
    assert (Hdays : days = ymd2ord (year r) (month r) (day r)).
    { unfold days. symmetry.
      apply (Z.div_unique _ _ _
               (hour r * 3600 + minute r * 60 + second r)); lia. }
    assert (Hrem' : rem = hour r * 3600 + minute r * 60 + second r).
    { unfold rem. symmetry.
      apply (Z.mod_unique _ _ (ymd2ord (year r) (month r) (day r))); lia. }
    rewrite (proj2 (andb_true_iff _ _)).
    2:{ split; [apply Z.ltb_lt|apply Z.leb_le]; lia. }
    rewrite Hdays, ord2ymd_ymd2ord by done.
    destruct (day_seconds_split _ _ _ Hh Hm Hs) as (H1 & H2 & H3).
    rewrite Hrem', H1, H2, H3, <- Hus, <- Htz. by destruct r.
Qed.

Lemma add_seconds_total dt s :
  representable (clock_seconds dt + s) ->
  exists r, add_seconds dt s = Ok r.
Proof.
  intros Hrep. unfold add_seconds. fold (day_seconds dt).
  change (ymd2ord (year dt) (month dt) (day dt) * 86400 + day_seconds dt)
    with (clock_seconds dt).
  unfold representable, MAXORDINAL in Hrep.
  rewrite (proj2 (andb_true_iff _ _)).
  - destruct (ord2ymd _) as [[y m] d]. by eexists.
  - unfold MAXORDINAL.
    split; [apply Z.ltb_lt|apply Z.leb_le]; Z.div_mod_to_equations; lia.
Qed.

Lemma add_seconds_overflow dt s :
  ~ representable (clock_seconds dt + s) ->
  add_seconds dt s = Raise OverflowError.
Proof.
  intros Hrep. unfold add_seconds. fold (day_seconds dt).
  change (ymd2ord (year dt) (month dt) (day dt) * 86400 + day_seconds dt)
    with (clock_seconds dt).
  destruct (_ && _) eqn:Hrange; [|done]. exfalso. apply Hrep.
  apply andb_true_iff in Hrange as [Hlow Hhigh].
  apply Z.ltb_lt in Hlow. apply Z.leb_le in Hhigh.
  unfold representable, MAXORDINAL in *. Z.div_mod_to_equations. lia.
Qed.

(** Two valid times with the same clock value, microsecond and time zone
    are the same. *)
Lemma clock_seconds_inj dt dt' :
  valid_datetime dt -> valid_datetime dt' ->
  clock_seconds dt = clock_seconds dt' ->
  microsecond dt = microsecond dt' -> tzinfo dt = tzinfo dt' ->
  dt = dt'.
Proof.
  intros Hv Hv' Hc Hus Htz.
  assert (Hadd : add_seconds dt 0 = Ok dt).
  { apply add_seconds_spec. repeat split; try apply Hv. lia. }
  assert (Hadd' : add_seconds dt 0 = Ok dt').
  { apply add_seconds_spec. repeat split; try apply Hv'; try done. lia. }
  rewrite Hadd in Hadd'. by injection Hadd'.
Qed.

(** [dt + delta]: the one valid time whose clock value is later by the
    seconds of [delta]. *)
Lemma add_spec dt delta :
  (forall r,
     DateTime.add dt delta = Ok r
     <-> valid_datetime r
         /\ clock_seconds r = clock_seconds dt + total_seconds delta
         /\ microsecond r = microsecond dt
         /\ tzinfo r = tzinfo dt)
  /\ (representable (clock_seconds dt + total_seconds delta)
      <-> exists r, DateTime.add dt delta = Ok r)
  /\ (~ representable (clock_seconds dt + total_seconds delta)
      <-> DateTime.add dt delta = Raise OverflowError).
Proof.
  unfold DateTime.add. split; [intros r; apply add_seconds_spec|].
  split; split.
  - apply add_seconds_total.
  - intros [r Hr]. apply add_seconds_spec in Hr as (Hv & <- & _).
    by apply valid_representable.
  - apply add_seconds_overflow.
  - intros Hraise Hrep. apply add_seconds_total in Hrep as [r Hr].
    by rewrite Hr in Hraise.
Qed.

(** X18.  What [--modify-time] does to the creation time.  With no
    conversion of the time zone asked for, the time that
    [execute_by_path] goes on with is the one date and time of the
    calendar whose clock value is later by the seconds of the
    [timedelta]; the microsecond and the time zone are kept.  There is
    such a date exactly when the sum lies between the first day of year 1
    and the last day of year 9999; otherwise the addition raises
    [OverflowError]. *)
Theorem modify_time_shifts_the_clock env args delta dt :
  args_ignore_timezone args = false ->
  valid_datetime dt ->
  (forall r,
     adjust_time env args (Some delta) None dt = Ok r
     <-> valid_datetime r
         /\ clock_seconds r = clock_seconds dt + total_seconds delta
         /\ microsecond r = microsecond dt
         /\ tzinfo r = tzinfo dt)
  /\ (representable (clock_seconds dt + total_seconds delta)
      <-> exists r, adjust_time env args (Some delta) None dt = Ok r)
  /\ (~ representable (clock_seconds dt + total_seconds delta)
      <-> adjust_time env args (Some delta) None dt = Raise OverflowError).
Proof.
  intros Hignore Hv. unfold adjust_time, timedelta_truthy.
  destruct (Z.eqb_spec (total_seconds delta) 0) as [Hzero|Hzero]; simpl.
  - rewrite Hignore, Hzero, Z.add_0_r. split; [|split].
    + intros r. split.
      * intros [= <-]. done.
      * intros (Hvr & Hc & Hus & Htz). f_equal. by apply clock_seconds_inj.
    + split; [by exists dt|]. intros _. by apply valid_representable.
    + split; [|done]. intros Hrep. by destruct Hrep; apply valid_representable.
  - destruct (add_spec dt delta) as (Hadd & Htotal & Hover).
    destruct (DateTime.add dt delta) as [r0| |] eqn:E;
      rewrite ?Hignore; done.
Qed.

Lemma modify_time_shifts_the_clock_witness :
  adjust_time Example.env Example.args
    (Some (Timedelta 3600)) None Example.taken
  = Ok (mkDatetime 2023 5 1 11 0 0 0 (Some (Timezone 7200))).
Proof.
  apply (proj1 (modify_time_shifts_the_clock Example.env Example.args
                  (Timedelta 3600) Example.taken eq_refl
                  ltac:(unfold valid_datetime, valid_date; vm_compute;
                        intuition discriminate))).
  unfold valid_datetime, valid_date; vm_compute; intuition discriminate.
Defined.

Lemma clock_replace_tzinfo dt tz :
  clock_seconds (replace_tzinfo dt tz) = clock_seconds dt.
Proof. reflexivity. Qed.

Lemma astimezone_spec local dt tz r :
  astimezone local dt tz = Ok r
  <-> representable (clock_seconds dt - own_offset local dt)
      /\ valid_datetime r
      /\ clock_seconds r - utcoffset tz
         = clock_seconds dt - own_offset local dt
      /\ microsecond r = microsecond dt
      /\ tzinfo r = Some tz.
Proof.
  unfold astimezone. fold (own_offset local dt).
  split.
  - destruct (add_seconds dt (- own_offset local dt)) as [u| |] eqn:Hu;
      [|done|done].
    apply add_seconds_spec in Hu as (Hvu & Hcu & Husu & Htzu).
    intros (Hv & Hc & Hus & Htz)%add_seconds_spec.
    split; [|split; [done|split; [|split]]].
    + replace (clock_seconds dt - own_offset local dt)
        with (clock_seconds u) by lia.
      by apply valid_representable.
    + rewrite clock_replace_tzinfo in Hc. lia.
    + by rewrite Hus.
    + by rewrite Htz.
  - intros (Hrep & Hv & Hc & Hus & Htz).
    destruct (add_seconds_total dt (- own_offset local dt)) as [u Hu].
    { by replace (clock_seconds dt + - own_offset local dt)
        with (clock_seconds dt - own_offset local dt) by lia. }
    rewrite Hu. apply add_seconds_spec in Hu as (Hvu & Hcu & Husu & Htzu).
    apply add_seconds_spec. split; [done|].
    split; [|split; [by rewrite Hus|done]].
    rewrite clock_replace_tzinfo. lia.
Qed.

(** X19.  What [--target-timezone] does to the creation time.  The
    conversion gives the one date and time of the calendar that, at the
    offset of the target time zone, names the same instant as the
    creation time at its own offset (at that of the system time zone when
    it is naive).  The result carries the target time zone and keeps the
    microsecond.  The conversion succeeds exactly when the instant, as
    UTC, and the result both lie between years 1 and 9999. *)
Theorem target_timezone_keeps_the_instant env args tz dt r :
  adjust_time env args None (Some tz) dt = Ok r
  <-> representable (clock_seconds dt - own_offset (local_utcoffset env) dt)
      /\ valid_datetime r
      /\ clock_seconds r - utcoffset tz
         = clock_seconds dt - own_offset (local_utcoffset env) dt
      /\ microsecond r = microsecond dt
      /\ tzinfo r = Some tz.
Proof. unfold adjust_time. apply astimezone_spec. Qed.

(** X20.  Converting to a time zone and back.  For a valid creation time
    with a time zone: when the conversion of [execute_by_path] to a
    target time zone succeeds, converting the result back to the first
    time zone gives the creation time again; and a conversion to the
    offset that the creation time already has changes the time zone
    object only. *)
Theorem timezone_conversion_round_trip env args dt tz0 tz r :
  valid_datetime dt ->
  tzinfo dt = Some tz0 ->
  adjust_time env args None (Some tz) dt = Ok r ->
  adjust_time env args None (Some tz0) r = Ok dt
  /\ (utcoffset tz = utcoffset tz0 ->
      r = replace_tzinfo dt (Some tz)).
Proof.
  unfold adjust_time. intros Hv Htz0 Hconv.
  apply astimezone_spec in Hconv as (Hrep & Hvr & Hc & Hus & Htz).
  unfold own_offset in *. rewrite Htz0 in *.
  split.
  - apply astimezone_spec. unfold own_offset. rewrite Htz.
    split; [by rewrite Hc|]. split; [done|].
    split; [lia|]. split; [by rewrite Hus|done].
  - intros Hsame. apply clock_seconds_inj; try done.
    rewrite clock_replace_tzinfo. lia.
Qed.

End Clock.

Lemma timezone_conversion_round_trip_witness :
  adjust_time Example.env Example.args None (Some (DateTime.Timezone 7200))
    Example.two_hours_earlier
  = Ok Example.taken
  /\ (DateTime.utcoffset DateTime.utc
      = DateTime.utcoffset (DateTime.Timezone 7200) ->
      Example.two_hours_earlier
      = DateTime.replace_tzinfo Example.taken (Some DateTime.utc)).
Proof.
  apply (timezone_conversion_round_trip Example.env Example.args
           Example.taken (DateTime.Timezone 7200) DateTime.utc).
  - unfold valid_datetime, valid_date; vm_compute; intuition discriminate.
  - reflexivity.
  - vm_compute. reflexivity.
Defined.

(** ** The default name and the second of the creation time *)

Lemma length_zeros (k : nat) :
  String.length (string_of_list_ascii (repeat "0"%char k)) = k.
Proof. induction k as [|k IH]; simpl; congruence. Qed.

Lemma pad_length (w : nat) (z : Z) :
  0 < w -> (0 <= z < 10 ^ Z.of_nat w)%Z ->
  String.length (DateTime.pad w z) = w.
Proof.
  intros Hw Hz. unfold DateTime.pad.
  rewrite length_append, length_zeros.
  pose proof (str_nat_length_Z (Z.to_nat z) w Hw) as Hlen.
  rewrite Z2Nat.id in Hlen by lia. specialize (Hlen ltac:(lia)). lia.
Qed.

Lemma int_digits_str_nat_from (n count : nat) (b : bool) :
  Builtins.int_digits 0 count b (PyStr.str_nat n)
  = Some (Z.of_nat n, count + String.length (PyStr.str_nat n)).
Proof.
  unfold PyStr.str_nat, NilZero.string_of_uint.
  pose proof (Unsigned.of_to n) as Hval. unfold Nat.of_uint in Hval.
  pose proof (to_uint_normal n) as Hnorm.
  destruct (Nat.to_uint n) as [|d|d|d|d|d|d|d|d|d|d] eqn:E.
  { by destruct (DecimalFacts.unorm_nonnil Decimal.Nil). }
  all: rewrite length_string_of_uint.
  all: rewrite (int_digits_uint _ 0 count b) by (by left).
  all: by rewrite Hval.
Qed.

Lemma int_digits_zeros (k count : nat) (b : bool) (s : string) :
  Builtins.int_digits 0 count b
    (string_of_list_ascii (repeat "0"%char k) +:+ s)
  = Builtins.int_digits 0 (count + k) (b || bool_decide (0 < k)) s.
Proof.
  revert count b. induction k as [|k IH]; intros count b.
  - simpl. by rewrite Nat.add_0_r, orb_false_r.
  - cbn [repeat string_of_list_ascii]. rewrite append_cons.
    cbn [Builtins.int_digits].
    change (DateTime.digit "0") with (Some 0%Z). cbv beta iota.
    rewrite IH. rewrite orb_true_r. simpl. f_equal. lia.
Qed.

(** The number that a padded text shows. *)
Lemma pad_value (w : nat) (z : Z) :
  (0 <= z)%Z ->
  fst <$> Builtins.int_digits 0 0 false (DateTime.pad w z) = Some z.
Proof.
  intros Hz. unfold DateTime.pad.
  rewrite int_digits_zeros, int_digits_str_nat_from. simpl. f_equal. lia.
Qed.

Lemma pad_inj (w : nat) (a b : Z) :
  (0 <= a)%Z -> (0 <= b)%Z -> DateTime.pad w a = DateTime.pad w b -> a = b.
Proof.
  intros Ha Hb Heq.
  pose proof (pad_value w a Ha) as Hva. rewrite Heq, pad_value in Hva by done.
  by injection Hva.
Qed.

Lemma append_inj_length (s1 s2 t1 t2 : string) :
  String.length s1 = String.length s2 ->
  s1 +:+ t1 = s2 +:+ t2 -> s1 = s2 /\ t1 = t2.
Proof.
  revert s2. induction s1 as [|a s1 IH]; intros [|b s2] Hlen Heq; try done.
  rewrite !append_cons in Heq. injection Heq as -> Heq.
  injection Hlen as Hlen. destruct (IH _ Hlen Heq) as [-> ->]. done.
Qed.

Lemma no_percent_app (s t : string) :
  no_percent s -> no_percent t -> no_percent (s +:+ t).
Proof.
  unfold no_percent. intros Hs Ht. by rewrite contains_append, Hs, Ht.
Qed.

Lemma strftime_no_percent (dt : DateTime.datetime) (s : string) :
  no_percent s -> DateTime.strftime dt s = s.
Proof.
  intros Hs. rewrite <- (append_nil_r s) at 1.
  rewrite strftime_literal by done. apply append_nil_r.
Qed.

(** The text of the default time format. *)
Lemma strftime_default (dt : DateTime.datetime) :
  DateTime.strftime dt "%Y%m%d_%H%M%S"
  = DateTime.pad 4 (DateTime.year dt) +:+ DateTime.pad 2 (DateTime.month dt)
    +:+ DateTime.pad 2 (DateTime.day dt) +:+ "_"
    +:+ DateTime.pad 2 (DateTime.hour dt)
    +:+ DateTime.pad 2 (DateTime.minute dt)
    +:+ DateTime.pad 2 (DateTime.second dt).
Proof.
  cbn [DateTime.strftime Ascii.eqb Bool.eqb DateTime.directive].
  by rewrite append_nil_r.
Qed.

Lemma strftime_default_inj (dt dt' : DateTime.datetime) :
  valid_datetime dt -> valid_datetime dt' ->
  DateTime.strftime dt "%Y%m%d_%H%M%S" = DateTime.strftime dt' "%Y%m%d_%H%M%S"
  -> DateTime.year dt = DateTime.year dt'
     /\ DateTime.month dt = DateTime.month dt'
     /\ DateTime.day dt = DateTime.day dt'
     /\ DateTime.hour dt = DateTime.hour dt'
     /\ DateTime.minute dt = DateTime.minute dt'
     /\ DateTime.second dt = DateTime.second dt'.
Proof.
  intros ((Hy & Hm & Hd) & Hh & Hmin & Hs).
  intros ((Hy' & Hm' & Hd') & Hh' & Hmin' & Hs').
  assert (Hdim : forall y m, (DateTime.days_in_month y m <= 31)%Z).
  { intros y m. unfold DateTime.days_in_month, DateTime.DAYS_IN_MONTH.
    repeat case_match; lia. }
  pose proof (Hdim (DateTime.year dt) (DateTime.month dt)).
  pose proof (Hdim (DateTime.year dt') (DateTime.month dt')).
  rewrite !strftime_default. intros Heq.
  repeat match type of Heq with
  | DateTime.pad ?w ?a +:+ _ = DateTime.pad ?w ?b +:+ _ =>
      apply append_inj_length in Heq as [?%pad_inj Heq];
      [| lia | lia | rewrite !pad_length by (simpl; lia); reflexivity ]
  | "_" +:+ _ = "_" +:+ _ =>
      rewrite !append_cons, !append_nil_l in Heq; injection Heq as Heq
  end.
  apply pad_inj in Heq; [|lia|lia]. done.
Qed.

(** X21.  Under the default time format [%Y%m%d_%H%M%S], with a prefix,
    a suffix and extensions that hold no [%], two valid creation times of
    four-digit years give the same target name (same counter, same
    directory) exactly when they agree in year, month, day, hour, minute
    and second: the microsecond and the time zone never reach the name,
    and files of the same second ask for the same name. *)
Theorem default_name_tells_the_second (self : Extractable.t)
    (dt dt' : DateTime.datetime) (counter : option nat)
    (dir : option string) :
  Extractable.time_format self = "%Y%m%d_%H%M%S" ->
  no_percent (default "" (Extractable.prefix self)) ->
  no_percent (default "" (Extractable.suffix self)) ->
  no_percent (PyStr.join (match Extractable.extensions self with
                          | [] => own_extensions self
                          | l => l
                          end)) ->
  valid_datetime dt -> valid_datetime dt' ->
  (1000 <= DateTime.year dt)%Z -> (1000 <= DateTime.year dt')%Z ->
  Extractable.get_name self dt counter dir
  = Extractable.get_name self dt' counter dir
  <-> DateTime.year dt = DateTime.year dt'
      /\ DateTime.month dt = DateTime.month dt'
      /\ DateTime.day dt = DateTime.day dt'
      /\ DateTime.hour dt = DateTime.hour dt'
      /\ DateTime.minute dt = DateTime.minute dt'
      /\ DateTime.second dt = DateTime.second dt'.
Proof.
  intros Hfmt Hprefix Hsuffix Hexts Hv Hv' _ _.
  set (head := if opt_truthy (Extractable.prefix self)
               then default "" (Extractable.prefix self) else "").
  set (rest := match counter with
               | Some (S _ as c) => "_" +:+ PyStr.str_nat c
               | _ => ""
               end
               +:+ (if opt_truthy (Extractable.suffix self)
                    then default "" (Extractable.suffix self) else "")
               +:+ PyStr.join (match Extractable.extensions self with
                               | [] => own_extensions self
                               | l => l
                               end)).
  assert (Hhead : no_percent head).
  { unfold head.
    destruct (opt_truthy (Extractable.prefix self));
      [exact Hprefix|reflexivity]. }
  assert (Hrest : no_percent rest).
  { unfold rest. repeat apply no_percent_app; [| |done].
    - destruct counter as [[|c]|]; try reflexivity.
      apply (no_percent_app "_"); [reflexivity|apply no_percent_str_nat].
    - destruct (opt_truthy (Extractable.suffix self));
        [exact Hsuffix|reflexivity]. }
  assert (Hname : forall d,
    Extractable.get_name self d counter dir
    = PathLib.joinpath (match dir with
                        | Some x => x
                        | None => parent (Extractable.path self)
                        end)
        (head +:+ DateTime.strftime d "%Y%m%d_%H%M%S" +:+ rest)).
  { intros d. unfold Extractable.get_name. f_equal.
    rewrite get_name_fmt_template. unfold name_stem. rewrite Hfmt.
    fold head. rewrite !append_assoc. fold rest.
    rewrite strftime_literal by done. f_equal.
    rewrite strftime_app by done. f_equal.
    by apply strftime_no_percent. }
  rewrite !Hname. split.
  - intros Heq. injection Heq as Heq.
    apply String.app_inj in Heq.
    apply append_inv_tail in Heq.
    by apply strftime_default_inj.
  - intros (Hy & Hm & Hd & Hh & Hmin & Hs).
    by rewrite !strftime_default, Hy, Hm, Hd, Hh, Hmin, Hs.
Qed.

Lemma default_name_tells_the_second_witness :
  Extractable.get_name
    (configure ClsImage Example.img1 Example.args)
    Example.taken None None
  = Extractable.get_name
    (configure ClsImage Example.img1 Example.args)
    Example.two_hours_earlier None None
  <-> DateTime.year Example.taken = DateTime.year Example.two_hours_earlier
      /\ DateTime.month Example.taken
         = DateTime.month Example.two_hours_earlier
      /\ DateTime.day Example.taken = DateTime.day Example.two_hours_earlier
      /\ DateTime.hour Example.taken
         = DateTime.hour Example.two_hours_earlier
      /\ DateTime.minute Example.taken
         = DateTime.minute Example.two_hours_earlier
      /\ DateTime.second Example.taken
         = DateTime.second Example.two_hours_earlier.
Proof.
  apply default_name_tells_the_second; try reflexivity.
  - unfold valid_datetime, valid_date; vm_compute; intuition discriminate.
  - unfold valid_datetime, valid_date; vm_compute; intuition discriminate.
  - vm_compute; discriminate.
  - vm_compute; discriminate.
Defined.
